(** * The pre-call request pipeline of the complexity router

    A shallow embedding of [litellm-proxy/complexity_router.py]: the
    override-command parser, the context-exhaustion guard, the ledger
    reminder, the documentation-policy detector and the pre-call hook
    that sequences them.

    Conventions of the embedding
    - Python [str] is [string]; [len] is [String.length]; case folding
      and white space are those of the ASCII range.
    - A Python [dict] used as a map is a [gmap]; the classification
      cache, whose eviction depends on insertion order, is an
      association list.
    - Module-level caches are the fields of [World]; a function that
      mutates them takes a world and returns the new one.
    - What the module obtains from outside (digests, the file system,
      the clock, the classifier model's reply) is a field of [Env].
      The clock is in whole seconds; a call reads it as [utcnow],
      and where the source reads it again within one function the
      further readings are [utcnow_again].
    - Logging and the telemetry sinks (Langfuse dataset items, the
      request snapshot written to disk) are left out: they do not
      feed back into the request or the caches. *)

From Stdlib Require Import String Ascii ZArith List Bool Lia.
From stdpp Require Import base option gmap strings list fin_maps pretty.

Import ListNotations.
Local Open Scope string_scope.
Local Open Scope Z_scope.

(** ** Strings *)

Module Str.

(** [str.lower()] on the ASCII range. *)
Definition lower_char (c : ascii) : ascii :=
  let n := nat_of_ascii c in
  if (Nat.leb 65 n && Nat.leb n 90)%bool then ascii_of_nat (n + 32) else c.

Fixpoint lower (s : string) : string :=
  match s with
  | EmptyString => EmptyString
  | String c r => String (lower_char c) (lower r)
  end.

(** [str.isspace()] on the ASCII range: TAB, LF, VT, FF, CR, the four
    separators 28-31 and the blank. *)
Definition is_space (c : ascii) : bool :=
  let n := nat_of_ascii c in
  ((Nat.leb 9 n && Nat.leb n 13) || (Nat.leb 28 n && Nat.leb n 32))%bool.

Fixpoint lstrip (s : string) : string :=
  match s with
  | String c r => if is_space c then lstrip r else s
  | EmptyString => EmptyString
  end.

(** [rstrip] keeps a character when something other than white space
    follows it or when it is not white space itself. *)
Fixpoint rstrip (s : string) : string :=
  match s with
  | EmptyString => EmptyString
  | String c r =>
      match rstrip r with
      | EmptyString => if is_space c then EmptyString else String c EmptyString
      | r' => String c r'
      end
  end.

(** [str.strip()] *)
Definition strip (s : string) : string := rstrip (lstrip s).

Definition len (s : string) : Z := Z.of_nat (String.length s).

(** [sub in s] *)
Fixpoint contains (sub s : string) : bool :=
  if String.prefix sub s then true
  else match s with
       | EmptyString => false
       | String _ r => contains sub r
       end.

(** [s[:n]] *)
Definition take (n : nat) (s : string) : string := String.substring 0 n s.

(** Truthiness of a string: non-empty. *)
Definition nonempty (s : string) : bool :=
  match s with EmptyString => false | _ => true end.

(** [sep.join(parts)] *)
Fixpoint join (sep : string) (parts : list string) : string :=
  match parts with
  | [] => ""
  | [p] => p
  | p :: rest => p ++ sep ++ join sep rest
  end.

(** [s.split(sep, 1)]: the text before and after the first occurrence
    of [sep], or [None] when [sep] does not occur. *)
Fixpoint split_once (sep s : string) : option (string * string) :=
  if String.prefix sep s
  then Some ("", String.substring (String.length sep) (String.length s - String.length sep) s)
  else match s with
       | EmptyString => None
       | String c r =>
           match split_once sep r with
           | Some (a, b) => Some (String c a, b)
           | None => None
           end
       end.



(** [s.replace(sub, "")] for a non-empty [sub]; [skip] counts the
    characters of a removed occurrence still to be dropped. *)
Fixpoint remove_go (sub : string) (skip : nat) (s : string) : string :=
  match s with
  | EmptyString => EmptyString
  | String c r =>
      match skip with
      | S k => remove_go sub k r
      | O => if String.prefix sub s then remove_go sub (String.length sub - 1) r
             else String c (remove_go sub 0 r)
      end
  end.

Definition remove (sub s : string) : string := remove_go sub 0 s.

(** [s.split()]: the maximal runs of characters that are not white
    space. *)
Fixpoint words_go (cur : option string) (s : string) : list string :=
  match s with
  | EmptyString => match cur with Some w => [String.rev w] | None => [] end
  | String c r =>
      if is_space c
      then match cur with Some w => String.rev w :: words_go None r | None => words_go None r end
      else words_go (Some (String c (default "" cur))) r
  end.

Definition words (s : string) : list string := words_go None s.

(** The text after [pre] when [s] starts with it. *)
Definition strip_prefix (pre s : string) : option string :=
  if String.prefix pre s
  then Some (String.substring (String.length pre) (String.length s - String.length pre) s)
  else None.

(** [str.upper()] on the ASCII range. *)
Definition upper_char (c : ascii) : ascii :=
  let n := nat_of_ascii c in
  if (Nat.leb 97 n && Nat.leb n 122)%bool then ascii_of_nat (n - 32) else c.

Fixpoint upper (s : string) : string :=
  match s with
  | EmptyString => EmptyString
  | String c r => String (upper_char c) (upper r)
  end.

End Str.

(** ** Documentation-policy detector *)

(** The pairs (pattern, reason) of [detect_policy_violation]. *)
Definition violation_patterns : list (string * string) :=
  [ ("create a new markdown", "create new markdown");
    ("create a new .md", "create new .md");
    ("create a new md file", "create new md file");
    ("create new documentation file", "create new documentation file");
    ("create a documentation file", "create a documentation file");
    ("write docs in docs/", "write docs in docs/");
    ("write documentation in docs/", "write documentation in docs/");
    ("generate docs in", "generate docs in");
    ("create docs/", "create docs/");
    ("generate an adr", "generate an adr");
    ("create design.md", "create design.md");
    ("create architecture.md", "create architecture.md");
    ("add documentation under /docs", "add documentation under /docs");
    ("create a new doc", "create a new doc");
    ("write a new doc", "write a new doc");
    ("generate a new doc", "generate a new doc");
    ("create documentation in", "create documentation in");
    ("write documentation to", "write documentation to");
    ("generate documentation file", "generate documentation file");
    ("create .md file", "create .md file");
    ("new markdown file", "new markdown file");
    ("new documentation file", "new documentation file") ].

Definition folder_patterns : list string :=
  [ "docs/"; "architecture/"; "design/"; "documentation/" ].

Definition create_indicators : list string :=
  [ "create"; "write"; "generate"; "add"; "new" ].

(** The test both loops make before they report:
    ["readme.md" in message_lower or "agents.md" in message_lower]. *)
Definition mentions_allowed_file (message_lower : string) : bool :=
  (Str.contains "readme.md" message_lower || Str.contains "agents.md" message_lower)%bool.

(** The first loop: [for pattern, reason in violation_patterns]. *)
Fixpoint scan_violation_patterns (message_lower : string)
    (pats : list (string * string)) : option string :=
  match pats with
  | [] => None
  | (pattern, reason) :: rest =>
      if Str.contains pattern message_lower then
        if mentions_allowed_file message_lower
        then scan_violation_patterns message_lower rest
        else Some ("Request explicitly asks to " ++ reason)
      else scan_violation_patterns message_lower rest
  end.

(** The inner loop: [for indicator in create_indicators]. *)
Fixpoint scan_indicators (message_lower folder : string)
    (inds : list string) : option string :=
  match inds with
  | [] => None
  | indicator :: rest =>
      if (Str.contains indicator message_lower && Str.contains folder message_lower)%bool then
        if mentions_allowed_file message_lower
        then scan_indicators message_lower folder rest
        else Some ("Request asks to create documentation in " ++ folder)
      else scan_indicators message_lower folder rest
  end.

(** The second loop: [for folder in folder_patterns]. *)
Fixpoint scan_folders (message_lower : string) (folders : list string) : option string :=
  match folders with
  | [] => None
  | folder :: rest =>
      if Str.contains folder message_lower then
        match scan_indicators message_lower folder create_indicators with
        | Some r => Some r
        | None => scan_folders message_lower rest
        end
      else scan_folders message_lower rest
  end.

Definition detect_policy_violation (user_message : string) : option string :=
  if negb (Str.nonempty user_message) then None
  else
    let message_lower := Str.lower user_message in
    match scan_violation_patterns message_lower violation_patterns with
    | Some r => Some r
    | None => scan_folders message_lower folder_patterns
    end.

(** ** Regular expressions of the override commands

    The two compiled patterns use literals, alternation, optional
    parts, [\s+], [\s*], [\d+], capture groups and [\b], under
    [re.IGNORECASE].  [Re.search] is a backtracking matcher with
    Python's priorities: alternatives left to right, repetitions and
    optional parts greedy. *)

Module Re.

Inductive re : Type :=
| Eps
| Lit (l : string)                 (* a literal, letters matched without case *)
| Plus (p : ascii -> bool)         (* one or more characters of a class *)
| Star (p : ascii -> bool)         (* zero or more characters of a class *)
| Seq (a b : re)
| Alt (a b : re)
| Opt (a : re)
| Group (n : nat) (a : re)
| WordB.                           (* \b *)

Fixpoint alts (rs : list re) : re :=
  match rs with
  | [] => Eps
  | [r] => r
  | r :: rest => Alt r (alts rest)
  end.

Fixpoint seqs (rs : list re) : re :=
  match rs with
  | [] => Eps
  | [r] => r
  | r :: rest => Seq r (seqs rest)
  end.

Definition is_digit (c : ascii) : bool :=
  let n := nat_of_ascii c in (Nat.leb 48 n && Nat.leb n 57)%bool.

(** [\w] on the ASCII range *)
Definition is_word (c : ascii) : bool :=
  let n := nat_of_ascii c in
  ((Nat.leb 48 n && Nat.leb n 57) || (Nat.leb 65 n && Nat.leb n 90)
   || (Nat.leb 97 n && Nat.leb n 122) || Nat.eqb n 95)%bool.

Definition word_before (prev : option ascii) : bool :=
  match prev with Some c => is_word c | None => false end.

Definition word_after (s : string) : bool :=
  match s with String c _ => is_word c | EmptyString => false end.

(** Consume the literal [l] at the head of [s], ignoring case. *)
Fixpoint lit_prefix (l : string) (prev : option ascii) (s : string)
    : option (option ascii * string) :=
  match l with
  | EmptyString => Some (prev, s)
  | String a l' =>
      match s with
      | String c s' =>
          if Ascii.eqb (Str.lower_char a) (Str.lower_char c)
          then lit_prefix l' (Some c) s' else None
      | EmptyString => None
      end
  end.

(** Greedy repetition of a character class: take as many as possible,
    give them back one at a time while the continuation fails. *)
Fixpoint star_class {A} (p : ascii -> bool) (prev : option ascii) (s : string)
    (k : option ascii -> string -> option A) : option A :=
  match s with
  | String c s' =>
      if p c then
        match star_class p (Some c) s' k with
        | Some x => Some x
        | None => k prev s
        end
      else k prev s
  | EmptyString => k prev s
  end.

(** The text between the place where a group was entered ([s]) and
    the place where it was left ([s']). *)
Definition consumed (s s' : string) : string :=
  String.substring 0 (String.length s - String.length s') s.

Fixpoint match_re (r : re) (prev : option ascii) (s : string) (cs : gmap nat string)
    (k : option ascii -> string -> gmap nat string -> option (gmap nat string))
    {struct r} : option (gmap nat string) :=
  match r with
  | Eps => k prev s cs
  | Lit l =>
      match lit_prefix l prev s with
      | Some (prev', s') => k prev' s' cs
      | None => None
      end
  | Plus p =>
      match s with
      | String c s' =>
          if p c then star_class p (Some c) s' (fun pv t => k pv t cs) else None
      | EmptyString => None
      end
  | Star p => star_class p prev s (fun pv t => k pv t cs)
  | Seq a b => match_re a prev s cs (fun pv t cs' => match_re b pv t cs' k)
  | Alt a b =>
      match match_re a prev s cs k with
      | Some x => Some x
      | None => match_re b prev s cs k
      end
  | Opt a =>
      match match_re a prev s cs k with
      | Some x => Some x
      | None => k prev s cs
      end
  | Group n a =>
      match_re a prev s cs (fun pv t cs' => k pv t (<[n := consumed s t]> cs'))
  | WordB =>
      if xorb (word_before prev) (word_after s) then k prev s cs else None
  end.

(** [pattern.search(s)]: the groups of the leftmost match. *)
Fixpoint search_from (r : re) (prev : option ascii) (s : string)
    : option (gmap nat string) :=
  match match_re r prev s ∅ (fun _ _ cs => Some cs) with
  | Some cs => Some cs
  | None =>
      match s with
      | String c s' => search_from r (Some c) s'
      | EmptyString => None
      end
  end.

Definition search (r : re) (s : string) : option (gmap nat string) :=
  search_from r None s.

End Re.

(** [_OVERRIDE_PATTERN] *)
Definition _OVERRIDE_PATTERN : Re.re :=
  Re.seqs
    [ Re.alts [ Re.Lit "use";
                Re.seqs [Re.Lit "switch"; Re.Plus Str.is_space; Re.Lit "to"];
                Re.Lit "force"; Re.Lit "set" ];
      Re.Plus Str.is_space;
      Re.Group 1 (Re.alts [Re.Lit "opus"; Re.Lit "sonnet"; Re.Lit "haiku"]);
      Re.Opt (Re.seqs
        [ Re.Plus Str.is_space;
          Re.alts [Re.Lit "for"; Re.Lit "during"];
          Re.Plus Str.is_space;
          Re.Opt (Re.seqs [ Re.Lit "the"; Re.Plus Str.is_space;
                            Re.Lit "next"; Re.Plus Str.is_space ]);
          Re.Group 2 (Re.Plus Re.is_digit);
          Re.Star Str.is_space;
          Re.alts [ Re.seqs [ Re.Lit "min"; Re.Opt (Re.Lit "ute"); Re.Opt (Re.Lit "s") ];
                    Re.Lit "m" ];
          Re.WordB ]) ].

(** [_CANCEL_OVERRIDE_PATTERN] *)
Definition _CANCEL_OVERRIDE_PATTERN : Re.re :=
  Re.seqs
    [ Re.alts [ Re.Lit "cancel"; Re.Lit "clear"; Re.Lit "stop";
                Re.Lit "remove"; Re.Lit "disable"; Re.Lit "reset" ];
      Re.Plus Str.is_space;
      Re.Opt (Re.seqs [Re.Lit "the"; Re.Plus Str.is_space]);
      Re.Opt (Re.seqs [Re.Lit "model"; Re.Plus Str.is_space]);
      Re.alts [Re.Lit "override"; Re.Lit "routing"; Re.Lit "complexity"] ].

(** ** Configuration

    The module-level constants read from the process environment when
    the module is loaded. *)

Record Config : Type := {
  COMPLEXITY_OVERRIDE_DEFAULT_TTL_MINUTES : Z;
  COMPLEXITY_OVERRIDE_MAX_TTL_MINUTES : Z;
  CONTEXT_SOFT_LIMIT_TOKENS : Z;
  CONTEXT_HARD_LIMIT_TOKENS : Z;
  CONTEXT_BLOCK_LIMIT_TOKENS : Z;
  CONTEXT_DUPLICATE_MIN_TOKENS : Z;
  ENFORCEMENT_OVERHEAD_TOKENS : Z;
  LEDGER_ENFORCEMENT_APPLY_ALL : bool;
  LEDGER_ENFORCEMENT_REPOS : list string;
  SESSION_CACHE_TTL_SECONDS : Z;
  SESSION_FILE_TTL_SECONDS : Z;
  REQUEST_CAPTURE_ENABLED : bool;
  ROUTER_BUILD_ID : string;
}.

(** The defaults of the source, with an empty build id. *)
Definition default_config : Config := {|
  COMPLEXITY_OVERRIDE_DEFAULT_TTL_MINUTES := 5;
  COMPLEXITY_OVERRIDE_MAX_TTL_MINUTES := 60;
  CONTEXT_SOFT_LIMIT_TOKENS := 180000;
  CONTEXT_HARD_LIMIT_TOKENS := 200000;
  CONTEXT_BLOCK_LIMIT_TOKENS := 12000;
  CONTEXT_DUPLICATE_MIN_TOKENS := 800;
  ENFORCEMENT_OVERHEAD_TOKENS := 400;
  LEDGER_ENFORCEMENT_APPLY_ALL := true;
  LEDGER_ENFORCEMENT_REPOS := [];
  SESSION_CACHE_TTL_SECONDS := 7200;
  SESSION_FILE_TTL_SECONDS := 10800;
  REQUEST_CAPTURE_ENABLED := false;
  ROUTER_BUILD_ID := "";
|}.

(** ** Override commands *)

Inductive OverrideCommand : Type :=
| CancelCommand                                             (* {"cancel": True} *)
| SetCommand (model complexity : string) (ttl_minutes : Z). (* model, complexity, ttl_minutes *)

(** [_MODEL_NAME_TO_COMPLEXITY.get] *)
Definition _MODEL_NAME_TO_COMPLEXITY (model_name : string) : option string :=
  if String.eqb model_name "opus" then Some "COMPLEX"
  else if String.eqb model_name "sonnet" then Some "MODERATE"
  else if String.eqb model_name "haiku" then Some "SIMPLE"
  else None.

(** [int(duration_str)] for a string of decimal digits. *)
Fixpoint int_of_digits_acc (acc : Z) (s : string) : Z :=
  match s with
  | EmptyString => acc
  | String c r => int_of_digits_acc (10 * acc + (Z.of_nat (nat_of_ascii c) - 48)) r
  end.

Definition int_of_digits (s : string) : Z := int_of_digits_acc 0 s.

Definition _parse_override_command (cfg : Config) (message : string) : option OverrideCommand :=
  if negb (Str.nonempty message) then None
  else if bool_decide (is_Some (Re.search _CANCEL_OVERRIDE_PATTERN message)) then Some CancelCommand
  else
    match Re.search _OVERRIDE_PATTERN message with
    | None => None
    | Some groups =>
        let model_name := Str.lower (default "" (groups !! 1%nat)) in
        let duration_str := groups !! 2%nat in
        match _MODEL_NAME_TO_COMPLEXITY model_name with
        | None => None
        | Some complexity =>
            let ttl_minutes :=
              match duration_str with
              | Some d =>
                  if Str.nonempty d
                  then Z.min (int_of_digits d) (COMPLEXITY_OVERRIDE_MAX_TTL_MINUTES cfg)
                  else COMPLEXITY_OVERRIDE_DEFAULT_TTL_MINUTES cfg
              | None => COMPLEXITY_OVERRIDE_DEFAULT_TTL_MINUTES cfg
              end in
            Some (SetCommand model_name complexity ttl_minutes)
        end
    end.

(** ** Requests *)

(** A value stored in a metadata dictionary. *)
Inductive mval : Type :=
| VStr (s : string)
| VInt (n : Z)
| VBool (b : bool).

Global Instance mval_eq_dec : EqDecision mval.
Proof. solve_decision. Defined.

(** [str(v)] *)
Definition py_str (v : mval) : string :=
  match v with
  | VStr s => s
  | VInt n => pretty n
  | VBool true => "True"
  | VBool false => "False"
  end.

(** [a == b], as a set of request ids tests it: texts are equal to
    texts only, and [True] and [False] are the numbers 1 and 0. *)
Definition py_num (v : mval) : option Z :=
  match v with
  | VStr _ => None
  | VInt n => Some n
  | VBool b => Some (if b then 1 else 0)
  end.

Definition py_eq (a b : mval) : bool :=
  match a, b with
  | VStr s, VStr t => String.eqb s t
  | VStr _, _ => false
  | _, VStr _ => false
  | _, _ => bool_decide (py_num a = py_num b)
  end.

(** Truthiness of a value. *)
Definition truthy (v : mval) : bool :=
  match v with
  | VStr s => Str.nonempty s
  | VInt n => negb (n =? 0)
  | VBool b => b
  end.

(** [m.get(k)] for the keys the router reads as text ([repo],
    [repo_root], [user_id], [request_type], ...): the string stored
    under [k]; a key that is absent or holds a value of another type
    reads as absent. *)
Definition get_str (m : gmap string mval) (k : string) : option string :=
  match m !! k with
  | Some (VStr s) => Some s
  | _ => None
  end.

(** Truthiness of an optional string: present and non-empty. *)
Definition truthy_str (o : option string) : bool :=
  match o with Some s => Str.nonempty s | None => false end.

(** [m.setdefault(k, v)] *)
Definition setdefault (k : string) (v : mval) (m : gmap string mval) : gmap string mval :=
  match m !! k with Some _ => m | None => <[k := v]> m end.

(** One element of a list-valued message content. *)
Inductive Block : Type :=
| TextBlock (text : string)          (* {"type": "text", "text": text} *)
| ToolResult (content : string)      (* {"type": "tool_result"}, with str(content) *)
| OtherBlock (repr : string)         (* another dict, with its str() *)
| RawBlock (repr : string).          (* not a dict, with its str() *)

Inductive Content : Type :=
| ContentStr (s : string)
| ContentList (blocks : list Block)
| ContentAbsent                      (* the message has no "content" key *)
| ContentNull                        (* None *)
| ContentOther (repr : string).      (* any other value, with its str() *)

Record Message : Type := {
  role : string;
  content : Content;
}.

(** The synthetic chat completion attached on a short circuit: one
    choice with index 0. *)
Record Response : Type := {
  resp_id : string;
  resp_role : string;
  resp_content : string;
  finish_reason : string;
}.

(** The request dictionary [data]. *)
Record Data : Type := {
  model : option string;
  messages : list Message;
  system : option string;
  metadata : gmap string mval;
  headers : gmap string string;
  litellm_metadata : gmap string mval;   (* data["litellm_params"]["metadata"] *)
  response : option Response;
  skip_llm_call : bool;
  do_not_route : bool;
}.

Definition set_model (v : option string) (d : Data) : Data :=
  {| model := v; messages := messages d; system := system d; metadata := metadata d;
     headers := headers d; litellm_metadata := litellm_metadata d;
     response := response d; skip_llm_call := skip_llm_call d;
     do_not_route := do_not_route d |}.

Definition set_messages (v : list Message) (d : Data) : Data :=
  {| model := model d; messages := v; system := system d; metadata := metadata d;
     headers := headers d; litellm_metadata := litellm_metadata d;
     response := response d; skip_llm_call := skip_llm_call d;
     do_not_route := do_not_route d |}.

Definition set_system (v : option string) (d : Data) : Data :=
  {| model := model d; messages := messages d; system := v; metadata := metadata d;
     headers := headers d; litellm_metadata := litellm_metadata d;
     response := response d; skip_llm_call := skip_llm_call d;
     do_not_route := do_not_route d |}.

Definition set_metadata (v : gmap string mval) (d : Data) : Data :=
  {| model := model d; messages := messages d; system := system d; metadata := v;
     headers := headers d; litellm_metadata := litellm_metadata d;
     response := response d; skip_llm_call := skip_llm_call d;
     do_not_route := do_not_route d |}.

Definition set_headers (v : gmap string string) (d : Data) : Data :=
  {| model := model d; messages := messages d; system := system d; metadata := metadata d;
     headers := v; litellm_metadata := litellm_metadata d;
     response := response d; skip_llm_call := skip_llm_call d;
     do_not_route := do_not_route d |}.

(** [data["response"] = r; data["skip_llm_call"] = True;
    data["do_not_route"] = True] *)
Definition short_circuit (r : Response) (d : Data) : Data :=
  {| model := model d; messages := messages d; system := system d; metadata := metadata d;
     headers := headers d; litellm_metadata := litellm_metadata d;
     response := Some r; skip_llm_call := true; do_not_route := true |}.

(** ** The outside world *)

Record Env : Type := {
  sha256_hex : string -> string;       (* hashlib.sha256(s).hexdigest() *)
  md5_hex : string -> string;          (* hashlib.md5(s).hexdigest() *)
  resolve_path : string -> string;     (* str(Path(p).expanduser().resolve()) *)
  resolve_raises : string -> bool;     (* whether Path(p).expanduser().resolve() raises *)
  path_exists : string -> bool;        (* Path.exists *)
  path_name : string -> string;        (* Path(p).name *)
  read_text : string -> option string; (* the text of a file; None when missing or unreadable *)
  utcnow : Z;                          (* the clock, in seconds *)
  utcnow_again : nat -> Z;             (* the clock at the k-th further reading in one call *)
  uuid4_hex : string;                  (* uuid.uuid4().hex *)
  CLAUDE_METADATA : option (gmap string mval);
                                       (* the environment variable, when it holds a JSON object *)
  classifier_reply : string -> option string;
                                       (* the classifier model's answer to a prompt; None on error *)
}.

(** ** Context-exhaustion guard *)

Definition _estimate_tokens_from_text (text : string) : Z :=
  if negb (Str.nonempty text) then 0
  else Z.max 1 ((Str.len text + 3) / 4).       (* max(1, ceil(len/4)) *)

Definition block_text (b : Block) : string :=
  match b with
  | TextBlock t => t
  | ToolResult c => c
  | OtherBlock r => r
  | RawBlock r => r
  end.

Definition _normalize_message_text (message : Message) : string :=
  match content message with
  | ContentStr s => s
  | ContentList blocks => Str.join (String "010" "") (map block_text blocks)
  | ContentAbsent => ""
  | ContentNull => ""
  | ContentOther r => r
  end.

Definition duplicate_stub : string :=
  "[[Duplicate context removed at proxy; reference earlier block]]".

Definition suppressed_stub (cfg : Config) (block_tokens : Z) : string :=
  "[[Block suppressed: " ++ pretty block_tokens ++ " tokens exceeded "
  ++ pretty (CONTEXT_BLOCK_LIMIT_TOKENS cfg) ++ ". Please summarize upstream.]]".

(** [messages[idx]["content"] = stub] *)
Definition with_content (stub : string) (m : Message) : Message :=
  {| role := role m; content := ContentStr stub |}.

(** The running state of pass 1. *)
Record Pass1 : Type := {
  p1_messages : list Message;      (* the blocks handled so far, rewritten *)
  p1_total : Z;
  p1_duplicates : Z;
  p1_large_blocks : Z;
  p1_seen : gset string;
}.

(** The body of the first loop, for one message. *)
Definition pass1_step (E : Env) (cfg : Config) (st : Pass1) (message : Message) : Pass1 :=
  let text := _normalize_message_text message in
  let block_tokens := _estimate_tokens_from_text text in
  (* duplicate detection *)
  let '(message, text, block_tokens, duplicates, seen) :=
    if (Str.nonempty text && (CONTEXT_DUPLICATE_MIN_TOKENS cfg <=? block_tokens))%bool then
      let digest := sha256_hex E text in
      if bool_decide (digest ∈ p1_seen st)
      then (with_content duplicate_stub message, duplicate_stub,
            _estimate_tokens_from_text duplicate_stub, p1_duplicates st + 1, p1_seen st)
      else (message, text, block_tokens, p1_duplicates st, {[digest]} ∪ p1_seen st)
    else (message, text, block_tokens, p1_duplicates st, p1_seen st) in
  (* large-block suppression *)
  let '(message, block_tokens, large_blocks) :=
    if (Str.nonempty text && (CONTEXT_BLOCK_LIMIT_TOKENS cfg <? block_tokens))%bool then
      let stub := suppressed_stub cfg block_tokens in
      (with_content stub message, _estimate_tokens_from_text stub, p1_large_blocks st + 1)
    else (message, block_tokens, p1_large_blocks st) in
  {| p1_messages := p1_messages st ++ [message];
     p1_total := p1_total st + block_tokens;
     p1_duplicates := duplicates;
     p1_large_blocks := large_blocks;
     p1_seen := seen |}.

Definition pass1 (E : Env) (cfg : Config) (msgs : list Message) : Pass1 :=
  fold_left (pass1_step E cfg) msgs
    {| p1_messages := []; p1_total := ENFORCEMENT_OVERHEAD_TOKENS cfg;
       p1_duplicates := 0; p1_large_blocks := 0; p1_seen := ∅ |}.

(** [enumerate(messages)] *)
Definition enumerate {A} (l : list A) : list (nat * A) :=
  imap pair l.

(** The first loop of pass 2: the index of the last message whose role
    is ["user"]. *)
Definition last_user_idx (msgs : list Message) : option nat :=
  fold_left (fun acc im => if String.eqb (role (snd im)) "user" then Some (fst im) else acc)
            (enumerate msgs) None.

Definition is_candidate (last_user : option nat) (im : nat * Message) : bool :=
  if String.eqb (role (snd im)) "system" then false
  else match last_user with
       | Some j => negb (Nat.eqb (fst im) j)
       | None => true
       end.

(** The second loop of pass 2: (index, token cost) of every message
    that may be removed. *)
Definition trim_candidates (msgs : list Message) : list (nat * Z) :=
  map (fun im => (fst im, _estimate_tokens_from_text (_normalize_message_text (snd im))))
      (List.filter (is_candidate (last_user_idx msgs)) (enumerate msgs)).

(** The third loop of pass 2: take candidates until the total is
    within the soft limit. *)
Fixpoint trim_loop (soft : Z) (candidates : list (nat * Z)) (total_tokens : Z)
    (removal_indices : list nat) : list nat * Z :=
  match candidates with
  | [] => (removal_indices, total_tokens)
  | (idx_value, token_cost) :: rest =>
      if total_tokens <=? soft then (removal_indices, total_tokens)
      else trim_loop soft rest (total_tokens - token_cost) (removal_indices ++ [idx_value])
  end.

(** [[m for i, m in enumerate(messages) if i not in removal_set]] *)
Definition remove_indices (removal : list nat) (msgs : list Message) : list Message :=
  map snd (List.filter (fun im => negb (existsb (Nat.eqb (fst im)) removal)) (enumerate msgs)).

(** [m], at position [j], is the last message of [msgs] whose role is
    ["user"]. *)
Definition last_user_message (msgs : list Message) (j : nat) (m : Message) : Prop :=
  msgs !! j = Some m /\ role m = "user"
  /\ forall k m', (j < k)%nat -> msgs !! k = Some m' -> role m' <> "user".

(** The token cost of a list of candidates. *)
Definition sum_costs (candidates : list (nat * Z)) : Z :=
  fold_right (fun ic acc => snd ic + acc) 0 candidates.

(** Pass 2 as a whole: the messages kept, the new total, the indices
    removed. *)
Definition pass2 (cfg : Config) (msgs : list Message) (total_tokens : Z)
    : list Message * Z * list nat :=
  if CONTEXT_SOFT_LIMIT_TOKENS cfg <? total_tokens then
    let '(removal_indices, total_tokens') :=
      trim_loop (CONTEXT_SOFT_LIMIT_TOKENS cfg) (trim_candidates msgs) total_tokens [] in
    (remove_indices removal_indices msgs, total_tokens', removal_indices)
  else (msgs, total_tokens, []).

Definition refusal_message : string :=
  "This request exceeds the proxy's context capacity even after automatic trimming. "
  ++ "Please summarize earlier files or send smaller chunks before retrying.".

Definition context_exhaustion_response : Response :=
  {| resp_id := "context_exhaustion"; resp_role := "assistant";
     resp_content := refusal_message; finish_reason := "context_exhaustion" |}.

(** [total_tokens / CONTEXT_SOFT_LIMIT_TOKENS >= num/den], for a
    positive [den]; the quotient of two integers of this size is
    compared exactly. *)
Definition ratio_ge (total soft num den : Z) : bool :=
  if 0 <? soft then num * soft <=? den * total
  else if soft <? 0 then den * total <=? num * soft
  else (num <=? 0).

Definition risk_level (cfg : Config) (total_tokens : Z) : string :=
  let soft := CONTEXT_SOFT_LIMIT_TOKENS cfg in
  if ratio_ge total_tokens soft 1 1 then "high"
  else if ratio_ge total_tokens soft 4 5 then "medium"
  else "low".

(** The guard's token estimate after both passes. *)
Definition post_trim_total (E : Env) (cfg : Config) (data : Data) : Z :=
  let p1 := pass1 E cfg (messages data) in
  snd (fst (pass2 cfg (p1_messages p1) (p1_total p1))).

(** The indices the guard trims, and its two counters. *)
Definition guard_removed (E : Env) (cfg : Config) (data : Data) : list nat :=
  let p1 := pass1 E cfg (messages data) in
  snd (pass2 cfg (p1_messages p1) (p1_total p1)).

Definition guard_duplicates (E : Env) (cfg : Config) (data : Data) : Z :=
  p1_duplicates (pass1 E cfg (messages data)).

Definition guard_large_blocks (E : Env) (cfg : Config) (data : Data) : Z :=
  p1_large_blocks (pass1 E cfg (messages data)).

(** The result of the guard: the request as it leaves it, and
    [{"refused": ...}]. *)
Definition _apply_context_exhaustion_protection (E : Env) (cfg : Config) (data : Data)
    : Data * bool :=
  let p1 := pass1 E cfg (messages data) in
  let '(msgs, total_tokens, removal_indices) := pass2 cfg (p1_messages p1) (p1_total p1) in
  let trimmed := bool_decide (removal_indices ≠ []) in
  let trimmed_count := Z.of_nat (length removal_indices) in
  let data := set_messages msgs data in
  if CONTEXT_HARD_LIMIT_TOKENS cfg <? total_tokens then
    let data := short_circuit context_exhaustion_response data in
    let md :=
      <["exhaustion_risk" := VStr "fatal"]>
      (<["duplicate_blocks_detected" := VInt (p1_duplicates p1)]>
      (<["context_trimmed_count" := VInt trimmed_count]>
      (<["context_trimmed" := VBool trimmed]>
      (<["context_tokens_estimated" := VInt total_tokens]> (metadata data))))) in
    (set_metadata md data, true)
  else
    let md :=
      <["exhaustion_risk" := VStr (risk_level cfg total_tokens)]>
      (<["large_blocks_suppressed" := VInt (p1_large_blocks p1)]>
      (<["duplicate_blocks_detected" := VInt (p1_duplicates p1)]>
      (<["context_trimmed_count" := VInt trimmed_count]>
      (<["context_trimmed" := VBool trimmed]>
      (<["context_tokens_estimated" := VInt total_tokens]> (metadata data)))))) in
    (set_metadata md data, false).

(** ** Ledger reminder *)

Definition ledger_base_lines : list string :=
  [ "Before working, rehydrate from README.md → Session Recovery Ledger.";
    "After any plan change / major decision / checkpoint, update README and AGENTS immediately." ].

Definition ledger_guard_line : string :=
  "Context guard intervened on this request. Summarize current progress in README before continuing.".

(** The condition under which the reminder reports an alert. *)
Definition guard_intervened (md : gmap string mval) : bool :=
  let trimmed_flag :=
    String.eqb (Str.lower (py_str (default (VStr "false") (md !! "context_trimmed")))) "true" in
  let trimmed_count := default (VInt 0) (md !! "context_trimmed_count") in
  let risk := default (VStr "low") (md !! "exhaustion_risk") in
  let duplicates := default (VInt 0) (md !! "duplicate_blocks_detected") in
  let large_blocks := default (VInt 0) (md !! "large_blocks_suppressed") in
  (trimmed_flag || truthy trimmed_count || truthy duplicates || truthy large_blocks
   || bool_decide (risk = VStr "medium") || bool_decide (risk = VStr "high"))%bool.

(** [repo] is covered by ledger enforcement. *)
Definition ledger_applies (cfg : Config) (repo : option string) : bool :=
  match repo with
  | None => false
  | Some r =>
      (Str.nonempty r
       && (LEDGER_ENFORCEMENT_APPLY_ALL cfg
           || existsb (String.eqb (Str.lower r)) (LEDGER_ENFORCEMENT_REPOS cfg)))%bool
  end.

Definition _build_ledger_reminder (cfg : Config) (repo : option string)
    (md : gmap string mval) : option string * option string :=
  if negb (ledger_applies cfg repo) then (None, None)
  else
    let alert := guard_intervened md in
    let lines := (ledger_base_lines ++ (if alert then [ledger_guard_line] else []))%list in
    let alert_reason := if alert then Some "context_guard" else None in
    let reminder :=
      "LEDGER REMINDER (" ++ default "" repo ++ "):" ++ String "010" "- "
      ++ Str.join (String "010" "- ") lines in
    (Some reminder, alert_reason).

(** ** Module state *)

(** An entry of [_session_repo_cache]. *)
Record SessionInfo : Type := {
  si_repo : string;
  si_repo_root : option string;
  si_expires : Z;
}.

(** An entry of [_complexity_override_cache]. *)
Record Override : Type := {
  ov_complexity : string;
  ov_expires : Z;
  ov_created : Z;
  ov_ttl_minutes : Z;
}.

(** A session file on disk: the two fields of its JSON body that the
    router reads, and the file's modification time. *)
Record SessionFile : Type := {
  sf_repo : option string;
  sf_repo_root : option string;
  sf_mtime : Z;
}.

(** The dictionary returned by [load_policy_contract]. *)
Record Contract : Type := {
  readme : string;
  agents : string;
  contract_text : string;
  hash : string;
}.

(** The calls made to the classification cache and to the classifier
    model, in order. *)
Inductive Event : Type :=
| CacheGet (prompt : string)
| CacheSet (prompt classification : string)
| ClassifierCall (request : string).

Record World : Type := {
  _repo_registry : gmap string string;
  _session_repo_cache : gmap string SessionInfo;
  _session_repo_history : gmap string (string * option string);
  session_files : gmap string SessionFile;            (* SESSION_FILE_DIR, by sanitized id *)
  _complexity_override_cache : gmap string Override;
  _cache : list (string * (string * Z));              (* ClassificationCache.cache *)
  policy_contract_cache : gmap string Contract;       (* get_policy_contract._cache *)
  router_metadata_cache : gmap string (gmap string string);  (* the host's DualCache *)
  _capture_order : list mval;
  trace : list Event;
}.

Definition set_registry (v : gmap string string) (w : World) : World :=
  {| _repo_registry := v; _session_repo_cache := _session_repo_cache w;
     _session_repo_history := _session_repo_history w; session_files := session_files w;
     _complexity_override_cache := _complexity_override_cache w; _cache := _cache w;
     policy_contract_cache := policy_contract_cache w;
     router_metadata_cache := router_metadata_cache w;
     _capture_order := _capture_order w; trace := trace w |}.

Definition set_session_cache (v : gmap string SessionInfo) (w : World) : World :=
  {| _repo_registry := _repo_registry w; _session_repo_cache := v;
     _session_repo_history := _session_repo_history w; session_files := session_files w;
     _complexity_override_cache := _complexity_override_cache w; _cache := _cache w;
     policy_contract_cache := policy_contract_cache w;
     router_metadata_cache := router_metadata_cache w;
     _capture_order := _capture_order w; trace := trace w |}.

Definition set_session_history (v : gmap string (string * option string)) (w : World) : World :=
  {| _repo_registry := _repo_registry w; _session_repo_cache := _session_repo_cache w;
     _session_repo_history := v; session_files := session_files w;
     _complexity_override_cache := _complexity_override_cache w; _cache := _cache w;
     policy_contract_cache := policy_contract_cache w;
     router_metadata_cache := router_metadata_cache w;
     _capture_order := _capture_order w; trace := trace w |}.

Definition set_session_files (v : gmap string SessionFile) (w : World) : World :=
  {| _repo_registry := _repo_registry w; _session_repo_cache := _session_repo_cache w;
     _session_repo_history := _session_repo_history w; session_files := v;
     _complexity_override_cache := _complexity_override_cache w; _cache := _cache w;
     policy_contract_cache := policy_contract_cache w;
     router_metadata_cache := router_metadata_cache w;
     _capture_order := _capture_order w; trace := trace w |}.

Definition set_override_cache (v : gmap string Override) (w : World) : World :=
  {| _repo_registry := _repo_registry w; _session_repo_cache := _session_repo_cache w;
     _session_repo_history := _session_repo_history w; session_files := session_files w;
     _complexity_override_cache := v; _cache := _cache w;
     policy_contract_cache := policy_contract_cache w;
     router_metadata_cache := router_metadata_cache w;
     _capture_order := _capture_order w; trace := trace w |}.

Definition set_cache (v : list (string * (string * Z))) (w : World) : World :=
  {| _repo_registry := _repo_registry w; _session_repo_cache := _session_repo_cache w;
     _session_repo_history := _session_repo_history w; session_files := session_files w;
     _complexity_override_cache := _complexity_override_cache w; _cache := v;
     policy_contract_cache := policy_contract_cache w;
     router_metadata_cache := router_metadata_cache w;
     _capture_order := _capture_order w; trace := trace w |}.

Definition set_policy_cache (v : gmap string Contract) (w : World) : World :=
  {| _repo_registry := _repo_registry w; _session_repo_cache := _session_repo_cache w;
     _session_repo_history := _session_repo_history w; session_files := session_files w;
     _complexity_override_cache := _complexity_override_cache w; _cache := _cache w;
     policy_contract_cache := v;
     router_metadata_cache := router_metadata_cache w;
     _capture_order := _capture_order w; trace := trace w |}.

Definition set_router_metadata_cache (v : gmap string (gmap string string)) (w : World) : World :=
  {| _repo_registry := _repo_registry w; _session_repo_cache := _session_repo_cache w;
     _session_repo_history := _session_repo_history w; session_files := session_files w;
     _complexity_override_cache := _complexity_override_cache w; _cache := _cache w;
     policy_contract_cache := policy_contract_cache w;
     router_metadata_cache := v;
     _capture_order := _capture_order w; trace := trace w |}.

Definition set_capture_order (v : list mval) (w : World) : World :=
  {| _repo_registry := _repo_registry w; _session_repo_cache := _session_repo_cache w;
     _session_repo_history := _session_repo_history w; session_files := session_files w;
     _complexity_override_cache := _complexity_override_cache w; _cache := _cache w;
     policy_contract_cache := policy_contract_cache w;
     router_metadata_cache := router_metadata_cache w;
     _capture_order := v; trace := trace w |}.

(** Append one event to the trace. *)
Definition emit (e : Event) (w : World) : World :=
  {| _repo_registry := _repo_registry w; _session_repo_cache := _session_repo_cache w;
     _session_repo_history := _session_repo_history w; session_files := session_files w;
     _complexity_override_cache := _complexity_override_cache w; _cache := _cache w;
     policy_contract_cache := policy_contract_cache w;
     router_metadata_cache := router_metadata_cache w;
     _capture_order := _capture_order w; trace := trace w ++ [e] |}.

(** ** Sessions *)

Definition _extract_session_id (md : gmap string mval) : option string :=
  match get_str md "user_id" with
  | Some user_id =>
      match Str.split_once "account__session_" user_id with
      | Some (_, sid) => Some sid
      | None => None
      end
  | None => None
  end.

(** [re.sub(r"[^a-zA-Z0-9_.-]", "", session_id)] *)
Definition safe_char (c : ascii) : bool :=
  let n := nat_of_ascii c in
  ((Nat.leb 97 n && Nat.leb n 122) || (Nat.leb 65 n && Nat.leb n 90)
   || (Nat.leb 48 n && Nat.leb n 57) || Nat.eqb n 95 || Nat.eqb n 46 || Nat.eqb n 45)%bool.

Fixpoint sanitize_id (s : string) : string :=
  match s with
  | EmptyString => EmptyString
  | String c r => if safe_char c then String c (sanitize_id r) else sanitize_id r
  end.

Definition _write_session_file (E : Env) (session_id : option string) (repo : option string)
    (repo_root : option string) (w : World) : World :=
  if negb (truthy_str session_id && truthy_str repo && truthy_str repo_root)%bool then w
  else
    let safe_id := sanitize_id (default "" session_id) in
    if negb (Str.nonempty safe_id) then w
    else set_session_files
           (<[safe_id := {| sf_repo := repo; sf_repo_root := repo_root; sf_mtime := utcnow E |}]>
              (session_files w)) w.

Definition session_info_live (E : Env) (info : SessionInfo) : bool :=
  negb (si_expires info <? utcnow E).

Definition _store_session_repo_context (E : Env) (cfg : Config) (session_id : option string)
    (repo : option string) (repo_root : option string) (w : World) : World :=
  if negb (truthy_str session_id && truthy_str repo)%bool then w
  else
    let sid := default "" session_id in
    let r := default "" repo in
    let w := set_session_cache
               (<[sid := {| si_repo := r; si_repo_root := repo_root;
                            si_expires := utcnow E + SESSION_CACHE_TTL_SECONDS cfg |}]>
                  (_session_repo_cache w)) w in
    let w := set_session_history (<[sid := (r, repo_root)]> (_session_repo_history w)) w in
    let w := _write_session_file E session_id repo repo_root w in
    (* opportunistic cleanup *)
    set_session_cache
      (filter (fun kv => session_info_live E (snd kv) = true) (_session_repo_cache w)) w.

Definition _get_session_repo_context (E : Env) (session_id : option string) (w : World)
    : option SessionInfo * World :=
  if negb (truthy_str session_id) then (None, w)
  else
    let sid := default "" session_id in
    match _session_repo_cache w !! sid with
    | None => (None, w)
    | Some info =>
        if session_info_live E info then (Some info, w)
        else (None, set_session_cache (delete sid (_session_repo_cache w)) w)
    end.

Definition _load_repo_context_from_session_file (E : Env) (cfg : Config)
    (session_id : option string) (w : World) : option (string * string) * World :=
  if negb (truthy_str session_id) then (None, w)
  else
    let sid := default "" session_id in
    let safe_id := sanitize_id sid in
    if negb (Str.nonempty safe_id) then (None, w)
    else
      match session_files w !! safe_id with
      | None =>
          match _session_repo_history w !! sid with
          | Some (repo, Some repo_root) =>
              if (Str.nonempty repo && Str.nonempty repo_root)%bool
              then (Some (repo, repo_root),
                    _write_session_file E session_id (Some repo) (Some repo_root) w)
              else (None, w)
          | _ => (None, w)
          end
      | Some file =>
          match sf_repo file, sf_repo_root file with
          | Some repo, Some repo_root =>
              if (Str.nonempty repo && Str.nonempty repo_root)%bool then
                let w := set_session_history
                           (<[sid := (repo, Some repo_root)]> (_session_repo_history w)) w in
                let refresh_needed :=
                  ((0 <? SESSION_FILE_TTL_SECONDS cfg)
                   && (SESSION_FILE_TTL_SECONDS cfg <? utcnow E - sf_mtime file))%bool in
                let w := if refresh_needed
                         then _write_session_file E session_id (Some repo) (Some repo_root) w
                         else w in
                (Some (repo, repo_root), w)
              else (None, w)
          | _, _ => (None, w)
          end
      end.

(** ** Repository context *)

(** The closure [apply_repo_context] of the hook, on the metadata
    dictionary; the second component is its return value. *)
Definition apply_repo_context (repo repo_root : option string) (override : bool)
    (md : gmap string mval) : gmap string mval * bool :=
  if (negb (truthy_str repo) && negb (truthy_str repo_root))%bool then (md, false)
  else
    let '(md, applied) :=
      if (truthy_str repo && (override || negb (truthy_str (get_str md "repo"))))%bool
      then (<["repo" := VStr (default "" repo)]> md, true) else (md, false) in
    if (truthy_str repo_root && (override || negb (truthy_str (get_str md "repo_root"))))%bool
    then (<["repo_root" := VStr (default "" repo_root)]> md, true) else (md, applied).


(** The loop over the parts of one marker text: the last [repo=] and
    the last [repo_root=] value. *)
Definition marker_fields (parts : list string) : option string * option string :=
  fold_left
    (fun acc part =>
       match Str.strip_prefix "repo=" part with
       | Some v => (Some (Str.strip v), snd acc)
       | None =>
           match Str.strip_prefix "repo_root=" part with
           | Some v => (fst acc, Some (Str.strip v))
           | None => acc
           end
       end)
    parts (None, None).

Definition marker_candidates (data : Data) : list string :=
  (match system data with Some s => [s] | None => [] end
   ++ omap (fun msg =>
              if (String.eqb (role msg) "system" || String.eqb (role msg) "user")%bool then
                match content msg with
                | ContentStr c => if Str.contains "LITELLM_CONTEXT" c then Some c else None
                | _ => None
                end
              else None)
           (messages data))%list.

Fixpoint first_marker (candidates : list string) : option (string * string) :=
  match candidates with
  | [] => None
  | text :: rest =>
      if negb (Str.contains "LITELLM_CONTEXT" text) then first_marker rest
      else
        let cleaned := Str.remove "-->" (Str.remove "<!--" text) in
        match marker_fields (Str.words cleaned) with
        | (Some repo, Some repo_root) =>
            if (Str.nonempty repo && Str.nonempty repo_root)%bool
            then Some (repo, repo_root) else first_marker rest
        | _ => first_marker rest
        end
  end.

Definition extract_repo_context_from_system (data : Data) : option (string * string) :=
  first_marker (marker_candidates data).

(** [_repo_registry.register], with the exceptions caught by the
    caller: the one raised by the resolution of the path, and the
    [ValueError] of a missing path. *)
Definition register (E : Env) (repo repo_root : string) (w : World) : World :=
  if resolve_raises E repo_root then w
  else
    let path := resolve_path E repo_root in
    if path_exists E path then set_registry (<[repo := path]> (_repo_registry w)) w else w.

(** [Path(repo_root).expanduser().resolve()] in the [return]
    statements of [get_repo_root_from_request]: an exception is caught
    by the [except] clause around the body, and the function returns
    [None]. *)
Definition resolved_root (E : Env) (repo_root : string) : option string :=
  if resolve_raises E repo_root then None else Some (resolve_path E repo_root).

(** The request after the call, the world after the call, and the
    returned path. *)
Definition get_repo_root_from_request (E : Env) (data : Data) (w : World)
    : Data * World * option string :=
  let md := if bool_decide (metadata data = ∅) then litellm_metadata data else metadata data in
  let repo_name := get_str md "repo" in
  let repo_root := get_str md "repo_root" in
  let auth_header :=
    match headers data !! "authorization" with
    | Some h => if Str.nonempty h then Some h else headers data !! "Authorization"
    | None => headers data !! "Authorization"
    end in
  let '(data, repo_name) :=
    match auth_header with
    | Some h =>
        if negb (Str.nonempty h) then (data, repo_name)
        else
          let '(scheme, token) :=
            match Str.split_once " " h with
            | Some (sch, tok) => (Some (Str.strip sch), tok)
            | None => (None, h)
            end in
          match Str.split_once "::" token with
          | Some (potential_repo, real_token) =>
              let '(data, repo_name) :=
                if Str.nonempty potential_repo then
                  let rn := if truthy_str repo_name then repo_name else Some potential_repo in
                  (set_metadata (<["repo" := VStr (default "" rn)]> (metadata data)) data, rn)
                else (data, repo_name) in
              let data :=
                if Str.nonempty real_token then
                  let cleaned := if truthy_str scheme
                                 then default "" scheme ++ " " ++ real_token
                                 else real_token in
                  set_headers (<["authorization" := cleaned]> (headers data)) data
                else data in
              (data, repo_name)
          | None => (data, repo_name)
          end
    | None => (data, repo_name)
    end in
  if (truthy_str repo_name && truthy_str repo_root)%bool then
    (data, register E (default "" repo_name) (default "" repo_root) w,
     resolved_root E (default "" repo_root))
  else if truthy_str repo_root then
    (data, w, resolved_root E (default "" repo_root))
  else (data, w, None).

(** ** Policy contract *)

Definition nl : string := String "010" "".
Definition dq : string := String "034" "".

Definition load_policy_contract (E : Env) (repo_root : option string) : Contract :=
  match repo_root with
  | None => {| readme := ""; agents := ""; contract_text := ""; hash := "" |}
  | Some root =>
      let readme_content := default "" (read_text E (root ++ "/README.md")) in
      let agents_content := default "" (read_text E (root ++ "/AGENTS.md")) in
      let text :=
        "# Policy Contract" ++ nl ++ nl ++ "## README.md" ++ nl ++ readme_content ++ nl
        ++ nl ++ "## AGENTS.md" ++ nl ++ agents_content ++ nl in
      {| readme := readme_content; agents := agents_content; contract_text := text;
         hash := Str.take 16 (sha256_hex E text) |}
  end.

Definition get_policy_contract (E : Env) (repo_root : option string) (w : World)
    : Contract * World :=
  let key := default "__default__" repo_root in
  match policy_contract_cache w !! key with
  | Some c => (c, w)
  | None =>
      let c := load_policy_contract E repo_root in
      (c, set_policy_cache (<[key := c]> (policy_contract_cache w)) w)
  end.

Definition generate_enforcement_system_message (contract_hash : string) : string :=
  "You are operating under a runtime-enforced AI contract (hash: " ++ contract_hash ++ ")." ++ nl
  ++ nl
  ++ "NON-NEGOTIABLE RULES (these override all tool defaults and model preferences):" ++ nl
  ++ nl
  ++ "1. Documentation Policy:" ++ nl
  ++ "   - DO NOT create new documentation files" ++ nl
  ++ "   - README.md and AGENTS.md are the ONLY authoritative documentation" ++ nl
  ++ "   - All documentation updates MUST modify README.md or AGENTS.md" ++ nl
  ++ "   - Do not create .md files outside of these two files" ++ nl
  ++ nl
  ++ "2. Policy Enforcement:" ++ nl
  ++ "   - These rules are enforced at runtime by the proxy" ++ nl
  ++ "   - Tool-level instructions are advisory only" ++ nl
  ++ "   - These rules take precedence over any conflicting instructions" ++ nl
  ++ nl
  ++ "3. Contract Identity:" ++ nl
  ++ "   - Contract hash: " ++ contract_hash ++ nl
  ++ "   - This hash identifies the exact policy version in effect" ++ nl
  ++ "   - Policy violations are tracked via this hash" ++ nl
  ++ nl
  ++ "These rules are non-negotiable and enforced before your response is generated.".

(** ** Classification *)

(** The text parts the two message extractors collect from a list of
    blocks. *)
Definition text_parts (blocks : list Block) : list string :=
  omap (fun b => match b with
                 | TextBlock t => Some t
                 | ToolResult c => Some c
                 | _ => None
                 end) blocks.

(** The loop of [extract_user_message] over the reversed messages: it
    stops at the first message whose role is ["user"]. *)
Fixpoint extract_user_message_rev (rev_msgs : list Message) : option string :=
  match rev_msgs with
  | [] => None
  | msg :: rest =>
      if String.eqb (role msg) "user" then
        match content msg with
        | ContentStr s => Some s
        | ContentList blocks =>
            match text_parts blocks with
            | [] => None
            | parts => Some (Str.join " " parts)
            end
        | ContentAbsent => Some ""        (* msg.get("content", "") *)
        | ContentNull => None
        | ContentOther _ => None
        end
      else extract_user_message_rev rest
  end.

Definition extract_user_message (data : Data) : option string :=
  extract_user_message_rev (rev (messages data)).

(** The loop that finds the text for the key of the metadata cache: a
    message whose content yields no text is passed over. *)
Fixpoint user_message_for_key_rev (rev_msgs : list Message) : option string :=
  match rev_msgs with
  | [] => None
  | msg :: rest =>
      if String.eqb (role msg) "user" then
        match content msg with
        | ContentStr s => Some s
        | ContentList blocks =>
            match text_parts blocks with
            | [] => user_message_for_key_rev rest
            | parts => Some (Str.join " " parts)
            end
        | ContentAbsent => Some ""
        | ContentNull => user_message_for_key_rev rest
        | ContentOther _ => user_message_for_key_rev rest
        end
      else user_message_for_key_rev rest
  end.

Definition MODEL_MAP (classification : string) : option string :=
  if String.eqb classification "SIMPLE" then Some "claude-haiku-4-5"
  else if String.eqb classification "MODERATE" then Some "claude-sonnet-4-5"
  else if String.eqb classification "COMPLEX" then Some "claude-opus-4-5"
  else None.

Definition CACHE_TTL_SECONDS : Z := 3600.
Definition MAX_CACHE_SIZE : nat := 1000.

(** [CLASSIFIER_PROMPT.format(prompt=prompt)] *)
Definition CLASSIFIER_PROMPT (prompt : string) : string :=
  "You are a task complexity classifier. Your job is to route requests to the appropriate model based on task type." ++ nl
  ++ nl
  ++ "**IMPORTANT:**" ++ nl
  ++ "- Code writing tasks → MODERATE (Sonnet performs better for code)" ++ nl
  ++ "- Architectural/engineering tasks → COMPLEX (Opus for multi-step planning)" ++ nl
  ++ "- Everything else → SIMPLE (Haiku for non-code tasks)" ++ nl
  ++ nl
  ++ "## Classification Rules:" ++ nl
  ++ nl
  ++ "### SIMPLE (Haiku - non-code tasks)" ++ nl
  ++ "- Greetings, thanks, confirmations, acknowledgments" ++ nl
  ++ "- Simple questions (" ++ dq ++ "What is X?" ++ dq ++ ", " ++ dq ++ "How do I Y?" ++ dq ++ ")" ++ nl
  ++ "- Documentation lookup and explanations" ++ nl
  ++ "- Reading/summarizing files" ++ nl
  ++ "- Configuration file edits" ++ nl
  ++ "- Tool result processing (just reading output)" ++ nl
  ++ "- Simple syntax questions" ++ nl
  ++ "- **Long prompts with simple non-code requests** (context length ≠ complexity)" ++ nl
  ++ nl
  ++ "### MODERATE (Sonnet - code writing tasks)" ++ nl
  ++ "**Sonnet performs better for code writing than Opus. Use Sonnet for:**" ++ nl
  ++ "- Writing functions, methods, classes" ++ nl
  ++ "- Implementing features and functionality" ++ nl
  ++ "- Code refactoring (single file or related files)" ++ nl
  ++ "- Debugging code issues" ++ nl
  ++ "- Writing unit tests and test cases" ++ nl
  ++ "- API integrations and implementations" ++ nl
  ++ "- Code reviews requiring detailed feedback" ++ nl
  ++ "- Database query writing and optimization" ++ nl
  ++ "- Writing scripts and automation" ++ nl
  ++ "- **Any task that involves writing or modifying code**" ++ nl
  ++ nl
  ++ "### COMPLEX (Opus - architectural/engineering tasks)" ++ nl
  ++ "**Opus is better for architectural thinking and multi-step planning. Use Opus for:**" ++ nl
  ++ "- System architecture design from scratch" ++ nl
  ++ "- Multi-step planning across multiple systems/components" ++ nl
  ++ "- Complex migrations between frameworks/languages/platforms" ++ nl
  ++ "- Security audits and vulnerability analysis requiring deep analysis" ++ nl
  ++ "- Performance optimization requiring architectural decisions" ++ nl
  ++ "- Trade-off analysis between multiple architectural approaches" ++ nl
  ++ "- Building entirely new systems/features requiring planning" ++ nl
  ++ "- **Tasks requiring extensive multi-step planning and architectural thinking**" ++ nl
  ++ nl
  ++ "## User Request:" ++ nl
  ++ prompt ++ nl
  ++ nl
  ++ "## Decision Process:" ++ nl
  ++ "1. Is this a code writing task? → MODERATE (Sonnet)" ++ nl
  ++ "2. Is this architectural/engineering/multi-step planning? → COMPLEX (Opus)" ++ nl
  ++ "3. Is this a simple non-code task? → SIMPLE (Haiku)" ++ nl
  ++ "4. When uncertain between SIMPLE and MODERATE → SIMPLE" ++ nl
  ++ "5. When uncertain between MODERATE and COMPLEX → MODERATE (prefer Sonnet for code)" ++ nl
  ++ nl
  ++ "Respond with ONLY one word: SIMPLE, MODERATE, or COMPLEX" ++ nl
  ++ nl
  ++ "Classification:".

Module ClassificationCache.

Definition _hash_prompt (E : Env) (prompt : string) : string :=
  md5_hex E (Str.take 500 prompt).

Fixpoint lookup (key : string) (c : list (string * (string * Z))) : option (string * Z) :=
  match c with
  | [] => None
  | (k, v) :: rest => if String.eqb k key then Some v else lookup key rest
  end.

Fixpoint remove (key : string) (c : list (string * (string * Z)))
    : list (string * (string * Z)) :=
  match c with
  | [] => []
  | (k, v) :: rest => if String.eqb k key then rest else (k, v) :: remove key rest
  end.

(** [cache[key] = v]: an existing key keeps its place. *)
Fixpoint assign (key : string) (v : string * Z) (c : list (string * (string * Z)))
    : list (string * (string * Z)) :=
  match c with
  | [] => [(key, v)]
  | (k, v') :: rest => if String.eqb k key then (k, v) :: rest else (k, v') :: assign key v rest
  end.

(** [min(cache.keys(), key=lambda k: cache[k][1])]: the first key
    with the least timestamp. *)
Fixpoint oldest_key (c : list (string * (string * Z))) : option string :=
  match c with
  | [] => None
  | (k, (_, ts)) :: rest =>
      match oldest_key rest with
      | Some k' =>
          match lookup k' rest with
          | Some (_, ts') => if ts' <? ts then Some k' else Some k
          | None => Some k
          end
      | None => Some k
      end
  end.

Definition get (E : Env) (prompt : string) (c : list (string * (string * Z)))
    : option string * list (string * (string * Z)) :=
  let key := _hash_prompt E prompt in
  match lookup key c with
  | Some (classification, timestamp) =>
      if utcnow E - timestamp <? CACHE_TTL_SECONDS then (Some classification, c)
      else (None, remove key c)
  | None => (None, c)
  end.

Definition set (E : Env) (prompt classification : string) (c : list (string * (string * Z)))
    : list (string * (string * Z)) :=
  let c := if Nat.leb MAX_CACHE_SIZE (length c)
           then match oldest_key c with Some k => remove k c | None => c end
           else c in
  assign (_hash_prompt E prompt) (classification, utcnow E) c.

End ClassificationCache.

Definition levels : list string := ["SIMPLE"; "MODERATE"; "COMPLEX"].

(** The validation of the classifier's answer. *)
Definition validate_classification (result : string) : string :=
  if existsb (String.eqb result) levels then result
  else default "SIMPLE" (head (List.filter (fun level => Str.contains level result) levels)).

(** The classification of a prompt: the cached one, or the classifier
    model's answer, validated and cached; SIMPLE when the call fails. *)
Definition classify_with_haiku (E : Env) (prompt : string) (w : World) : string * World :=
  let '(cached, c) := ClassificationCache.get E prompt (_cache w) in
  let w := emit (CacheGet prompt) (set_cache c w) in
  if truthy_str cached then (default "" cached, w)
  else
    let truncated_prompt := Str.take 2000 prompt in
    let classification_request := CLASSIFIER_PROMPT truncated_prompt in
    let w := emit (ClassifierCall classification_request) w in
    match classifier_reply E classification_request with
    | None => ("SIMPLE", w)
    | Some answer =>
        let result := validate_classification (Str.upper (Str.strip answer)) in
        (result,
         emit (CacheSet prompt result)
              (set_cache (ClassificationCache.set E prompt result (_cache w)) w))
    end.

(** ** Override store *)

Definition override_live (E : Env) (o : Override) : bool :=
  negb (ov_expires o <? utcnow E).

(** [_cleanup_expired_overrides], with the reading [now] of the
    clock. *)
Definition _cleanup_expired_overrides (now : Z) (w : World) : World :=
  set_override_cache
    (filter (fun kv => negb (ov_expires (snd kv) <? now) = true)
       (_complexity_override_cache w)) w.

(** The call reads the clock three times: for the expiry, for the
    creation time, and in the clean-up at its end. *)
Definition _set_complexity_override (E : Env) (session_id : option string)
    (complexity : string) (ttl_minutes : Z) (w : World) : World :=
  if negb (truthy_str session_id) then w
  else
    let o := {| ov_complexity := complexity; ov_expires := utcnow E + 60 * ttl_minutes;
                ov_created := utcnow_again E 0; ov_ttl_minutes := ttl_minutes |} in
    _cleanup_expired_overrides (utcnow_again E 1)
      (set_override_cache (<[default "" session_id := o]> (_complexity_override_cache w)) w).

Definition _get_complexity_override (E : Env) (session_id : option string) (w : World)
    : option string * World :=
  if negb (truthy_str session_id) then (None, w)
  else
    let sid := default "" session_id in
    match _complexity_override_cache w !! sid with
    | None => (None, w)
    | Some o =>
        if override_live E o then (Some (ov_complexity o), w)
        else (None, set_override_cache (delete sid (_complexity_override_cache w)) w)
    end.

Definition _cancel_complexity_override (session_id : option string) (w : World)
    : bool * World :=
  if negb (truthy_str session_id) then (false, w)
  else
    let sid := default "" session_id in
    match _complexity_override_cache w !! sid with
    | Some _ => (true, set_override_cache (delete sid (_complexity_override_cache w)) w)
    | None => (false, w)
    end.

Definition _get_override_remaining_seconds (E : Env) (session_id : option string) (w : World)
    : option Z :=
  if negb (truthy_str session_id) then None
  else
    match _complexity_override_cache w !! default "" session_id with
    | None => None
    | Some o =>
        let remaining := ov_expires o - utcnow E in
        if 0 <? remaining then Some (Z.max 0 remaining) else None
    end.

(** ** Request capture *)

Definition _CAPTURE_HISTORY_SIZE : nat := 2048.

(** [_mark_request_captured]; the set of captured ids holds exactly the
    ids of the queue, so the queue alone is kept. *)
Definition _mark_request_captured (request_id : mval) (w : World) : bool * World :=
  if existsb (py_eq request_id) (_capture_order w) then (false, w)
  else
    let order := (_capture_order w ++ [request_id])%list in
    let order := if Nat.ltb _CAPTURE_HISTORY_SIZE (length order) then tl order else order in
    (true, set_capture_order order w).

(** The snapshot shares the headers dictionary with the request, so
    redacting the snapshot redacts the request's headers. *)
Definition redact_headers (h : gmap string string) : gmap string string :=
  map_imap (fun k v =>
              Some (if (Str.contains "auth" (Str.lower k) || Str.contains "key" (Str.lower k))%bool
                    then "***REDACTED***" else v)) h.

Definition capture_request_snapshot (request_id : mval) (data : Data) (w : World)
    : Data * World :=
  let '(fresh, w) := _mark_request_captured request_id w in
  if fresh then (set_headers (redact_headers (headers data)) data, w) else (data, w).

(** ** The pre-call hook *)

Definition is_chat_call (call_type : string) : bool :=
  existsb (String.eqb call_type) ["completion"; "acompletion"; "anthropic_messages"].

Definition is_classification_call (data : Data) : bool :=
  (bool_decide (get_str (metadata data) "request_type" = Some "classification")
   || bool_decide (get_str (litellm_metadata data) "request_type" = Some "classification"))%bool.

(** What the first part of the hook hands to the rest. *)
Record Resolved : Type := {
  rs_world : World;
  rs_data : Data;
  rs_request_id : mval;
}.

(** Request id, build id, merged metadata and repository context: the
    hook up to the call of the context guard. *)
Definition resolve_request_context (E : Env) (cfg : Config) (w : World) (data : Data)
    : Resolved :=
  let request_id :=
    match metadata data !! "request_id" with
    | Some v => if truthy v then v else VStr (Str.take 12 (uuid4_hex E))
    | None => VStr (Str.take 12 (uuid4_hex E))
    end in
  let md := <["request_id" := request_id]> (metadata data) in
  let md := setdefault "router_build_id" (VStr (ROUTER_BUILD_ID cfg)) md in
  let md := md ∪ litellm_metadata data in
  (* headers, highest priority *)
  let md := fst (apply_repo_context (headers data !! "x-litellm-repo")
                   (headers data !! "x-litellm-repo-root") true md) in
  (* metadata *)
  let md := fst (apply_repo_context (get_str md "repo") (get_str md "repo_root") false md) in
  (* CLAUDE_METADATA *)
  let md :=
    match CLAUDE_METADATA E with
    | Some cm =>
        fst (apply_repo_context (get_str cm "repo") (get_str cm "repo_root") false (md ∪ cm))
    | None => md
    end in
  (* appended system prompt *)
  let md :=
    match extract_repo_context_from_system data with
    | Some (repo, repo_root) => fst (apply_repo_context (Some repo) (Some repo_root) false md)
    | None => md
    end in
  (* session cache, then session file *)
  let session_id := _extract_session_id md in
  let '(session_ctx, w) := _get_session_repo_context E session_id w in
  let '(md, w) :=
    match session_ctx with
    | Some info =>
        (fst (apply_repo_context (Some (si_repo info)) (si_repo_root info) false md), w)
    | None =>
        if truthy_str session_id then
          let '(file_ctx, w) := _load_repo_context_from_session_file E cfg session_id w in
          match file_ctx with
          | Some (repo, repo_root) =>
              let '(md, applied) :=
                apply_repo_context (Some repo) (Some repo_root) false md in
              (md, if applied
                   then _store_session_repo_context E cfg session_id (Some repo) (Some repo_root) w
                   else w)
          | None => (md, w)
          end
        else (md, w)
    end in
  {| rs_world := w; rs_data := set_metadata md data; rs_request_id := request_id |}.

Definition repo_bootstrap_response : Response :=
  {| resp_id := "repo_bootstrap"; resp_role := "assistant";
     resp_content := "Repository registered successfully."; finish_reason := "stop" |}.

(** The branch taken for [request_type == "repo_bootstrap"]. *)
Definition repo_bootstrap (E : Env) (cfg : Config) (w : World) (data : Data) : World * Data :=
  let '(data, w, repo_root_boot) := get_repo_root_from_request E data w in
  let data := if truthy_str (model data) then data
              else set_model (Some "claude-haiku-4-5") data in
  let data := match repo_root_boot with
              | Some p => set_metadata (<["repo_root" := VStr p]> (metadata data)) data
              | None => data
              end in
  let session_id_boot := _extract_session_id (metadata data) in
  let w := _store_session_repo_context E cfg session_id_boot
             (get_str (metadata data) "repo") (get_str (metadata data) "repo_root") w in
  (w, short_circuit repo_bootstrap_response data).

Definition policy_refusal_message (contract_hash violation_reason : string) : string :=
  "This request violates the documentation policy enforced by the runtime AI contract (hash: "
  ++ contract_hash ++ ")." ++ nl ++ nl ++ violation_reason ++ nl ++ nl
  ++ "To comply with the policy, please update README.md or AGENTS.md instead of creating new documentation files.".

Definition policy_violation_response (contract_hash violation_reason : string) : Response :=
  {| resp_id := "policy_violation"; resp_role := "assistant";
     resp_content := policy_refusal_message contract_hash violation_reason;
     finish_reason := "policy_violation" |}.

(** The refusal of a request that violates the documentation policy. *)
Definition refuse_policy_violation (contract : Contract) (violation_reason : string)
    (original_model_for_refusal : string) (data : Data) : Data :=
  let md :=
    <["violation_reason" := VStr (Str.take 200 violation_reason)]>
    (<["contract_hash" := VStr (hash contract)]>
    (<["policy_violation" := VStr "true"]> (metadata data))) in
  let data := set_metadata md data in
  let data := short_circuit (policy_violation_response (hash contract) violation_reason) data in
  set_model (Some original_model_for_refusal) data.

(** The violation check of the hook: the contract and the reason when
    the request is to be refused. *)
Definition policy_check (repo_root : option string) (contract : option Contract)
    (user_message : option string) : option (Contract * string) :=
  match repo_root, contract, user_message with
  | Some _, Some c, Some m =>
      if Str.nonempty m then
        match detect_policy_violation m with
        | Some reason => if Str.nonempty reason then Some (c, reason) else None
        | None => None
        end
      else None
  | _, _, _ => None
  end.

Definition system_separator : string := nl ++ nl ++ "---" ++ nl ++ nl.

(** The injection of the enforcement system message. *)
Definition inject_enforcement (repo_root : option string) (contract : option Contract)
    (ledger_reminder : option string) (data : Data) : Data :=
  match repo_root, contract with
  | Some _, Some c =>
      if Str.nonempty (hash c) then
        let filtered_messages :=
          List.filter (fun msg => negb (String.eqb (role msg) "system")) (messages data) in
        let data := if negb (Nat.eqb (length filtered_messages) (length (messages data)))
                    then set_messages filtered_messages data else data in
        let enforcement_message := generate_enforcement_system_message (hash c) in
        let enforcement_message :=
          match ledger_reminder with
          | Some r => if Str.nonempty r then r ++ nl ++ nl ++ enforcement_message
                      else enforcement_message
          | None => enforcement_message
          end in
        if truthy_str (system data)
        then set_system (Some (enforcement_message ++ system_separator
                               ++ default "" (system data))) data
        else set_system (Some enforcement_message) data
      else data
  | _, _ => data
  end.

(** The handling of an override command found in the user message. *)
Definition apply_override_command (E : Env) (cfg : Config) (session_id : option string)
    (user_message : option string) (w : World) : World :=
  match user_message with
  | Some m =>
      if Str.nonempty m then
        match _parse_override_command cfg m with
        | Some CancelCommand => snd (_cancel_complexity_override session_id w)
        | Some (SetCommand _ complexity ttl_minutes) =>
            _set_complexity_override E session_id complexity ttl_minutes w
        | None => w
        end
      else w
  | None => w
  end.

(** The choice of the classification: the classification, whether an
    override decided it, the seconds the override still has, and the
    world. *)
Definition classify (E : Env) (session_id : option string) (user_message : option string)
    (w : World) : string * bool * option Z * World :=
  let '(active_override, w) := _get_complexity_override E session_id w in
  if truthy_str active_override then
    (default "" active_override, true, _get_override_remaining_seconds E session_id w, w)
  else if negb (truthy_str user_message) then ("SIMPLE", false, None, w)
  else
    let m := default "" user_message in
    let message_length := Str.len (Str.strip m) in
    if message_length <? 20 then ("SIMPLE", false, None, w)
    else let '(c, w) := classify_with_haiku E m w in (c, false, None, w).

Definition py_bool_lower (b : bool) : string := if b then "true" else "false".

Definition key_char (c : ascii) : bool := (Re.is_word c)%bool.

Fixpoint sanitize_key (s : string) : string :=
  match s with
  | EmptyString => EmptyString
  | String c r => if key_char c then String c (sanitize_key r) else sanitize_key r
  end.

(** [custom_metadata], already sanitized: keys reduced to letters,
    digits and [_], values cut at 200 characters. *)
Definition sanitized_metadata (E : Env) (md : gmap string mval) (classification : string)
    (original_model selected_model : string) (user_message : option string)
    (contract : option Contract) (request_id : mval)
    (ledger_reminder ledger_alert : option string)
    (override_applied : bool) (override_remaining_seconds : option Z)
    : list (string * string) :=
  let environment_value :=
    if truthy_str (get_str md "repo") then default "" (get_str md "repo")
    else if truthy_str (get_str md "repo_root") then
      let name := path_name E (default "" (get_str md "repo_root")) in
      if Str.nonempty name then name else "unscoped"
    else "unscoped" in
  let repo_value := default "unscoped" (get_str md "repo") in
  let repo_root_value := default "" (get_str md "repo_root") in
  let contract_hash := match contract with Some c => hash c | None => "" end in
  let custom_metadata :=
    [ ("environment", environment_value);
      ("complexity_classification", classification);
      ("original_model_requested", original_model);
      ("routed_to_model", selected_model);
      ("router", "complexity_router_v2");
      ("prompt_length",
       match user_message with
       | Some m => if Str.nonempty m then pretty (Str.len m) else "0"
       | None => "0"
       end);
      ("repo", if Str.nonempty repo_value then repo_value else "unscoped");
      ("repo_root", repo_root_value);
      ("gen_ai_system", "anthropic");
      ("gen_ai_operation", "chat");
      ("contract_hash", contract_hash);
      ("policy_enforced", py_bool_lower (Str.nonempty contract_hash));
      ("request_id", py_str request_id);
      ("trace_environment", environment_value);
      ("ledger_alert", match ledger_alert with
                       | Some a => if Str.nonempty a then a else "none"
                       | None => "none"
                       end);
      ("ledger_reminder_active", py_bool_lower (truthy_str ledger_reminder));
      ("complexity_override_active", py_bool_lower override_applied);
      ("complexity_override_remaining_seconds",
       pretty (default 0 override_remaining_seconds)) ] in
  map (fun kv => (sanitize_key (fst kv), Str.take 200 (snd kv))) custom_metadata.

(** [data["metadata"].update(sanitized_metadata)] *)
Definition update_metadata (kvs : list (string * string)) (md : gmap string mval)
    : gmap string mval :=
  fold_left (fun acc kv => <[fst kv := VStr (snd kv)]> acc) kvs md.

(** Enforcement message, classification and routing: the hook after
    the policy check. *)
Definition route_request (E : Env) (cfg : Config) (w : World) (data : Data)
    (repo_root : option string) (contract : option Contract)
    (user_message : option string) (request_id : mval)
    (ledger_reminder ledger_alert : option string) : World * Data :=
  (* enforcement system message *)
  let data := inject_enforcement repo_root contract ledger_reminder data in
  (* override command and classification *)
  let session_id := _extract_session_id (metadata data) in
  let w := apply_override_command E cfg session_id user_message w in
  let '(classification, override_applied, override_remaining_seconds, w) :=
    classify E session_id user_message w in
  (* model rewrite *)
  let selected_model := default "claude-haiku-4-5" (MODEL_MAP classification) in
  let original_model := default "unknown" (model data) in
  let data := set_model (Some selected_model) data in
  (* metadata bundle *)
  let sanitized :=
    sanitized_metadata E (metadata data) classification original_model selected_model
      user_message contract request_id ledger_reminder ledger_alert
      override_applied override_remaining_seconds in
  let data := set_metadata (update_metadata sanitized (metadata data)) data in
  (* side cache for the post-call hook *)
  match user_message_for_key_rev (rev (messages data)) with
  | Some m =>
      if Str.nonempty m then
        let request_key := Str.take 16 (md5_hex E (Str.take 200 m)) in
        let cache_key := "router_metadata:" ++ request_key in
        (set_router_metadata_cache
           (<[cache_key := list_to_map sanitized]> (router_metadata_cache w)) w,
         data)
      else (w, data)
  | None => (w, data)
  end.

(** Contract loading and the policy check: the hook after the
    idempotency guard. *)
Definition enforce_and_route (E : Env) (cfg : Config) (w : World) (data : Data)
    (repo_root : option string) (user_message : option string) (requested_model : string)
    (request_id : mval) (ledger_reminder ledger_alert : option string) : World * Data :=
  (* contract loading, gated on repo_root *)
  let '(contract, w, data) :=
    match repo_root with
    | None => (None, w, data)
    | Some p =>
        let '(c, w) := get_policy_contract E repo_root w in
        (Some c, w, set_metadata (<["repo_root" := VStr p]> (metadata data)) data)
    end in
  (* documentation-policy refusal *)
  match policy_check repo_root contract user_message with
  | Some (c, violation_reason) =>
      (w, refuse_policy_violation c violation_reason requested_model data)
  | None =>
      route_request E cfg w data repo_root contract user_message request_id
        ledger_reminder ledger_alert
  end.

(** The hook from the context guard on, given the resolved request. *)
Definition guard_and_route (E : Env) (cfg : Config) (w : World) (data : Data)
    (request_id : mval) (call_type : string) : World * Data :=
  let '(data, refused) := _apply_context_exhaustion_protection E cfg data in
  if refused then (w, data)
  else
    let '(ledger_reminder, ledger_alert) :=
      _build_ledger_reminder cfg (get_str (metadata data) "repo") (metadata data) in
    let data := match ledger_alert with
                | Some a => set_metadata (<["ledger_alert" := VStr a]> (metadata data)) data
                | None => data
                end in
    if bool_decide (get_str (metadata data) "request_type" = Some "repo_bootstrap")
    then repo_bootstrap E cfg w data
    else
      let '(data, w, repo_root) := get_repo_root_from_request E data w in
      if negb (is_chat_call call_type) then (w, data)
      else
        let requested_model := default "" (model data) in
        let user_message := extract_user_message data in
        if is_classification_call data then (w, data)
        else
          let '(data, w) := if REQUEST_CAPTURE_ENABLED cfg
                            then capture_request_snapshot request_id data w
                            else (data, w) in
          if bool_decide (get_str (metadata data) "policy_violation" = Some "true")
          then (w, data)
          else enforce_and_route E cfg w data repo_root user_message requested_model
                 request_id ledger_reminder ledger_alert.

Definition async_pre_call_hook (E : Env) (cfg : Config) (w : World) (data : Data)
    (call_type : string) : World * Data :=
  let r := resolve_request_context E cfg w data in
  guard_and_route E cfg (rs_world r) (rs_data r) (rs_request_id r) call_type.

(** ** The post-call hook *)

(** The cache key [async_log_success_event] computes from the messages
    of the call, with the loop of the pre-call hook: the text of the
    last user message that yields one, cut at 200 characters and
    digested; no key when there is no such text. *)
Definition success_event_cache_key (E : Env) (msgs : list Message) : option string :=
  match user_message_for_key_rev (rev msgs) with
  | Some user_message =>
      if Str.nonempty user_message then
        let key_string := Str.take 200 user_message in
        let request_key := Str.take 16 (md5_hex E key_string) in
        Some ("router_metadata:" ++ request_key)
      else None
  | None => None
  end.

(** ** Vocabulary of the properties *)

(** The metadata keys stamped by the context guard. *)
Definition guard_keys : list string :=
  [ "context_tokens_estimated"; "context_trimmed"; "context_trimmed_count";
    "duplicate_blocks_detected"; "large_blocks_suppressed"; "exhaustion_risk" ].

(** The metadata keys written between the resolution of the request
    context and policy enforcement: the stamps of the context guard,
    the ledger alert, and the repository name taken from a bearer
    token. *)
Definition stage_keys : list string :=
  (guard_keys ++ [ "ledger_alert"; "repo" ])%list.

(** Two metadata dictionaries agree outside the keys [ks]. *)
Definition agree_except (ks : list string) (m m' : gmap string mval) : Prop :=
  forall k, ~ In k ks -> m' !! k = m !! k.

(** Two requests differ in their metadata and headers at most. *)
Definition same_payload (d d' : Data) : Prop :=
  model d' = model d /\ messages d' = messages d /\ system d' = system d
  /\ litellm_metadata d' = litellm_metadata d /\ response d' = response d
  /\ skip_llm_call d' = skip_llm_call d /\ do_not_route d' = do_not_route d.

(** Two worlds have the same routing state: overrides, classification
    cache, contract cache, metadata cache and trace. *)
Definition same_routing_state (w w' : World) : Prop :=
  _complexity_override_cache w' = _complexity_override_cache w
  /\ _cache w' = _cache w
  /\ policy_contract_cache w' = policy_contract_cache w
  /\ router_metadata_cache w' = router_metadata_cache w
  /\ trace w' = trace w.

(** The metadata keys written by the routing bundle. *)
Definition routing_keys : list string :=
  [ "environment"; "complexity_classification"; "original_model_requested";
    "routed_to_model"; "router"; "prompt_length"; "repo"; "repo_root";
    "gen_ai_system"; "gen_ai_operation"; "contract_hash"; "policy_enforced";
    "request_id"; "trace_environment"; "ledger_alert"; "ledger_reminder_active";
    "complexity_override_active"; "complexity_override_remaining_seconds" ].

(** The request after the guard, [g], with the ledger alert stamped. *)
Definition with_ledger_alert (cfg : Config) (g : Data) : Data :=
  match snd (_build_ledger_reminder cfg (get_str (metadata g) "repo") (metadata g)) with
  | Some a => set_metadata (<["ledger_alert" := VStr a]> (metadata g)) g
  | None => g
  end.



(** The policy check lets the request through: there is no repository
    root, or the detector finds nothing in the user message. *)
Definition not_refused (repo_root : option string) (user_message : option string) : Prop :=
  truthy_str repo_root = false
  \/ forall m, user_message = Some m -> detect_policy_violation m = None.


(** The request as it stands when the hook reaches its gates, for a
    resolved request [d]: after the context guard, the ledger alert
    and the resolution of the repository root. *)
Definition at_gates (E : Env) (cfg : Config) (w : World) (d : Data)
    : Data * World * option string :=
  let g := fst (_apply_context_exhaustion_protection E cfg d) in
  let ledger_alert := snd (_build_ledger_reminder cfg (get_str (metadata g) "repo") (metadata g)) in
  let g := match ledger_alert with
           | Some a => set_metadata (<["ledger_alert" := VStr a]> (metadata g)) g
           | None => g
           end in
  get_repo_root_from_request E g w.

(** The gates a resolved request [d] must pass for the hook to reach
    policy enforcement and routing: the guard does not refuse, the
    request is neither a bootstrap nor a classifier call nor already
    refused, and the call is a chat completion. *)
Definition passes_gates (E : Env) (cfg : Config) (d : Data) (call_type : string) : bool :=
  (negb (snd (_apply_context_exhaustion_protection E cfg d))
   && negb (bool_decide (get_str (metadata d) "request_type" = Some "repo_bootstrap"))
   && is_chat_call call_type
   && negb (is_classification_call d)
   && negb (bool_decide (get_str (metadata d) "policy_violation" = Some "true")))%bool.

(** * Sample requests *)

(** An environment for the examples: digests are the identity, every
    path exists and no file can be read, the clock shows 1000, and
    the classifier model answers MODERATE. *)
Definition sample_env : Env := {|
  sha256_hex := fun s => s;
  md5_hex := fun s => s;
  resolve_path := fun p => p;
  resolve_raises := fun _ => false;
  path_exists := fun _ => true;
  path_name := fun p => p;
  read_text := fun _ => None;
  utcnow := 1000;
  utcnow_again := fun _ => 1000;
  uuid4_hex := "0123456789abcdef0123456789abcdef";
  CLAUDE_METADATA := None;
  classifier_reply := fun _ => Some "MODERATE";
|}.

(** A configuration with small limits, so that short messages reach
    them. *)
Definition small_config : Config := {|
  COMPLEXITY_OVERRIDE_DEFAULT_TTL_MINUTES := 5;
  COMPLEXITY_OVERRIDE_MAX_TTL_MINUTES := 60;
  CONTEXT_SOFT_LIMIT_TOKENS := 5;
  CONTEXT_HARD_LIMIT_TOKENS := 8;
  CONTEXT_BLOCK_LIMIT_TOKENS := 30;
  CONTEXT_DUPLICATE_MIN_TOKENS := 3;
  ENFORCEMENT_OVERHEAD_TOKENS := 1;
  LEDGER_ENFORCEMENT_APPLY_ALL := true;
  LEDGER_ENFORCEMENT_REPOS := [];
  SESSION_CACHE_TTL_SECONDS := 7200;
  SESSION_FILE_TTL_SECONDS := 10800;
  REQUEST_CAPTURE_ENABLED := false;
  ROUTER_BUILD_ID := "";
|}.

Definition empty_world : World := {|
  _repo_registry := ∅;
  _session_repo_cache := ∅;
  _session_repo_history := ∅;
  session_files := ∅;
  _complexity_override_cache := ∅;
  _cache := [];
  policy_contract_cache := ∅;
  router_metadata_cache := ∅;
  _capture_order := [];
  trace := [];
|}.

Definition text_message (r s : string) : Message :=
  {| role := r; content := ContentStr s |}.

(** A request for model ["X"] with the given metadata, headers and
    messages. *)
Definition request (md : gmap string mval) (hs : gmap string string)
    (msgs : list Message) : Data :=
  {| model := Some "X"; messages := msgs; system := None; metadata := md;
     headers := hs; litellm_metadata := ∅; response := None;
     skip_llm_call := false; do_not_route := false |}.

Definition sample_conversation : list Message :=
  [ text_message "system" "sys";
    text_message "assistant" "aaaaaaaa";
    text_message "user" "bbbbbbbb";
    text_message "assistant" "cccccccc";
    text_message "user" "hello!" ].

(** Three system messages of eleven tokens in all, which trimming may
    not remove. *)
Definition heavy_system_conversation : list Message :=
  [ text_message "system" "rules rules rules";
    text_message "system" "more rules, as many";
    text_message "user" "hello!" ].

(** The classifier's own request, over the sample conversation. *)
Definition classification_probe : Data :=
  request (<["request_type" := VStr "classification"]> ∅) ∅ sample_conversation.

Definition scoped_headers : gmap string string :=
  <["x-litellm-repo" := "acme"]> (<["x-litellm-repo-root" := "/tmp/acme"]> ∅).

Definition docs_message : Message :=
  text_message "user" "please create a new markdown file under docs/design/".

(** A scoped request that asks for a new documentation file. *)
Definition docs_request : Data := request ∅ scoped_headers [docs_message].

(** The same request with a repository root and no repository name. *)
Definition root_only_request : Data :=
  request (<["repo_root" := VStr "/tmp/acme"]> ∅) ∅ [docs_message].

Definition root_only_hello : Data :=
  request (<["repo_root" := VStr "/tmp/acme"]> ∅) ∅ [text_message "user" "Hello!"].

Definition unscoped_hello : Data := request ∅ ∅ [text_message "user" "Hello!"].

Definition scoped_hello : Data := request ∅ scoped_headers [text_message "user" "Hello!"].


Definition session_metadata : gmap string mval :=
  <["user_id" := VStr "user_1_account__session_s1"]> ∅.

(** A world in which session [s1] holds an override to COMPLEX that
    expires at time 2000. *)
Definition world_with_override : World :=
  set_override_cache
    (<["s1" := {| ov_complexity := "COMPLEX"; ov_expires := 2000;
                  ov_created := 900; ov_ttl_minutes := 10 |}]> ∅)
    empty_world.

Definition cancel_request : Data :=
  request session_metadata ∅ [text_message "user" "cancel override"].

Definition review_request : Data :=
  request session_metadata ∅ [text_message "user" "thanks, go on"].


(** ** Vocabulary of the further properties *)

(** The classification cache is a dictionary of bounded size: its keys
    are distinct and there are at most [MAX_CACHE_SIZE] of them. *)
Definition cache_ok (c : list (string * (string * Z))) : Prop :=
  List.NoDup (map fst c) /\ (length c <= MAX_CACHE_SIZE)%nat.

(** The token estimate of one message and of a list of messages, as
    the guard computes them. *)
Definition message_tokens (m : Message) : Z :=
  _estimate_tokens_from_text (_normalize_message_text m).

Definition messages_tokens (msgs : list Message) : Z :=
  fold_right (fun m acc => message_tokens m + acc) 0 msgs.

(** What pass 1 may do to a message [m]: leave it as it is, or replace
    its content by one of the two stubs, keeping its role. *)
Definition pass1_rewrites (cfg : Config) (m m' : Message) : Prop :=
  role m' = role m
  /\ (m' = m
      \/ content m' = ContentStr duplicate_stub
      \/ exists n, CONTEXT_BLOCK_LIMIT_TOKENS cfg < n
                   /\ content m' = ContentStr (suppressed_stub cfg n)).

(** A request for a new documentation file, long enough to reach the
    default duplicate threshold of 800 tokens. *)
Definition long_docs_text : string :=
  "please create a new markdown file under docs/design/ "
  ++ string_of_list_ascii (repeat "x"%char 3200).

(** A scoped conversation in which the user repeats that request after
    a refusal. *)
Definition retry_request : Data :=
  request ∅ scoped_headers
    [ text_message "user" long_docs_text;
      text_message "assistant" "refused";
      text_message "user" long_docs_text ].

(** A scoped request for a new documentation file, in session [s1]. *)
Definition override_docs_request : Data :=
  request session_metadata scoped_headers [docs_message].

(** A request in session [s1] whose message sets an override. *)
Definition set_override_request : Data :=
  request session_metadata ∅ [text_message "user" "use opus for 10 minutes"].

(** A conversation that goes on after its last user message. *)
Definition trailing_conversation : list Message :=
  [ text_message "assistant" "aaaaaaaa";
    text_message "user" "hello!";
    text_message "assistant" "cccccccc" ].

(** The sample environment with the clock at [now]. *)
Definition sample_env_at (now : Z) : Env := {|
  sha256_hex := sha256_hex sample_env;
  md5_hex := md5_hex sample_env;
  resolve_path := resolve_path sample_env;
  resolve_raises := resolve_raises sample_env;
  path_exists := path_exists sample_env;
  path_name := path_name sample_env;
  read_text := read_text sample_env;
  utcnow := now;
  utcnow_again := fun _ => now;
  uuid4_hex := uuid4_hex sample_env;
  CLAUDE_METADATA := CLAUDE_METADATA sample_env;
  classifier_reply := classifier_reply sample_env;
|}.

(** Membership in a list of ids, with ids compared as Python compares
    them. *)
Definition py_in (x : mval) (l : list mval) : Prop :=
  exists y, In y l /\ py_eq x y = true.

(** No two ids of the list are equal as Python compares them. *)
Fixpoint py_distinct (l : list mval) : Prop :=
  match l with
  | [] => True
  | x :: r => ~ py_in x r /\ py_distinct r
  end.

(** The sample environment with a clock that advances by one second
    between two readings: the first reading is [now]. *)
Definition ticking_env (now : Z) : Env := {|
  sha256_hex := sha256_hex sample_env;
  md5_hex := md5_hex sample_env;
  resolve_path := resolve_path sample_env;
  resolve_raises := resolve_raises sample_env;
  path_exists := path_exists sample_env;
  path_name := path_name sample_env;
  read_text := read_text sample_env;
  utcnow := now;
  utcnow_again := fun n => now + 1 + Z.of_nat n;
  uuid4_hex := uuid4_hex sample_env;
  CLAUDE_METADATA := CLAUDE_METADATA sample_env;
  classifier_reply := classifier_reply sample_env;
|}.

(** The sample environment in which no path can be resolved. *)
Definition unresolved_env : Env := {|
  sha256_hex := sha256_hex sample_env;
  md5_hex := md5_hex sample_env;
  resolve_path := resolve_path sample_env;
  resolve_raises := fun _ => true;
  path_exists := path_exists sample_env;
  path_name := path_name sample_env;
  read_text := read_text sample_env;
  utcnow := utcnow sample_env;
  utcnow_again := utcnow_again sample_env;
  uuid4_hex := uuid4_hex sample_env;
  CLAUDE_METADATA := CLAUDE_METADATA sample_env;
  classifier_reply := classifier_reply sample_env;
|}.

(** * Properties *)

(** ** The documentation-policy detector *)

Section Detector.

Variable message_lower : string.
Hypothesis allowed : mentions_allowed_file message_lower = true.

Lemma scan_violation_patterns_allowed pats :
  scan_violation_patterns message_lower pats = None.
Proof.
  induction pats as [|[pattern reason] rest IH]; simpl; [reflexivity|].
  rewrite allowed. destruct (Str.contains pattern message_lower); exact IH.
Qed.

Lemma scan_indicators_allowed folder inds :
  scan_indicators message_lower folder inds = None.
Proof.
  induction inds as [|indicator rest IH]; simpl; [reflexivity|].
  rewrite allowed.
  destruct (Str.contains indicator message_lower && Str.contains folder message_lower)%bool;
    exact IH.
Qed.

Lemma scan_folders_allowed folders :
  scan_folders message_lower folders = None.
Proof.
  induction folders as [|folder rest IH]; cbn [scan_folders]; [reflexivity|].
  rewrite scan_indicators_allowed.
  destruct (Str.contains folder message_lower); exact IH.
Qed.

End Detector.

(** C7. A message that names [readme.md] or [agents.md], in any
    letter case, is never reported as a violation, whatever violation
    phrases, folder names and creation verbs it also contains. *)
Theorem detect_policy_violation_escape_hatch (user_message : string) :
  Str.contains "readme.md" (Str.lower user_message) = true
  \/ Str.contains "agents.md" (Str.lower user_message) = true ->
  detect_policy_violation user_message = None.
Proof.
  intros Hm.
  assert (Hallowed : mentions_allowed_file (Str.lower user_message) = true).
  { unfold mentions_allowed_file. destruct Hm as [-> | ->]; [reflexivity|].
    apply orb_true_r. }
  unfold detect_policy_violation.
  destruct (negb (Str.nonempty user_message)); [reflexivity|].
  rewrite scan_violation_patterns_allowed by exact Hallowed.
  apply scan_folders_allowed, Hallowed.
Qed.

Lemma detect_policy_violation_escape_hatch_witness :
  detect_policy_violation "please create a new markdown file" <> None
  /\ detect_policy_violation "please create a new markdown file next to README.md" = None.
Proof.
  split; [vm_compute; discriminate|].
  apply detect_policy_violation_escape_hatch. left. vm_compute. reflexivity.
Defined.

(** ** Override commands *)

Lemma cancel_pattern_needs_text : Re.search _CANCEL_OVERRIDE_PATTERN "" = None.
Proof. vm_compute. reflexivity. Qed.

(** C10. A message in which both the cancel pattern and the set
    pattern match is parsed as a cancel command; handling it removes
    the session's override and writes none. *)
Theorem cancel_takes_precedence_over_set (cfg : Config) (message : string) :
  is_Some (Re.search _CANCEL_OVERRIDE_PATTERN message) ->
  is_Some (Re.search _OVERRIDE_PATTERN message) ->
  _parse_override_command cfg message = Some CancelCommand
  /\ forall (E : Env) (session_id : option string) (w : World),
       _complexity_override_cache
         (apply_override_command E cfg session_id (Some message) w)
       = if truthy_str session_id
         then delete (default "" session_id) (_complexity_override_cache w)
         else _complexity_override_cache w.
Proof.
  intros Hcancel _.
  assert (Hne : Str.nonempty message = true).
  { destruct message; [|reflexivity].
    rewrite cancel_pattern_needs_text in Hcancel. destruct Hcancel as [? [=]]. }
  assert (Hparse : _parse_override_command cfg message = Some CancelCommand).
  { unfold _parse_override_command. rewrite Hne. simpl.
    rewrite bool_decide_eq_true_2 by exact Hcancel. reflexivity. }
  split; [exact Hparse|].
  intros E session_id w. unfold apply_override_command.
  rewrite Hne, Hparse. unfold _cancel_complexity_override.
  destruct (truthy_str session_id); simpl; [|reflexivity].
  destruct (_complexity_override_cache w !! default "" session_id) eqn:Hlook; simpl.
  - reflexivity.
  - symmetry. apply delete_id. exact Hlook.
Qed.

Lemma cancel_takes_precedence_over_set_witness :
  is_Some (Re.search _CANCEL_OVERRIDE_PATTERN "cancel the override and use opus for 10 minutes")
  /\ is_Some (Re.search _OVERRIDE_PATTERN "cancel the override and use opus for 10 minutes")
  /\ _parse_override_command default_config "cancel the override and use opus for 10 minutes"
     = Some CancelCommand.
Proof.
  assert (Hc : is_Some (Re.search _CANCEL_OVERRIDE_PATTERN
                          "cancel the override and use opus for 10 minutes")).
  { vm_compute. eexists. reflexivity. }
  assert (Hs : is_Some (Re.search _OVERRIDE_PATTERN
                          "cancel the override and use opus for 10 minutes")).
  { vm_compute. eexists. reflexivity. }
  split; [exact Hc|]. split; [exact Hs|].
  exact (proj1 (cancel_takes_precedence_over_set default_config _ Hc Hs)).
Defined.

(** ** The trimming pass *)

Section Trimming.

(** The sum of the token costs of a list of candidates. *)
(* sum_costs defined in defs *)

Lemma enumerate_In {A} (l : list A) i x :
  In (i, x) (enumerate l) <-> l !! i = Some x.
Proof.
  unfold enumerate. rewrite <- list_elem_of_In, elem_of_lookup_imap.
  split.
  - intros (j & y & [= -> ->] & H). exact H.
  - intros H. exists i, x. split; [reflexivity|exact H].
Qed.

Lemma enumerate_snoc {A} (l : list A) x :
  enumerate (l ++ [x]) = (enumerate l ++ [(length l, x)])%list.
Proof.
  unfold enumerate. rewrite imap_app. simpl. rewrite Nat.add_0_r. reflexivity.
Qed.

Lemma last_user_idx_snoc msgs m :
  last_user_idx (msgs ++ [m])
  = if String.eqb (role m) "user" then Some (length msgs) else last_user_idx msgs.
Proof.
  unfold last_user_idx. rewrite enumerate_snoc, fold_left_app. reflexivity.
Qed.

(** [last_user_idx] is the position of the last message whose role is
    ["user"]. *)
Lemma last_user_idx_last msgs j m :
  last_user_message msgs j m -> last_user_idx msgs = Some j.
Proof.
  unfold last_user_message.
  revert j m. induction msgs as [|x msgs IH] using rev_ind; intros j m (Hj & Hu & Hlast).
  - rewrite lookup_nil in Hj. discriminate.
  - rewrite last_user_idx_snoc.
    destruct (decide (j = length msgs)) as [->|Hne].
    + rewrite lookup_app_r, Nat.sub_diag in Hj by lia. injection Hj as ->.
      rewrite Hu. reflexivity.
    + assert (Hlt : (j < length msgs)%nat).
      { apply lookup_lt_Some in Hj. rewrite length_app in Hj. simpl in Hj. lia. }
      rewrite lookup_app_l in Hj by exact Hlt.
      destruct (String.eqb (role x) "user") eqn:Hx.
      * apply String.eqb_eq in Hx. exfalso.
        apply (Hlast (length msgs) x Hlt); [|exact Hx].
        rewrite lookup_app_r, Nat.sub_diag by lia. reflexivity.
      * apply (IH j m). split; [exact Hj|]. split; [exact Hu|]. intros k m' Hk Hm'.
        apply (Hlast k m' Hk). rewrite lookup_app_l; [exact Hm'|].
        apply lookup_lt_Some in Hm'. exact Hm'.
Qed.

Lemma trim_candidates_In msgs i c :
  In (i, c) (trim_candidates msgs) ->
  exists m, msgs !! i = Some m /\ role m <> "system" /\ last_user_idx msgs <> Some i.
Proof.
  unfold trim_candidates. rewrite in_map_iff.
  intros ([i' m] & [= <- _] & Hin). apply filter_In in Hin as [Hin Hc].
  apply enumerate_In in Hin. exists m. split; [exact Hin|].
  unfold is_candidate in Hc. simpl in Hc.
  destruct (String.eqb (role m) "system") eqn:Hs; [discriminate|].
  apply String.eqb_neq in Hs. split; [exact Hs|].
  destruct (last_user_idx msgs) as [j|]; [|discriminate].
  intros [= ->]. rewrite Nat.eqb_refl in Hc. discriminate.
Qed.

Lemma trim_loop_spec soft cands total acc :
  exists n, (n <= length cands)%nat
    /\ trim_loop soft cands total acc
       = ((acc ++ map fst (firstn n cands))%list, total - sum_costs (firstn n cands))
    /\ (total - sum_costs (firstn n cands) <= soft \/ n = length cands)
    /\ (forall k, (k < n)%nat -> soft < total - sum_costs (firstn k cands)).
Proof.
  revert total acc. induction cands as [|[i c] rest IH]; intros total acc.
  - exists 0%nat. simpl. rewrite app_nil_r, Z.sub_0_r.
    repeat split; [lia|auto|intros; lia].
  - simpl. destruct (total <=? soft) eqn:Hle.
    + exists 0%nat. simpl. rewrite app_nil_r, Z.sub_0_r.
      apply Z.leb_le in Hle. repeat split; [lia|auto|intros; lia].
    + apply Z.leb_gt in Hle.
      destruct (IH (total - c) (acc ++ [i])%list) as (n & Hn & Heq & Hstop & Hmin).
      exists (S n). simpl. rewrite Heq, <- app_assoc. simpl.
      replace (total - (c + sum_costs (firstn n rest)))
        with (total - c - sum_costs (firstn n rest)) by lia.
      repeat split; [lia| |].
      * destruct Hstop as [H|H]; [left; exact H|right; lia].
      * intros [|k] Hk; simpl; [lia|].
        specialize (Hmin k ltac:(lia)). lia.
Qed.

Lemma remove_indices_In removal msgs m :
  In m (remove_indices removal msgs)
  <-> exists i, msgs !! i = Some m /\ ~ In i removal.
Proof.
  unfold remove_indices. rewrite in_map_iff. split.
  - intros ([i m'] & <- & Hin). apply filter_In in Hin as [Hin Hk].
    apply enumerate_In in Hin. exists i. split; [exact Hin|].
    simpl in Hk. intros Hr. apply negb_true_iff in Hk.
    assert (existsb (Nat.eqb i) removal = true); [|congruence].
    apply existsb_exists. exists i. split; [exact Hr|apply Nat.eqb_refl].
  - intros (i & Hi & Hr). exists (i, m). split; [reflexivity|].
    apply filter_In. split; [apply enumerate_In; exact Hi|].
    simpl. apply negb_true_iff. destruct (existsb (Nat.eqb i) removal) eqn:Hex; [|reflexivity].
    apply existsb_exists in Hex as (j & Hj & Heq). apply Nat.eqb_eq in Heq. subst j.
    contradiction.
Qed.

End Trimming.


(** [last_user_idx], when it finds an index, finds the last user
    message. *)
Lemma last_user_idx_found msgs j :
  last_user_idx msgs = Some j -> exists m, last_user_message msgs j m.
Proof.
  unfold last_user_message.
  revert j. induction msgs as [|x msgs IH] using rev_ind; intros j Hj.
  - discriminate Hj.
  - rewrite last_user_idx_snoc in Hj.
    destruct (String.eqb (role x) "user") eqn:Hx.
    + injection Hj as <-. apply String.eqb_eq in Hx. exists x.
      split; [rewrite lookup_app_r, Nat.sub_diag by lia; reflexivity|].
      split; [exact Hx|]. intros k m' Hk Hm'.
      apply lookup_lt_Some in Hm'. rewrite length_app in Hm'. cbn [length] in Hm'. lia.
    + destruct (IH j Hj) as (m & Hm & Hu & Hlast). exists m.
      assert (Hlt : (j < length msgs)%nat) by (apply lookup_lt_Some in Hm; exact Hm).
      split; [rewrite lookup_app_l by exact Hlt; exact Hm|].
      split; [exact Hu|]. intros k m' Hk Hm'.
      destruct (decide (k < length msgs)%nat) as [Hk'|Hk'].
      * rewrite lookup_app_l in Hm' by exact Hk'. apply (Hlast k m' Hk Hm').
      * assert (k = length msgs) as ->.
        { apply lookup_lt_Some in Hm'. rewrite length_app in Hm'. cbn [length] in Hm'. lia. }
        rewrite lookup_app_r, Nat.sub_diag in Hm' by lia. injection Hm' as <-.
        apply String.eqb_neq. exact Hx.
Qed.

(** The candidates are the messages that are neither system messages
    nor the last user message, each with its token estimate. *)
Lemma trim_candidates_iff msgs i c :
  In (i, c) (trim_candidates msgs)
  <-> exists m, msgs !! i = Some m /\ role m <> "system"
                /\ ~ last_user_message msgs i m
                /\ c = _estimate_tokens_from_text (_normalize_message_text m).
Proof.
  split.
  - intros Hin. destruct (trim_candidates_In msgs i c Hin) as (m & Hm & Hs & Hl).
    exists m. split; [exact Hm|]. split; [exact Hs|]. split.
    + intros Hlast. apply Hl. eapply last_user_idx_last, Hlast.
    + unfold trim_candidates in Hin. apply in_map_iff in Hin as ([i' m'] & [= <- <-] & Hin).
      apply filter_In in Hin as [Hin _]. apply enumerate_In in Hin.
      cbn [fst snd] in *. congruence.
  - intros (m & Hm & Hs & Hl & ->). unfold trim_candidates.
    apply in_map_iff. exists (i, m). split; [reflexivity|].
    apply filter_In. split; [apply enumerate_In; exact Hm|].
    unfold is_candidate. cbn [fst snd].
    destruct (String.eqb_spec (role m) "system") as [Heq|_]; [contradiction|].
    destruct (last_user_idx msgs) as [j|] eqn:Hj; [|reflexivity].
    apply negb_true_iff, Nat.eqb_neq. intros ->.
    destruct (last_user_idx_found msgs j Hj) as (m' & Hlast).
    assert (m' = m) as -> by (destruct Hlast as [Hj' _]; congruence).
    exact (Hl Hlast).
Qed.

(** The indices of a filtered enumeration increase. *)
Lemma filter_imap_increasing {A} (P : nat * A -> bool) (l : list A) (k : nat) :
  forall a b ia ib,
    (a < b)%nat ->
    map fst (List.filter P (imap (fun i x => ((k + i)%nat, x)) l)) !! a = Some ia ->
    map fst (List.filter P (imap (fun i x => ((k + i)%nat, x)) l)) !! b = Some ib ->
    (k <= ia)%nat /\ (ia < ib)%nat.
Proof.
  revert k. induction l as [|x l IH]; intros k a b ia ib Hab Ha Hb.
  - cbn in Ha. rewrite lookup_nil in Ha. discriminate.
  - cbn [imap List.filter] in Ha, Hb.
    assert (Hext : imap ((fun i x0 => ((k + i)%nat, x0)) ∘ S) l
                   = imap (fun i x0 => ((S k + i)%nat, x0)) l).
    { apply imap_ext. intros i y _. cbn. f_equal. lia. }
    rewrite Hext in Ha, Hb.
    assert (Hge : forall c ic,
              map fst (List.filter P (imap (fun i x0 => ((S k + i)%nat, x0)) l)) !! c = Some ic ->
              (S k <= ic)%nat).
    { intros c ic Hc. apply list_elem_of_lookup_2, list_elem_of_In, in_map_iff in Hc
        as ([i' y] & <- & Hin).
      apply filter_In in Hin as [Hin _].
      apply list_elem_of_In, elem_of_lookup_imap in Hin as (i & z & [= -> ->] & _).
      cbn. lia. }
    destruct (P ((k + 0)%nat, x)).
    + cbn [map fst] in Ha, Hb. destruct a as [|a]; destruct b as [|b]; try lia.
      * cbn in Ha. injection Ha as <-. cbn in Hb. apply Hge in Hb. lia.
      * cbn in Ha, Hb. destruct (IH (S k) a b ia ib ltac:(lia) Ha Hb). lia.
    + destruct (IH (S k) a b ia ib Hab Ha Hb). lia.
Qed.

Lemma trim_candidates_increasing msgs a b ia ib :
  (a < b)%nat ->
  map fst (trim_candidates msgs) !! a = Some ia ->
  map fst (trim_candidates msgs) !! b = Some ib ->
  (ia < ib)%nat.
Proof.
  intros Hab Ha Hb. unfold trim_candidates in Ha, Hb.
  rewrite map_map in Ha, Hb. cbn [fst] in Ha, Hb.
  assert (Henum : enumerate msgs = imap (fun i x => ((0 + i)%nat, x)) msgs) by reflexivity.
  rewrite Henum in Ha, Hb.
  exact (proj2 (filter_imap_increasing _ msgs 0 a b ia ib Hab Ha Hb)).
Qed.

(** C4. When the estimated total exceeds the soft limit, the trimming
    pass removes candidates only, in encounter order, and stops as
    soon as the total is within the soft limit or the candidates are
    exhausted.  The candidates are exactly the messages that are
    neither [role=system] nor the last [role=user] message, taken in
    the order of the list, those after the last user message
    included: while the total is above the limit each of them is
    removed, so a total still above the limit leaves the system
    messages and the last user message only.  Every system message and
    the last user message are still in the list afterwards. *)
Theorem trimming_pass_removes_only_candidates (cfg : Config) (msgs : list Message)
    (total : Z) :
  CONTEXT_SOFT_LIMIT_TOKENS cfg < total ->
  let kept := fst (fst (pass2 cfg msgs total)) in
  let total' := snd (fst (pass2 cfg msgs total)) in
  let removed := snd (pass2 cfg msgs total) in
  let candidates := trim_candidates msgs in
  let n := length removed in
  (* the removed indices are the first [n] candidates, in encounter order *)
  removed = map fst (firstn n candidates)
  /\ total' = total - sum_costs (firstn n candidates)
  (* removal goes on until the total fits or no candidate is left ... *)
  /\ (total' <= CONTEXT_SOFT_LIMIT_TOKENS cfg \/ n = length candidates)
  (* ... and not beyond: before each removal the total was above the limit *)
  /\ (forall k, (k < n)%nat ->
        CONTEXT_SOFT_LIMIT_TOKENS cfg < total - sum_costs (firstn k candidates))
  (* only candidates are removed *)
  /\ (forall i, In i removed ->
        exists m, msgs !! i = Some m /\ role m <> "system" /\ ~ last_user_message msgs i m)
  (* the list afterwards holds exactly the messages not removed *)
  /\ (forall m, In m kept <-> exists i, msgs !! i = Some m /\ ~ In i removed)
  (* system messages and the last user message survive *)
  /\ (forall m, In m msgs -> role m = "system" -> In m kept)
  /\ (forall j m, last_user_message msgs j m -> In m kept)
  (* the candidates are all the messages that are neither system
     messages nor the last user message, each with its estimate ... *)
  /\ (forall i c, In (i, c) candidates
        <-> exists m, msgs !! i = Some m /\ role m <> "system"
                      /\ ~ last_user_message msgs i m
                      /\ c = _estimate_tokens_from_text (_normalize_message_text m))
  (* ... in the order of the list *)
  /\ (forall a b ia ib, (a < b)%nat ->
        map fst candidates !! a = Some ia -> map fst candidates !! b = Some ib ->
        (ia < ib)%nat)
  (* a total still above the limit means that every candidate is gone *)
  /\ (CONTEXT_SOFT_LIMIT_TOKENS cfg < total' ->
      forall i m, msgs !! i = Some m ->
        (In i removed <-> role m <> "system" /\ ~ last_user_message msgs i m)).
Proof.
  intros Hover. unfold pass2.
  apply Z.ltb_lt in Hover. rewrite Hover.
  destruct (trim_loop_spec (CONTEXT_SOFT_LIMIT_TOKENS cfg) (trim_candidates msgs) total [])
    as (n & Hn & Heq & Hstop & Hmin).
  rewrite Heq. cbn [fst snd app].
  assert (Hlen : length (map fst (firstn n (trim_candidates msgs))) = n).
  { rewrite length_map, length_firstn. lia. }
  rewrite Hlen.
  assert (Hcand : forall i, In i (map fst (firstn n (trim_candidates msgs))) ->
            exists m, msgs !! i = Some m /\ role m <> "system" /\ ~ last_user_message msgs i m).
  { intros i Hi. apply in_map_iff in Hi as ([i' c] & <- & Hin).
    apply list_elem_of_In, elem_of_take in Hin as (k & Hk & _).
    assert (Hin : In (i', c) (trim_candidates msgs)).
    { apply list_elem_of_In, list_elem_of_lookup. exists k. exact Hk. }
    apply trim_candidates_In in Hin as (m & Hm & Hs & Hl).
    exists m. repeat split; [exact Hm|exact Hs|].
    intros Hlast. apply Hl. simpl. eapply last_user_idx_last, Hlast. }
  assert (Hkept : forall m, In m (remove_indices (map fst (firstn n (trim_candidates msgs))) msgs)
            <-> exists i, msgs !! i = Some m
                          /\ ~ In i (map fst (firstn n (trim_candidates msgs)))).
  { intros m. apply remove_indices_In. }
  split; [reflexivity|]. split; [reflexivity|]. split; [exact Hstop|].
  split; [exact Hmin|]. split; [exact Hcand|]. split; [exact Hkept|].
  split.
  { intros m Hm Hsys. apply Hkept.
    apply list_elem_of_In, list_elem_of_lookup in Hm as (i & Hi).
    exists i. split; [exact Hi|]. intros Hr.
    destruct (Hcand i Hr) as (m' & Hm' & Hs & _). congruence. }
  split.
  { intros j m Hlast. apply Hkept. exists j. split; [apply Hlast|].
    intros Hr. destruct (Hcand j Hr) as (m' & Hm' & _ & Hl).
    assert (m' = m) as -> by (destruct Hlast as [Hj _]; congruence).
    exact (Hl Hlast). }
  split; [apply trim_candidates_iff|].
  split; [apply trim_candidates_increasing|].
  intros Habove i m Hm. split.
  - intros Hr. destruct (Hcand i Hr) as (m' & Hm' & Hs & Hl).
    assert (m' = m) as -> by congruence. split; assumption.
  - intros [Hs Hl]. destruct Hstop as [Hfit|Hall]; [lia|].
    rewrite Hall, firstn_all. apply in_map_iff.
    exists (i, _estimate_tokens_from_text (_normalize_message_text m)).
    split; [reflexivity|]. apply trim_candidates_iff. exists m. auto.
Qed.

Lemma trimming_pass_removes_only_candidates_witness :
  CONTEXT_SOFT_LIMIT_TOKENS small_config < 10
  /\ snd (pass2 small_config sample_conversation 10) = [1; 2; 3]%nat
  /\ In (text_message "system" "sys") (fst (fst (pass2 small_config sample_conversation 10)))
  /\ In (text_message "user" "hello!") (fst (fst (pass2 small_config sample_conversation 10)))
  /\ In 2%nat (snd (pass2 small_config trailing_conversation 100)).
Proof.
  assert (H : CONTEXT_SOFT_LIMIT_TOKENS small_config < 10) by (vm_compute; reflexivity).
  pose proof (trimming_pass_removes_only_candidates small_config sample_conversation 10 H)
    as (_ & _ & _ & _ & _ & _ & Hsys & Hlast & _).
  assert (H' : CONTEXT_SOFT_LIMIT_TOKENS small_config < 100) by (vm_compute; reflexivity).
  pose proof (trimming_pass_removes_only_candidates small_config trailing_conversation 100 H')
    as (_ & _ & _ & _ & _ & _ & _ & _ & _ & _ & Hall).
  split; [exact H|]. split; [vm_compute; reflexivity|]. split; [|split].
  - apply Hsys; [vm_compute; tauto|reflexivity].
  - apply (Hlast 4%nat). split; [reflexivity|]. split; [reflexivity|].
    intros k m' Hk Hm'. apply lookup_lt_Some in Hm'. simpl in Hm'. lia.
  - apply (Hall ltac:(vm_compute; reflexivity) 2%nat (text_message "assistant" "cccccccc")
             eq_refl).
    split; [discriminate|]. intros (_ & Hu & _). discriminate Hu.
Defined.

(** ** The context guard *)

(** What the guard returns when it refuses. *)
Lemma guard_refusal (E : Env) (cfg : Config) (data : Data) :
  CONTEXT_HARD_LIMIT_TOKENS cfg < post_trim_total E cfg data ->
  let g := fst (_apply_context_exhaustion_protection E cfg data) in
  _apply_context_exhaustion_protection E cfg data = (g, true)
  /\ response g = Some context_exhaustion_response
  /\ metadata g !! "exhaustion_risk" = Some (VStr "fatal")
  /\ skip_llm_call g = true
  /\ do_not_route g = true.
Proof.
  unfold post_trim_total. intros Hfatal.
  unfold _apply_context_exhaustion_protection.
  destruct (pass2 cfg (p1_messages (pass1 E cfg (messages data)))
              (p1_total (pass1 E cfg (messages data)))) as [[msgs total] removed].
  simpl in Hfatal. apply Z.ltb_lt in Hfatal. rewrite Hfatal. simpl.
  repeat split. apply lookup_insert_eq.
Qed.

(** C3. When the estimate after trimming exceeds the hard limit, the
    guard attaches the synthetic refusal with finish reason
    [context_exhaustion], stamps [exhaustion_risk = fatal], sets both
    skip flags, and the hook returns at once: nothing later runs and
    the messages are not forwarded. *)
Theorem context_fatal_refusal (E : Env) (cfg : Config) (data : Data) :
  CONTEXT_HARD_LIMIT_TOKENS cfg < post_trim_total E cfg data ->
  let out := _apply_context_exhaustion_protection E cfg data in
  snd out = true
  /\ response (fst out) = Some context_exhaustion_response
  /\ finish_reason context_exhaustion_response = "context_exhaustion"
  /\ metadata (fst out) !! "exhaustion_risk" = Some (VStr "fatal")
  /\ skip_llm_call (fst out) = true
  /\ do_not_route (fst out) = true
  /\ (forall w request_id call_type,
        guard_and_route E cfg w data request_id call_type = (w, fst out))
  /\ (forall w data0 call_type,
        rs_data (resolve_request_context E cfg w data0) = data ->
        async_pre_call_hook E cfg w data0 call_type
        = (rs_world (resolve_request_context E cfg w data0), fst out)).
Proof.
  intros Hfatal.
  destruct (guard_refusal E cfg data Hfatal) as (Heq & Hresp & Hrisk & Hskip & Hroute).
  cbv zeta. rewrite Heq at 1. simpl.
  repeat split; try assumption.
  - intros w request_id call_type. unfold guard_and_route. rewrite Heq. reflexivity.
  - intros w data0 call_type Hres. unfold async_pre_call_hook, guard_and_route.
    rewrite Hres, Heq. reflexivity.
Qed.

Lemma context_fatal_refusal_witness :
  CONTEXT_HARD_LIMIT_TOKENS small_config
    < post_trim_total sample_env small_config
        (rs_data (resolve_request_context sample_env small_config empty_world
                    (request ∅ ∅ heavy_system_conversation)))
  /\ (response (snd (async_pre_call_hook sample_env small_config empty_world
                      (request ∅ ∅ heavy_system_conversation) "completion"))
      = Some context_exhaustion_response).
Proof.
  assert (H : CONTEXT_HARD_LIMIT_TOKENS small_config
              < post_trim_total sample_env small_config
                  (rs_data (resolve_request_context sample_env small_config empty_world
                              (request ∅ ∅ heavy_system_conversation)))).
  { vm_compute. reflexivity. }
  split; [exact H|].
  pose proof (context_fatal_refusal sample_env small_config _ H)
    as (_ & Hresp & _ & _ & _ & _ & _ & Hhook).
  rewrite (Hhook empty_world (request ∅ ∅ heavy_system_conversation) "completion" eq_refl).
  exact Hresp.
Defined.

(** ** Frame lemmas of the stages before policy enforcement *)

Lemma agree_except_refl ks m : agree_except ks m m.
Proof. intros k _. reflexivity. Qed.

Lemma agree_except_trans ks m1 m2 m3 :
  agree_except ks m1 m2 -> agree_except ks m2 m3 -> agree_except ks m1 m3.
Proof. intros H12 H23 k Hk. rewrite (H23 k Hk). apply H12, Hk. Qed.

Lemma agree_except_weaken ks ks' m m' :
  incl ks ks' -> agree_except ks m m' -> agree_except ks' m m'.
Proof. intros Hi H k Hk. apply H. intros Hin. apply Hk, Hi, Hin. Qed.

Lemma agree_except_insert ks m k v :
  In k ks -> agree_except ks m (<[k := v]> m).
Proof.
  intros Hin k' Hk'. apply lookup_insert_ne. intros ->. contradiction.
Qed.

Lemma agree_except_get_str ks m m' k :
  agree_except ks m m' -> ~ In k ks -> get_str m' k = get_str m k.
Proof. intros H Hk. unfold get_str. rewrite (H k Hk). reflexivity. Qed.

Lemma same_payload_refl d : same_payload d d.
Proof. repeat split. Qed.

Lemma same_payload_trans d1 d2 d3 :
  same_payload d1 d2 -> same_payload d2 d3 -> same_payload d1 d3.
Proof.
  unfold same_payload. intros (?&?&?&?&?&?&?) (?&?&?&?&?&?&?).
  repeat split; congruence.
Qed.

Lemma same_routing_state_refl w : same_routing_state w w.
Proof. repeat split. Qed.

Lemma same_routing_state_trans w1 w2 w3 :
  same_routing_state w1 w2 -> same_routing_state w2 w3 -> same_routing_state w1 w3.
Proof.
  unfold same_routing_state. intros (?&?&?&?&?) (?&?&?&?&?).
  repeat split; congruence.
Qed.

(** A key that is not one of the stage keys. *)
Ltac not_stage_key := unfold stage_keys, guard_keys; simpl; intuition discriminate.

Ltac stage_key := unfold stage_keys, guard_keys; simpl; tauto.

Lemma guard_keys_stage_keys : incl guard_keys stage_keys.
Proof. unfold stage_keys. apply incl_appl, incl_refl. Qed.

(** *** The context guard *)

Lemma guard_refused_iff E cfg d :
  snd (_apply_context_exhaustion_protection E cfg d)
  = (CONTEXT_HARD_LIMIT_TOKENS cfg <? post_trim_total E cfg d).
Proof.
  unfold _apply_context_exhaustion_protection, post_trim_total.
  destruct (pass2 cfg _ _) as [[msgs total] removed]. simpl.
  destruct (CONTEXT_HARD_LIMIT_TOKENS cfg <? total); reflexivity.
Qed.

Lemma guard_frame E cfg d :
  let g := fst (_apply_context_exhaustion_protection E cfg d) in
  model g = model d /\ system g = system d /\ headers g = headers d
  /\ litellm_metadata g = litellm_metadata d
  /\ agree_except guard_keys (metadata d) (metadata g)
  /\ metadata g <> ∅
  /\ messages g
     = fst (fst (pass2 cfg (p1_messages (pass1 E cfg (messages d)))
                   (p1_total (pass1 E cfg (messages d)))))
  /\ (snd (_apply_context_exhaustion_protection E cfg d) = false ->
      response g = response d /\ skip_llm_call g = skip_llm_call d
      /\ do_not_route g = do_not_route d).
Proof.
  unfold _apply_context_exhaustion_protection.
  destruct (pass2 cfg _ _) as [[msgs total] removed]. simpl.
  destruct (CONTEXT_HARD_LIMIT_TOKENS cfg <? total); simpl.
  - repeat split; try discriminate.
    + intros k Hk. rewrite !lookup_insert_ne; [reflexivity|..];
        intros <-; apply Hk; stage_key.
    + apply insert_non_empty.
  - repeat split.
    + intros k Hk. rewrite !lookup_insert_ne; [reflexivity|..];
        intros <-; apply Hk; stage_key.
    + apply insert_non_empty.
Qed.

(** *** The repository root *)

Lemma register_frame E repo repo_root w :
  same_routing_state w (register E repo repo_root w)
  /\ _capture_order (register E repo repo_root w) = _capture_order w.
Proof.
  unfold register. destruct (resolve_raises E repo_root); [repeat split|].
  destruct (path_exists E _); repeat split.
Qed.

Ltac break_match :=
  match goal with
  | |- context [match ?x with _ => _ end] => destruct x eqn:?
  | |- context [if ?x then _ else _] => destruct x eqn:?
  end.

Ltac break_pair_hyp :=
  match goal with
  | H : (if ?x then _ else _) = (_, _) |- _ => destruct x eqn:?
  | H : match ?x with _ => _ end = (_, _) |- _ => destruct x eqn:?
  end.

Lemma get_repo_root_frame E d w :
  metadata d <> ∅ ->
  let out := get_repo_root_from_request E d w in
  same_payload d (fst (fst out))
  /\ agree_except ["repo"] (metadata d) (metadata (fst (fst out)))
  /\ same_routing_state w (snd (fst out))
  /\ _capture_order (snd (fst out)) = _capture_order w
  /\ snd out = (if truthy_str (get_str (metadata d) "repo_root")
                then resolved_root E (default "" (get_str (metadata d) "repo_root"))
                else None).
Proof.
  intros Hne. unfold get_repo_root_from_request.
  rewrite bool_decide_eq_false_2 by exact Hne.
  set (auth := match headers d !! "authorization" with
               | Some h => if Str.nonempty h then Some h else headers d !! "Authorization"
               | None => headers d !! "Authorization"
               end).
  set (step := match auth with Some h => _ | None => _ end).
  assert (Hstep : same_payload d (fst step)
                  /\ agree_except ["repo"] (metadata d) (metadata (fst step))).
  { subst step. repeat break_match; repeat break_pair_hyp; simplify_eq; simpl;
      repeat split; try apply agree_except_refl; try reflexivity;
      try (apply agree_except_insert; simpl; tauto). }
  destruct step as [d' repo_name]. simpl in Hstep. destruct Hstep as [Hpay Hagree].
  destruct (truthy_str (get_str (metadata d) "repo_root")) eqn:Hroot.
  - rewrite andb_true_r.
    destruct (truthy_str repo_name); simpl.
    + destruct (register_frame E (default "" repo_name)
                  (default "" (get_str (metadata d) "repo_root")) w) as [Hw Hc].
      repeat split; try assumption; apply Hpay || apply Hw.
    + repeat split; try assumption; apply Hpay.
  - rewrite andb_false_r. simpl. repeat split; try assumption; apply Hpay.
Qed.

(** *** Request capture *)

Lemma capture_frame request_id d w :
  let out := capture_request_snapshot request_id d w in
  same_payload d (fst out) /\ metadata (fst out) = metadata d
  /\ same_routing_state w (snd out)
  /\ _repo_registry (snd out) = _repo_registry w.
Proof.
  unfold capture_request_snapshot, _mark_request_captured.
  repeat break_match; repeat break_pair_hyp; simplify_eq; simpl; repeat split; reflexivity.
Qed.

(** *** The resolution of the request context *)

Lemma apply_repo_context_other repo repo_root override md k :
  k <> "repo" -> k <> "repo_root" ->
  fst (apply_repo_context repo repo_root override md) !! k = md !! k.
Proof.
  intros H1 H2. unfold apply_repo_context.
  repeat break_match; repeat break_pair_hyp; simplify_eq; simpl;
    rewrite ?lookup_insert_ne by congruence; reflexivity.
Qed.

Lemma write_session_file_frame E sid repo root w :
  let w' := _write_session_file E sid repo root w in
  same_routing_state w w' /\ _capture_order w' = _capture_order w
  /\ _repo_registry w' = _repo_registry w.
Proof.
  unfold _write_session_file. repeat break_match; repeat split.
Qed.

Lemma store_session_frame E cfg sid repo root w :
  let w' := _store_session_repo_context E cfg sid repo root w in
  same_routing_state w w' /\ _capture_order w' = _capture_order w
  /\ _repo_registry w' = _repo_registry w.
Proof.
  unfold _store_session_repo_context.
  destruct (negb _); [repeat split|].
  set (w1 := set_session_history _ _).
  destruct (write_session_file_frame E sid repo root w1) as ((?&?&?&?&?) & ? & ?).
  simpl. repeat split; simpl; assumption.
Qed.

Lemma get_session_frame E sid w :
  let w' := snd (_get_session_repo_context E sid w) in
  same_routing_state w w' /\ _capture_order w' = _capture_order w
  /\ _repo_registry w' = _repo_registry w.
Proof.
  unfold _get_session_repo_context. repeat break_match; repeat split.
Qed.

Lemma load_session_file_frame E cfg sid w :
  let w' := snd (_load_repo_context_from_session_file E cfg sid w) in
  same_routing_state w w' /\ _capture_order w' = _capture_order w
  /\ _repo_registry w' = _repo_registry w.
Proof.
  unfold _load_repo_context_from_session_file.
  repeat break_match; simpl;
    try (repeat split; fail);
    try (apply write_session_file_frame).
  match goal with
  | |- context [_write_session_file E ?a ?b ?c ?w1] =>
      destruct (write_session_file_frame E a b c w1) as ((?&?&?&?&?) & ? & ?)
  end.
  repeat split; simpl; assumption.
Qed.

Lemma resolve_frame E cfg w d :
  let r := resolve_request_context E cfg w d in
  same_payload d (rs_data r)
  /\ headers (rs_data r) = headers d
  /\ (forall k v, k <> "request_id" -> k <> "repo" -> k <> "repo_root" ->
        metadata d !! k = Some v -> metadata (rs_data r) !! k = Some v)
  /\ same_routing_state w (rs_world r)
  /\ _capture_order (rs_world r) = _capture_order w
  /\ _repo_registry (rs_world r) = _repo_registry w.
Proof.
  unfold resolve_request_context.
  set (rid := match metadata d !! "request_id" with Some _ => _ | None => _ end).
  set (md1 := (setdefault "router_build_id" _ _) ∪ litellm_metadata d).
  set (md2 := fst (apply_repo_context _ _ true md1)).
  set (md3 := fst (apply_repo_context _ _ false md2)).
  set (md4 := match CLAUDE_METADATA E with Some _ => _ | None => _ end).
  set (md5 := match extract_repo_context_from_system d with Some _ => _ | None => _ end).
  assert (Hkeep : forall k v, k <> "request_id" -> k <> "repo" -> k <> "repo_root" ->
            metadata d !! k = Some v -> md5 !! k = Some v).
  { intros k v H1 H2 H3 Hk.
    assert (K1 : md1 !! k = Some v).
    { subst md1. apply lookup_union_Some_l. unfold setdefault.
      destruct (_ !! "router_build_id") eqn:Hb.
      - rewrite lookup_insert_ne by congruence. exact Hk.
      - destruct (decide (k = "router_build_id")) as [->|Hn].
        + rewrite lookup_insert_ne in Hb by congruence. congruence.
        + rewrite !lookup_insert_ne by congruence. exact Hk. }
    assert (K3 : md3 !! k = Some v).
    { subst md3 md2. rewrite !apply_repo_context_other by assumption. exact K1. }
    assert (K4 : md4 !! k = Some v).
    { subst md4. destruct (CLAUDE_METADATA E); [|exact K3].
      rewrite apply_repo_context_other by assumption.
      apply lookup_union_Some_l, K3. }
    subst md5. destruct (extract_repo_context_from_system d) as [[? ?]|]; [|exact K4].
    rewrite apply_repo_context_other by assumption. exact K4. }
  clearbody md5 rid. clear md1 md2 md3 md4.
  destruct (_get_session_repo_context E (_extract_session_id md5) w) as [ctx w1] eqn:Hget.
  pose proof (get_session_frame E (_extract_session_id md5) w) as Hw1.
  rewrite Hget in Hw1. simpl in Hw1.
  destruct ctx as [info|].
  - simpl. repeat split; try apply Hw1.
    intros k v H1 H2 H3 Hk. rewrite apply_repo_context_other by assumption.
    apply Hkeep; assumption.
  - destruct (truthy_str (_extract_session_id md5)).
    + destruct (_load_repo_context_from_session_file E cfg (_extract_session_id md5) w1)
        as [file_ctx w2] eqn:Hload.
      pose proof (load_session_file_frame E cfg (_extract_session_id md5) w1) as Hw2.
      rewrite Hload in Hw2. simpl in Hw2.
      destruct Hw1 as (S1 & C1 & R1). destruct Hw2 as (S2 & C2 & R2).
      destruct file_ctx as [[repo root]|].
      * destruct (apply_repo_context (Some repo) (Some root) false md5) as [md6 applied] eqn:Happ.
        assert (Hkeep6 : forall k v, k <> "request_id" -> k <> "repo" -> k <> "repo_root" ->
                  metadata d !! k = Some v -> md6 !! k = Some v).
        { intros k v H1 H2 H3 Hk.
          pose proof (apply_repo_context_other (Some repo) (Some root) false md5 k H2 H3) as Ho.
          rewrite Happ in Ho. simpl in Ho. rewrite Ho. apply Hkeep; assumption. }
        destruct applied; simpl.
        -- destruct (store_session_frame E cfg (_extract_session_id md5) (Some repo) (Some root) w2)
             as (S3 & C3 & R3).
           repeat split; try exact Hkeep6;
             try (eapply same_routing_state_trans; [|exact S3];
                  eapply same_routing_state_trans; [exact S1|exact S2]);
             congruence.
        -- repeat split; try exact Hkeep6;
             try (eapply same_routing_state_trans; [exact S1|exact S2]); congruence.
      * simpl. repeat split; try exact Hkeep;
          try (eapply same_routing_state_trans; [exact S1|exact S2]); congruence.
    + simpl. repeat split; try exact Hkeep; apply Hw1.
Qed.

(** *** From the hook to policy enforcement *)

(** The request after the guard and the ledger alert. *)
Lemma at_gates_frame E cfg w d :
  let out := at_gates E cfg w d in
  let g := fst (_apply_context_exhaustion_protection E cfg d) in
  model (fst (fst out)) = model d
  /\ system (fst (fst out)) = system d
  /\ messages (fst (fst out)) = messages g
  /\ litellm_metadata (fst (fst out)) = litellm_metadata d
  /\ response (fst (fst out)) = response g
  /\ skip_llm_call (fst (fst out)) = skip_llm_call g
  /\ do_not_route (fst (fst out)) = do_not_route g
  /\ agree_except stage_keys (metadata d) (metadata (fst (fst out)))
  /\ agree_except ["ledger_alert"; "repo"] (metadata g) (metadata (fst (fst out)))
  /\ same_routing_state w (snd (fst out))
  /\ _capture_order (snd (fst out)) = _capture_order w
  /\ snd out = (if truthy_str (get_str (metadata d) "repo_root")
                then resolved_root E (default "" (get_str (metadata d) "repo_root"))
                else None).
Proof.
  unfold at_gates.
  destruct (guard_frame E cfg d) as (Gm & Gs & Gh & Gl & Ga & Gne & Gmsgs & _).
  set (g := fst (_apply_context_exhaustion_protection E cfg d)) in *.
  set (g1 := match snd (_build_ledger_reminder cfg _ _) with Some _ => _ | None => _ end).
  assert (H1 : same_payload g g1
               /\ agree_except ["ledger_alert"; "repo"] (metadata g) (metadata g1)
               /\ metadata g1 <> ∅).
  { subst g1. destruct (snd (_build_ledger_reminder cfg _ _)); simpl.
    - split; [repeat split|]. split; [apply agree_except_insert; simpl; tauto|].
      apply insert_non_empty.
    - split; [repeat split|]. split; [apply agree_except_refl|exact Gne]. }
  destruct H1 as ((P1 & P2 & P3 & P4 & P5 & P6 & P7) & A1 & N1).
  destruct (get_repo_root_frame E g1 w N1)
    as ((Q1 & Q2 & Q3 & Q4 & Q5 & Q6 & Q7) & A2 & W & C & R).
  assert (A3 : agree_except ["ledger_alert"; "repo"] (metadata g)
                 (metadata (fst (fst (get_repo_root_from_request E g1 w))))).
  { eapply agree_except_trans; [exact A1|].
    eapply agree_except_weaken; [|exact A2]. intros k [<-|[]]. simpl. tauto. }
  assert (A4 : agree_except stage_keys (metadata d)
                 (metadata (fst (fst (get_repo_root_from_request E g1 w))))).
  { eapply agree_except_trans.
    - eapply agree_except_weaken; [apply guard_keys_stage_keys|exact Ga].
    - eapply agree_except_weaken; [|exact A3].
      unfold stage_keys. apply incl_appr, incl_refl. }
  cbv zeta.
  split; [congruence|]. split; [congruence|]. split; [congruence|].
  split; [congruence|]. split; [congruence|]. split; [congruence|].
  split; [congruence|]. split; [exact A4|]. split; [exact A3|].
  split; [exact W|]. split; [exact C|].
  rewrite R.
  assert (get_str (metadata g1) "repo_root" = get_str (metadata d) "repo_root") as ->.
  { transitivity (get_str (metadata g) "repo_root").
    - apply (agree_except_get_str ["ledger_alert"; "repo"]); [exact A1|].
      simpl. intuition discriminate.
    - apply (agree_except_get_str guard_keys); [exact Ga|].
      unfold guard_keys. simpl. intuition discriminate. }
  reflexivity.
Qed.

(** A request that passes the gates is handled by [enforce_and_route]. *)
Lemma guard_and_route_passes E cfg w d request_id call_type :
  passes_gates E cfg d call_type = true ->
  guard_and_route E cfg w d request_id call_type
  = let g := fst (_apply_context_exhaustion_protection E cfg d) in
    let ledger := _build_ledger_reminder cfg (get_str (metadata g) "repo") (metadata g) in
    let out := at_gates E cfg w d in
    let cap := if REQUEST_CAPTURE_ENABLED cfg
               then capture_request_snapshot request_id (fst (fst out)) (snd (fst out))
               else (fst (fst out), snd (fst out)) in
    enforce_and_route E cfg (snd cap) (fst cap) (snd out)
      (extract_user_message g) (default "" (model d)) request_id (fst ledger) (snd ledger).
Proof.
  unfold passes_gates. rewrite !andb_true_iff, !negb_true_iff.
  intros ((((Hguard & Hboot) & Hchat) & Hclass) & Hviol).
  apply bool_decide_eq_false in Hboot. apply bool_decide_eq_false in Hviol.
  pose proof (at_gates_frame E cfg w d) as F. cbv zeta in F.
  destruct F as (Fm & Fs & Fmsg & Fl & Fr & Fsk & Fdn & Fa & _ & Fw & Fc & Froot).
  destruct (guard_frame E cfg d) as (Gm & Gs & Gh & Gl & Ga & Gne & Gmsgs & _).
  unfold guard_and_route. unfold at_gates in *.
  destruct (_apply_context_exhaustion_protection E cfg d) as [g refused] eqn:Hg.
  simpl in *. subst refused.
  destruct (_build_ledger_reminder cfg (get_str (metadata g) "repo") (metadata g))
    as [ledger_reminder ledger_alert] eqn:Hl.
  simpl in *.
  set (g1 := match ledger_alert with Some _ => _ | None => _ end) in *.
  assert (A1 : agree_except stage_keys (metadata d) (metadata g1)).
  { eapply agree_except_trans.
    - eapply agree_except_weaken; [apply guard_keys_stage_keys|exact Ga].
    - subst g1. destruct ledger_alert; simpl.
      + apply agree_except_insert. stage_key.
      + apply agree_except_refl. }
  rewrite bool_decide_eq_false_2.
  2:{ rewrite (agree_except_get_str _ _ _ _ A1) by not_stage_key. exact Hboot. }
  destruct (get_repo_root_from_request E g1 w) as [[g2 w2] root] eqn:Hroot.
  simpl in *. rewrite Hchat. simpl.
  assert (Hc2 : is_classification_call g2 = false).
  { unfold is_classification_call in *.
    rewrite (agree_except_get_str _ _ _ _ Fa) by not_stage_key. rewrite Fl. exact Hclass. }
  rewrite Hc2.
  assert (Hum : extract_user_message g2 = extract_user_message g).
  { unfold extract_user_message. rewrite Fmsg. reflexivity. }
  rewrite Hum, Fm.
  destruct (REQUEST_CAPTURE_ENABLED cfg).
  - destruct (capture_frame request_id g2 w2) as (_ & Cm & _).
    destruct (capture_request_snapshot request_id g2 w2) as [g3 w3]. simpl in *.
    rewrite bool_decide_eq_false_2; [reflexivity|].
    rewrite Cm, (agree_except_get_str _ _ _ _ Fa) by not_stage_key. exact Hviol.
  - rewrite bool_decide_eq_false_2; [reflexivity|].
    simpl. rewrite (agree_except_get_str _ _ _ _ Fa) by not_stage_key. exact Hviol.
Qed.

(** The stamps the guard leaves in the metadata. *)
Lemma guard_stamps E cfg d :
  let g := fst (_apply_context_exhaustion_protection E cfg d) in
  let refused := snd (_apply_context_exhaustion_protection E cfg d) in
  metadata g !! "context_tokens_estimated" = Some (VInt (post_trim_total E cfg d))
  /\ metadata g !! "context_trimmed" = Some (VBool (bool_decide (guard_removed E cfg d <> [])))
  /\ metadata g !! "context_trimmed_count"
     = Some (VInt (Z.of_nat (length (guard_removed E cfg d))))
  /\ metadata g !! "duplicate_blocks_detected" = Some (VInt (guard_duplicates E cfg d))
  /\ metadata g !! "exhaustion_risk"
     = Some (VStr (if refused then "fatal" else risk_level cfg (post_trim_total E cfg d)))
  /\ (refused = false ->
      metadata g !! "large_blocks_suppressed" = Some (VInt (guard_large_blocks E cfg d))).
Proof.
  unfold _apply_context_exhaustion_protection, post_trim_total, guard_removed,
    guard_duplicates, guard_large_blocks.
  destruct (pass2 cfg _ _) as [[msgs total] removed]. simpl.
  destruct (CONTEXT_HARD_LIMIT_TOKENS cfg <? total); simpl;
    repeat split; try discriminate;
    repeat (rewrite lookup_insert_ne by discriminate); try apply lookup_insert_eq.
  intros _. repeat (rewrite lookup_insert_ne by discriminate). apply lookup_insert_eq.
Qed.

(** ** The classifier's own request *)

(** C1, as the code has it. A request tagged
    [request_type = classification] leaves the hook with its model and
    its system prompt as they were, and nothing of policy enforcement,
    classification or routing has run: no contract is loaded, the
    override store, the classification cache and the metadata cache
    are untouched, no classifier call is made, and the only metadata
    written after the context resolution are the stage keys.  The
    context guard, which the hook calls before it looks at the tag,
    does run: its stamps are in the metadata, the messages are the
    ones it kept, and if it refuses its refusal is attached. *)
Theorem classification_request_not_routed (E : Env) (cfg : Config) (w : World)
    (data : Data) (call_type : string) :
  get_str (metadata data) "request_type" = Some "classification" ->
  let r := resolve_request_context E cfg w data in
  let guarded := _apply_context_exhaustion_protection E cfg (rs_data r) in
  let out := async_pre_call_hook E cfg w data call_type in
  model (snd out) = model data
  /\ system (snd out) = system data
  /\ same_routing_state w (fst out)
  /\ agree_except stage_keys (metadata (rs_data r)) (metadata (snd out))
  /\ messages (snd out) = messages (fst guarded)
  /\ metadata (snd out) !! "context_tokens_estimated"
     = Some (VInt (post_trim_total E cfg (rs_data r)))
  /\ response (snd out)
     = if snd guarded then Some context_exhaustion_response else response data.
Proof.
  intros Htype.
  destruct (resolve_frame E cfg w data)
    as ((Rm & Rmsg & Rs & Rl & Rr & Rsk & Rdn) & Rh & Rkeep & Rw & Rc & Rreg).
  cbv zeta. unfold async_pre_call_hook.
  set (r := resolve_request_context E cfg w data) in *.
  assert (Htype' : get_str (metadata (rs_data r)) "request_type" = Some "classification").
  { unfold get_str in *. destruct (metadata data !! "request_type") as [v|] eqn:Hv;
      [|discriminate].
    rewrite (Rkeep "request_type" v) by (try discriminate; exact Hv). exact Htype. }
  destruct (guard_frame E cfg (rs_data r)) as (Gm & Gs & Gh & Gl & Ga & Gne & Gmsgs & Gresp).
  destruct (guard_stamps E cfg (rs_data r)) as (St & _).
  pose proof (at_gates_frame E cfg (rs_world r) (rs_data r)) as F. cbv zeta in F.
  destruct F as (Fm & Fs & Fmsg & Fl & Fr & Fsk & Fdn & Fa & Fa' & Fw & Fc & Froot).
  unfold guard_and_route. unfold at_gates in *.
  destruct (_apply_context_exhaustion_protection E cfg (rs_data r)) as [g refused] eqn:Hg.
  simpl in *. destruct refused.
  - (* the guard refuses *)
    simpl. split; [congruence|]. split; [congruence|]. split; [exact Rw|].
    split; [eapply agree_except_weaken; [apply guard_keys_stage_keys|exact Ga]|].
    split; [reflexivity|]. split; [exact St|].
    pose proof (guard_refusal E cfg (rs_data r)) as Hf.
    rewrite <- Z.ltb_lt, <- guard_refused_iff, Hg in Hf.
    destruct (Hf eq_refl) as (_ & Hresp & _). exact Hresp.
  - destruct (Gresp eq_refl) as (Gr & _).
    destruct (_build_ledger_reminder cfg (get_str (metadata g) "repo") (metadata g))
      as [ledger_reminder ledger_alert] eqn:Hl.
    simpl in *.
    set (g1 := match ledger_alert with Some _ => _ | None => _ end) in *.
    assert (A1 : get_str (metadata g1) "request_type" = Some "classification").
    { transitivity (get_str (metadata g) "request_type").
      - subst g1. destruct ledger_alert; [|reflexivity]. simpl. unfold get_str.
        rewrite lookup_insert_ne by discriminate. reflexivity.
      - rewrite (agree_except_get_str guard_keys _ _ _ Ga); [exact Htype'|].
        unfold guard_keys; simpl; intuition discriminate. }
    rewrite bool_decide_eq_false_2 by (rewrite A1; discriminate).
    destruct (get_repo_root_from_request E g1 (rs_world r)) as [[g2 w2] root] eqn:Hroot.
    simpl in *.
    assert (Hc2 : is_classification_call g2 = true).
    { unfold is_classification_call.
      rewrite (agree_except_get_str stage_keys _ _ _ Fa) by not_stage_key.
      rewrite Htype'. reflexivity. }
    assert (Hout : (if negb (is_chat_call call_type) then (w2, g2)
                    else if is_classification_call g2 then (w2, g2)
                    else let '(data0, w0) :=
                           if REQUEST_CAPTURE_ENABLED cfg
                           then capture_request_snapshot (rs_request_id r) g2 w2
                           else (g2, w2) in
                         if bool_decide (get_str (metadata data0) "policy_violation" = Some "true")
                         then (w0, data0)
                         else enforce_and_route E cfg w0 data0 root (extract_user_message g2)
                                (default "" (model g2)) (rs_request_id r)
                                ledger_reminder ledger_alert) = (w2, g2)).
    { rewrite Hc2. destruct (negb (is_chat_call call_type)); reflexivity. }
    rewrite Hout. simpl.
    split; [congruence|]. split; [congruence|].
    split; [eapply same_routing_state_trans; [exact Rw|exact Fw]|].
    split; [exact Fa|]. split; [exact Fmsg|].
    split; [rewrite (Fa' "context_tokens_estimated") by (simpl; intuition discriminate);
            exact St|].
    congruence.
Qed.

Lemma classification_request_not_routed_witness :
  get_str (metadata classification_probe) "request_type" = Some "classification"
  /\ model (snd (async_pre_call_hook sample_env small_config empty_world
                   classification_probe "completion")) = Some "X".
Proof.
  assert (H : get_str (metadata classification_probe) "request_type" = Some "classification").
  { vm_compute. reflexivity. }
  split; [exact H|].
  exact (proj1 (classification_request_not_routed sample_env small_config empty_world
                  classification_probe "completion" H)).
Defined.

(** C1, as stated, fails: on the classifier's own request the context
    guard has run.  It trimmed three messages and stamped its
    metadata, so the request does not come back unchanged. *)
Lemma classification_request_is_guarded :
  get_str (metadata classification_probe) "request_type" = Some "classification"
  /\ messages (snd (async_pre_call_hook sample_env small_config empty_world
                      classification_probe "completion"))
     = [text_message "system" "sys"; text_message "user" "hello!"]
  /\ messages classification_probe = sample_conversation
  /\ metadata classification_probe !! "context_trimmed_count" = None
  /\ metadata (snd (async_pre_call_hook sample_env small_config empty_world
                      classification_probe "completion")) !! "context_trimmed_count"
     = Some (VInt 3)
  /\ metadata (snd (async_pre_call_hook sample_env small_config empty_world
                      classification_probe "completion")) !! "exhaustion_risk"
     = Some (VStr "medium").
Proof. vm_compute. repeat split. Qed.

(** ** Routing *)

Lemma update_metadata_other kvs md k :
  ~ In k (map fst kvs) -> update_metadata kvs md !! k = md !! k.
Proof.
  unfold update_metadata. revert md.
  induction kvs as [|[k' v'] rest IH]; intros md Hk; simpl in *; [reflexivity|].
  rewrite IH by tauto. apply lookup_insert_ne. intros ->. tauto.
Qed.

Lemma update_metadata_key kvs md k v :
  List.NoDup (map fst kvs) -> In (k, v) kvs ->
  update_metadata kvs md !! k = Some (VStr v).
Proof.
  unfold update_metadata. revert md.
  induction kvs as [|[k' v'] rest IH]; intros md Hnd Hin; simpl in *; [contradiction|].
  inversion Hnd as [|? ? Hnotin Hnd']; subst.
  destruct Hin as [[= -> ->]|Hin].
  - fold (update_metadata rest (<[k := VStr v]> md)).
    rewrite update_metadata_other by exact Hnotin. apply lookup_insert_eq.
  - apply IH; assumption.
Qed.

Lemma sanitized_metadata_keys E md classification original_model selected_model
    user_message contract request_id ledger_reminder ledger_alert
    override_applied override_remaining_seconds :
  map fst (sanitized_metadata E md classification original_model selected_model
             user_message contract request_id ledger_reminder ledger_alert
             override_applied override_remaining_seconds) = routing_keys.
Proof. reflexivity. Qed.

Lemma routing_keys_NoDup : List.NoDup routing_keys.
Proof. apply NoDup_ListNoDup. apply (bool_decide_unpack _). vm_compute. exact I. Qed.

Lemma inject_enforcement_frame repo_root contract ledger_reminder d :
  let d' := inject_enforcement repo_root contract ledger_reminder d in
  model d' = model d /\ metadata d' = metadata d /\ response d' = response d
  /\ skip_llm_call d' = skip_llm_call d /\ do_not_route d' = do_not_route d
  /\ headers d' = headers d.
Proof.
  unfold inject_enforcement. repeat break_match; simpl; repeat split.
Qed.

Lemma apply_override_command_frame E cfg sid um w :
  let w' := apply_override_command E cfg sid um w in
  _cache w' = _cache w /\ policy_contract_cache w' = policy_contract_cache w
  /\ router_metadata_cache w' = router_metadata_cache w /\ trace w' = trace w.
Proof.
  unfold apply_override_command, _cancel_complexity_override, _set_complexity_override.
  repeat break_match; simpl; repeat split.
Qed.

Lemma get_override_frame E sid w :
  let w' := snd (_get_complexity_override E sid w) in
  _cache w' = _cache w /\ policy_contract_cache w' = policy_contract_cache w
  /\ router_metadata_cache w' = router_metadata_cache w /\ trace w' = trace w.
Proof.
  unfold _get_complexity_override. repeat break_match; simpl; repeat split.
Qed.

Lemma classify_with_haiku_frame E m w :
  let w' := snd (classify_with_haiku E m w) in
  policy_contract_cache w' = policy_contract_cache w
  /\ router_metadata_cache w' = router_metadata_cache w
  /\ _complexity_override_cache w' = _complexity_override_cache w.
Proof.
  unfold classify_with_haiku.
  destruct (ClassificationCache.get E m (_cache w)) as [cached c].
  repeat break_match; simpl; repeat split.
Qed.

Lemma classify_frame E sid um w :
  let w' := snd (classify E sid um w) in
  policy_contract_cache w' = policy_contract_cache w
  /\ router_metadata_cache w' = router_metadata_cache w.
Proof.
  unfold classify.
  destruct (get_override_frame E sid w) as (_ & Hp & Hr & _).
  destruct (_get_complexity_override E sid w) as [active w1]. simpl in *.
  destruct (truthy_str active); [simpl; split; assumption|].
  destruct (negb (truthy_str um)); [simpl; split; assumption|].
  destruct (Str.len (Str.strip (default "" um)) <? 20); [simpl; split; assumption|].
  destruct (classify_with_haiku_frame E (default "" um) w1) as (Hp' & Hr' & _).
  destruct (classify_with_haiku E (default "" um) w1) as [c w2]. simpl in *.
  split; congruence.
Qed.

(** What [route_request] leaves behind, in terms of the enforcement
    injection and of the classification it computes. *)
Lemma route_request_spec E cfg w d repo_root contract um request_id
    ledger_reminder ledger_alert :
  let d1 := inject_enforcement repo_root contract ledger_reminder d in
  let sid := _extract_session_id (metadata d) in
  let cl := classify E sid um (apply_override_command E cfg sid um w) in
  let classification := fst (fst (fst cl)) in
  let selected := default "claude-haiku-4-5" (MODEL_MAP classification) in
  let out := route_request E cfg w d repo_root contract um request_id
               ledger_reminder ledger_alert in
  model (snd out) = Some selected
  /\ system (snd out) = system d1
  /\ messages (snd out) = messages d1
  /\ response (snd out) = response d
  /\ skip_llm_call (snd out) = skip_llm_call d
  /\ do_not_route (snd out) = do_not_route d
  /\ trace (fst out) = trace (snd cl)
  /\ _cache (fst out) = _cache (snd cl)
  /\ _complexity_override_cache (fst out) = _complexity_override_cache (snd cl)
  /\ policy_contract_cache (fst out) = policy_contract_cache w
  /\ agree_except routing_keys (metadata d) (metadata (snd out))
  /\ metadata (snd out) !! "complexity_classification"
     = Some (VStr (Str.take 200 classification))
  /\ metadata (snd out) !! "routed_to_model" = Some (VStr (Str.take 200 selected))
  /\ metadata (snd out) !! "ledger_alert"
     = Some (VStr (Str.take 200 match ledger_alert with
                                | Some a => if Str.nonempty a then a else "none"
                                | None => "none"
                                end)).
Proof.
  cbv zeta. unfold route_request.
  destruct (inject_enforcement_frame repo_root contract ledger_reminder d)
    as (Im & Imd & Ir & Isk & Idn & Ih).
  set (d1 := inject_enforcement repo_root contract ledger_reminder d) in *.
  rewrite Imd.
  set (sid := _extract_session_id (metadata d)).
  set (w1 := apply_override_command E cfg sid um w).
  destruct (apply_override_command_frame E cfg sid um w) as (_ & Hp1 & _).
  destruct (classify_frame E sid um w1) as (Hp2 & _).
  fold w1 in Hp1.
  destruct (classify E sid um w1) as [[[classification applied] remaining] w2].
  simpl in Hp2. cbn [fst snd].
  set (sanitized := sanitized_metadata E _ _ _ _ _ _ _ _ _ _ _).
  set (d3 := set_metadata _ _).
  assert (Hd3 : model d3 = Some (default "claude-haiku-4-5" (MODEL_MAP classification))
                /\ system d3 = system d1 /\ messages d3 = messages d1
                /\ response d3 = response d /\ skip_llm_call d3 = skip_llm_call d
                /\ do_not_route d3 = do_not_route d
                /\ metadata d3 = update_metadata sanitized (metadata d)).
  { subst d3. simpl. rewrite Imd. repeat split; assumption. }
  destruct Hd3 as (D1 & D2 & D3 & D4 & D5 & D6 & D7).
  assert (Hkeys : map fst sanitized = routing_keys) by reflexivity.
  assert (Hmd : agree_except routing_keys (metadata d) (metadata d3)
                /\ metadata d3 !! "complexity_classification"
                   = Some (VStr (Str.take 200 classification))
                /\ metadata d3 !! "routed_to_model"
                   = Some (VStr (Str.take 200
                                   (default "claude-haiku-4-5" (MODEL_MAP classification))))
                /\ metadata d3 !! "ledger_alert"
                   = Some (VStr (Str.take 200 match ledger_alert with
                                              | Some a => if Str.nonempty a then a else "none"
                                              | None => "none"
                                              end))).
  { rewrite D7. split; [|split; [|split]].
    - intros k Hk. apply update_metadata_other. rewrite Hkeys. exact Hk.
    - apply update_metadata_key; [rewrite Hkeys; apply routing_keys_NoDup|].
      subst sanitized. unfold sanitized_metadata. cbn [map In fst snd].
      right. left. reflexivity.
    - apply update_metadata_key; [rewrite Hkeys; apply routing_keys_NoDup|].
      subst sanitized. unfold sanitized_metadata. cbn [map In fst snd].
      do 3 right. left. reflexivity.
    - apply update_metadata_key; [rewrite Hkeys; apply routing_keys_NoDup|].
      subst sanitized. unfold sanitized_metadata. cbn [map In fst snd].
      do 14 right. left. reflexivity. }
  destruct Hmd as (M1 & M2 & M3 & M4).
  assert (Hw : policy_contract_cache w2 = policy_contract_cache w) by congruence.
  clearbody d3 sanitized.
  destruct (user_message_for_key_rev (rev (messages d3))) as [m|];
    [destruct (Str.nonempty m)|]; cbn [fst snd];
    repeat split; assumption.
Qed.

(** ** Policy enforcement *)

Lemma prefix_app s t : String.prefix s (s ++ t) = true.
Proof.
  induction s as [|a s IH]; simpl; [destruct t; reflexivity|].
  destruct (ascii_dec a a) as [_|Hn]; [exact IH|contradiction].
Qed.

Lemma contains_prefix sub s : String.prefix sub s = true -> Str.contains sub s = true.
Proof. intros H. destruct s; cbn [Str.contains]; rewrite H; reflexivity. Qed.

Lemma contains_here sub t : Str.contains sub (sub ++ t) = true.
Proof. apply contains_prefix, prefix_app. Qed.

Lemma contains_app_r sub a s :
  Str.contains sub s = true -> Str.contains sub (a ++ s) = true.
Proof.
  intros H. induction a as [|c a IH]; [exact H|].
  change (String c a ++ s) with (String c (a ++ s)). cbn [Str.contains].
  rewrite IH. destruct (String.prefix sub (String c (a ++ s))); reflexivity.
Qed.

Lemma contains_middle sub a b : Str.contains sub (a ++ sub ++ b) = true.
Proof. apply contains_app_r, contains_here. Qed.

Lemma scan_violation_patterns_reason ml pats reason :
  scan_violation_patterns ml pats = Some reason -> Str.nonempty reason = true.
Proof.
  induction pats as [|[p r] rest IH]; simpl; [discriminate|].
  repeat break_match; try exact IH. intros [= <-]. reflexivity.
Qed.

Lemma scan_indicators_reason ml folder inds reason :
  scan_indicators ml folder inds = Some reason -> Str.nonempty reason = true.
Proof.
  induction inds as [|i rest IH]; simpl; [discriminate|].
  repeat break_match; try exact IH. intros [= <-]. reflexivity.
Qed.

Lemma scan_folders_reason ml folders reason :
  scan_folders ml folders = Some reason -> Str.nonempty reason = true.
Proof.
  induction folders as [|f rest IH]; cbn [scan_folders]; [discriminate|].
  destruct (Str.contains f ml); [|exact IH].
  destruct (scan_indicators ml f create_indicators) eqn:Hs; [|exact IH].
  intros [= <-]. eapply scan_indicators_reason, Hs.
Qed.

Lemma detect_policy_violation_reason m reason :
  detect_policy_violation m = Some reason ->
  Str.nonempty m = true /\ Str.nonempty reason = true.
Proof.
  unfold detect_policy_violation.
  destruct (Str.nonempty m); cbn [negb]; [|discriminate].
  destruct (scan_violation_patterns (Str.lower m) violation_patterns) eqn:Hs.
  - intros [= <-]. split; [reflexivity|]. eapply scan_violation_patterns_reason, Hs.
  - intros H. split; [reflexivity|]. eapply scan_folders_reason, H.
Qed.

Lemma get_policy_contract_frame E root w :
  let out := get_policy_contract E root w in
  _complexity_override_cache (snd out) = _complexity_override_cache w
  /\ _cache (snd out) = _cache w
  /\ router_metadata_cache (snd out) = router_metadata_cache w
  /\ trace (snd out) = trace w.
Proof.
  unfold get_policy_contract. break_match; simpl; repeat split.
Qed.

Lemma get_policy_contract_cache_only E root w w' :
  policy_contract_cache w' = policy_contract_cache w ->
  fst (get_policy_contract E root w') = fst (get_policy_contract E root w).
Proof.
  intros H. unfold get_policy_contract. rewrite H. break_match; reflexivity.
Qed.

(** The state in which a request that passed the gates enters
    [enforce_and_route]. *)
Lemma capture_at_gates E cfg w d request_id :
  let out := at_gates E cfg w d in
  let g := fst (_apply_context_exhaustion_protection E cfg d) in
  let cap := if REQUEST_CAPTURE_ENABLED cfg
             then capture_request_snapshot request_id (fst (fst out)) (snd (fst out))
             else (fst (fst out), snd (fst out)) in
  model (fst cap) = model d
  /\ system (fst cap) = system d
  /\ messages (fst cap) = messages g
  /\ response (fst cap) = response g
  /\ skip_llm_call (fst cap) = skip_llm_call g
  /\ do_not_route (fst cap) = do_not_route g
  /\ agree_except stage_keys (metadata d) (metadata (fst cap))
  /\ agree_except ["ledger_alert"; "repo"] (metadata g) (metadata (fst cap))
  /\ same_routing_state w (snd cap).
Proof.
  pose proof (at_gates_frame E cfg w d) as F. cbv zeta in *.
  destruct F as (Fm & Fs & Fmsg & Fl & Fr & Fsk & Fdn & Fa & Fa' & Fw & Fc & Froot).
  destruct (REQUEST_CAPTURE_ENABLED cfg); cbn [fst snd].
  - destruct (capture_frame request_id (fst (fst (at_gates E cfg w d)))
                (snd (fst (at_gates E cfg w d))))
      as ((C1 & C2 & C3 & C4 & C5 & C6 & C7) & Cmd & Cw & _).
    rewrite Cmd.
    split; [congruence|]. split; [congruence|]. split; [congruence|].
    split; [congruence|]. split; [congruence|]. split; [congruence|].
    split; [exact Fa|]. split; [exact Fa'|].
    eapply same_routing_state_trans; [exact Fw|exact Cw].
  - repeat split; try assumption; apply Fw.
Qed.

(** C2, as the code has it. A scoped request that reaches the policy
    check, whose repository root resolves and whose last user message,
    as the context guard leaves it, is reported by the detector,
    leaves the hook with a synthetic assistant response that names
    the reason and the contract hash, finish reason
    [policy_violation], both skip flags set and no classifier call
    made; its model is the one it came with, and the empty string if
    it came with none. *)
Theorem documentation_policy_refusal (E : Env) (cfg : Config) (w : World) (data : Data)
    (call_type repo repo_root user_message reason : string) :
  let d := rs_data (resolve_request_context E cfg w data) in
  let g := fst (_apply_context_exhaustion_protection E cfg d) in
  passes_gates E cfg d call_type = true ->
  get_str (metadata d) "repo" = Some repo -> Str.nonempty repo = true ->
  get_str (metadata d) "repo_root" = Some repo_root -> Str.nonempty repo_root = true ->
  resolve_raises E repo_root = false ->
  extract_user_message g = Some user_message ->
  detect_policy_violation user_message = Some reason ->
  let out := async_pre_call_hook E cfg w data call_type in
  let contract := fst (get_policy_contract E (Some (resolve_path E repo_root)) w) in
  response (snd out) = Some (policy_violation_response (hash contract) reason)
  /\ resp_role (policy_violation_response (hash contract) reason) = "assistant"
  /\ finish_reason (policy_violation_response (hash contract) reason) = "policy_violation"
  /\ Str.contains reason (resp_content (policy_violation_response (hash contract) reason))
     = true
  /\ Str.contains (hash contract)
       (resp_content (policy_violation_response (hash contract) reason)) = true
  /\ skip_llm_call (snd out) = true
  /\ do_not_route (snd out) = true
  /\ trace (fst out) = trace w
  /\ model (snd out) = Some (default "" (model data))
  /\ (forall m, model data = Some m -> model (snd out) = Some m).
Proof.
  cbv zeta. intros Hgates _ _ Hroot Hroot_ne Hres Hum Hdetect.
  destruct (detect_policy_violation_reason _ _ Hdetect) as [Hm_ne Hreason_ne].
  destruct (resolve_frame E cfg w data)
    as ((Rm & Rmsg & Rs & Rl & Rr & Rsk & Rdn) & Rh & Rkeep & Rw & Rc & Rreg).
  unfold async_pre_call_hook.
  set (r := resolve_request_context E cfg w data) in *.
  rewrite (guard_and_route_passes E cfg (rs_world r) (rs_data r) (rs_request_id r)
             call_type Hgates).
  cbv zeta.
  pose proof (at_gates_frame E cfg (rs_world r) (rs_data r)) as F. cbv zeta in F.
  destruct F as (_ & _ & _ & _ & _ & _ & _ & _ & _ & _ & _ & Froot).
  pose proof (capture_at_gates E cfg (rs_world r) (rs_data r) (rs_request_id r)) as C.
  cbv zeta in C.
  destruct C as (Cm & Cs & Cmsg & Cr & Csk & Cdn & Ca & Ca' & Cw).
  rewrite Froot, Hroot. cbn [truthy_str default from_option id]. rewrite Hroot_ne.
  unfold resolved_root. rewrite Hres.
  set (cap := if REQUEST_CAPTURE_ENABLED cfg then _ else _) in *.
  unfold enforce_and_route.
  assert (Hpc : policy_contract_cache (snd cap) = policy_contract_cache w).
  { destruct Cw as (_ & _ & Hp & _). destruct Rw as (_ & _ & Hp' & _). congruence. }
  pose proof (get_policy_contract_cache_only E (Some (resolve_path E repo_root)) w (snd cap) Hpc)
    as Hc.
  destruct (get_policy_contract_frame E (Some (resolve_path E repo_root)) (snd cap))
    as (_ & _ & _ & Ht).
  destruct (get_policy_contract E (Some (resolve_path E repo_root)) (snd cap)) as [c w4].
  simpl in Hc, Ht. subst c.
  set (contract := fst (get_policy_contract E (Some (resolve_path E repo_root)) w)).
  rewrite Hum. unfold policy_check. rewrite Hm_ne, Hdetect, Hreason_ne.
  cbn [fst snd refuse_policy_violation set_model short_circuit set_metadata
       model response skip_llm_call do_not_route].
  split; [reflexivity|]. split; [reflexivity|]. split; [reflexivity|].
  split; [apply contains_app_r, contains_app_r, contains_app_r, contains_app_r,
          contains_app_r, contains_here|].
  split; [apply contains_middle|].
  split; [reflexivity|]. split; [reflexivity|].
  split.
  { rewrite Ht. destruct Cw as (_ & _ & _ & _ & Ht'). destruct Rw as (_ & _ & _ & _ & Ht'').
    congruence. }
  rewrite Rm. split; [reflexivity|]. intros m ->. reflexivity.
Qed.

Lemma documentation_policy_refusal_witness :
  passes_gates sample_env default_config
    (rs_data (resolve_request_context sample_env default_config empty_world docs_request))
    "completion" = true
  /\ response (snd (async_pre_call_hook sample_env default_config empty_world
                      docs_request "completion"))
     = Some (policy_violation_response "# Policy Contrac"
               "Request explicitly asks to create new markdown")
  /\ model (snd (async_pre_call_hook sample_env default_config empty_world
                   docs_request "completion")) = Some "X".
Proof.
  assert (Hg : passes_gates sample_env default_config
                 (rs_data (resolve_request_context sample_env default_config empty_world
                             docs_request)) "completion" = true)
    by (vm_compute; reflexivity).
  pose proof (documentation_policy_refusal sample_env default_config empty_world docs_request
                "completion" "acme" "/tmp/acme"
                "please create a new markdown file under docs/design/"
                "Request explicitly asks to create new markdown"
                Hg
                ltac:(vm_compute; reflexivity) ltac:(vm_compute; reflexivity)
                ltac:(vm_compute; reflexivity) ltac:(vm_compute; reflexivity)
                ltac:(reflexivity)
                ltac:(vm_compute; reflexivity) ltac:(vm_compute; reflexivity))
    as (Hresp & _ & _ & _ & _ & _ & _ & _ & Hmodel & _).
  split; [exact Hg|]. split; [exact Hresp|exact Hmodel].
Defined.

(** C2, as stated, fails: the detector is run on the last user message
    as the context guard leaves it.  A scoped conversation repeats,
    after a refusal, a request for a new documentation file that
    reaches the duplicate threshold; the detector reports the message,
    but the guard has replaced the repetition by the duplicate stub,
    and the request is classified and routed with no response
    attached. *)
Lemma stubbed_repetition_is_not_refused :
  extract_user_message retry_request = Some long_docs_text
  /\ detect_policy_violation long_docs_text
     = Some "Request explicitly asks to create new markdown"
  /\ get_str (metadata (rs_data (resolve_request_context sample_env default_config
                                   empty_world retry_request))) "repo" = Some "acme"
  /\ get_str (metadata (rs_data (resolve_request_context sample_env default_config
                                   empty_world retry_request))) "repo_root" = Some "/tmp/acme"
  /\ extract_user_message
       (fst (_apply_context_exhaustion_protection sample_env default_config
               (rs_data (resolve_request_context sample_env default_config
                           empty_world retry_request))))
     = Some duplicate_stub
  /\ response (snd (async_pre_call_hook sample_env default_config empty_world
                      retry_request "completion")) = None
  /\ skip_llm_call (snd (async_pre_call_hook sample_env default_config empty_world
                           retry_request "completion")) = false
  /\ model (snd (async_pre_call_hook sample_env default_config empty_world
                   retry_request "completion")) = Some "claude-sonnet-4-5".
Proof. vm_compute. repeat split. Qed.

(** ** The gate of policy enforcement *)

(** The hook from the guard on, case by case. *)
Lemma guard_and_route_cases E cfg w d request_id call_type :
  let guarded := _apply_context_exhaustion_protection E cfg d in
  let g := fst guarded in
  let ledger := _build_ledger_reminder cfg (get_str (metadata g) "repo") (metadata g) in
  let out := at_gates E cfg w d in
  let cap := if REQUEST_CAPTURE_ENABLED cfg
             then capture_request_snapshot request_id (fst (fst out)) (snd (fst out))
             else (fst (fst out), snd (fst out)) in
  guard_and_route E cfg w d request_id call_type
  = if snd guarded then (w, g)
    else if bool_decide (get_str (metadata d) "request_type" = Some "repo_bootstrap")
    then repo_bootstrap E cfg w (with_ledger_alert cfg g)
    else if (negb (is_chat_call call_type) || is_classification_call d)%bool
    then (snd (fst out), fst (fst out))
    else if bool_decide (get_str (metadata d) "policy_violation" = Some "true")
    then (snd cap, fst cap)
    else enforce_and_route E cfg (snd cap) (fst cap) (snd out)
           (extract_user_message g) (default "" (model d)) request_id
           (fst ledger) (snd ledger).
Proof.
  cbv zeta.
  destruct (snd (_apply_context_exhaustion_protection E cfg d)) eqn:Hrefused.
  { unfold guard_and_route.
    destruct (_apply_context_exhaustion_protection E cfg d) as [g refused].
    simpl in *. subst refused. reflexivity. }
  destruct (bool_decide (get_str (metadata d) "request_type" = Some "repo_bootstrap"))
    eqn:Hboot.
  { apply bool_decide_eq_true in Hboot.
    destruct (guard_frame E cfg d) as (_ & _ & _ & _ & Ga & _).
    unfold guard_and_route, with_ledger_alert.
    destruct (_apply_context_exhaustion_protection E cfg d) as [g refused].
    simpl in *. subst refused.
    destruct (_build_ledger_reminder cfg (get_str (metadata g) "repo") (metadata g))
      as [ledger_reminder ledger_alert].
    cbn [snd].
    rewrite bool_decide_eq_true_2; [reflexivity|].
    rewrite <- Hboot. transitivity (get_str (metadata g) "request_type").
    - destruct ledger_alert; [|reflexivity]. simpl. unfold get_str.
      rewrite lookup_insert_ne by discriminate. reflexivity.
    - apply (agree_except_get_str guard_keys); [exact Ga|].
      unfold guard_keys. simpl. intuition discriminate. }
  destruct (is_chat_call call_type) eqn:Hchat; cbn [negb orb].
  2:{ pose proof (at_gates_frame E cfg w d) as F. cbv zeta in F.
      destruct F as (_ & _ & _ & _ & _ & _ & _ & Fa & _).
      destruct (guard_frame E cfg d) as (_ & _ & _ & _ & Ga & _).
      unfold guard_and_route, at_gates in *.
      destruct (_apply_context_exhaustion_protection E cfg d) as [g refused].
      simpl in *. subst refused.
      destruct (_build_ledger_reminder cfg (get_str (metadata g) "repo") (metadata g))
        as [ledger_reminder ledger_alert].
      cbn [snd] in *.
      set (g1 := match ledger_alert with Some _ => _ | None => _ end) in *.
      rewrite bool_decide_eq_false_2.
      - destruct (get_repo_root_from_request E g1 w) as [[g2 w2] root].
        rewrite Hchat. reflexivity.
      - apply bool_decide_eq_false in Hboot. intros Hb. apply Hboot. rewrite <- Hb.
        transitivity (get_str (metadata g) "request_type").
        + symmetry. apply (agree_except_get_str guard_keys); [exact Ga|].
          unfold guard_keys. simpl. intuition discriminate.
        + subst g1. destruct ledger_alert; [|reflexivity]. simpl. unfold get_str.
          rewrite lookup_insert_ne by discriminate. reflexivity. }
  destruct (is_classification_call d) eqn:Hclass.
  { pose proof (at_gates_frame E cfg w d) as F. cbv zeta in F.
    destruct F as (_ & _ & _ & Fl & _ & _ & _ & Fa & _).
    destruct (guard_frame E cfg d) as (_ & _ & _ & _ & Ga & _).
    unfold guard_and_route, at_gates in *.
    destruct (_apply_context_exhaustion_protection E cfg d) as [g refused].
    simpl in *. subst refused.
    destruct (_build_ledger_reminder cfg (get_str (metadata g) "repo") (metadata g))
      as [ledger_reminder ledger_alert].
    cbn [snd] in *.
    set (g1 := match ledger_alert with Some _ => _ | None => _ end) in *.
    rewrite bool_decide_eq_false_2.
    - destruct (get_repo_root_from_request E g1 w) as [[g2 w2] root].
      simpl in *. rewrite Hchat. simpl.
      assert (Hc2 : is_classification_call g2 = true).
      { unfold is_classification_call in *.
        rewrite (agree_except_get_str stage_keys _ _ _ Fa) by not_stage_key.
        rewrite Fl. exact Hclass. }
      rewrite Hc2. reflexivity.
    - apply bool_decide_eq_false in Hboot. intros Hb. apply Hboot. rewrite <- Hb.
      transitivity (get_str (metadata g) "request_type").
      + symmetry. apply (agree_except_get_str guard_keys); [exact Ga|].
        unfold guard_keys. simpl. intuition discriminate.
      + subst g1. destruct ledger_alert; [|reflexivity]. simpl. unfold get_str.
        rewrite lookup_insert_ne by discriminate. reflexivity. }
  destruct (bool_decide (get_str (metadata d) "policy_violation" = Some "true")) eqn:Hviol.
  2:{ apply guard_and_route_passes. unfold passes_gates.
      rewrite Hrefused, Hboot, Hchat, Hclass, Hviol. reflexivity. }
  apply bool_decide_eq_true in Hviol.
  pose proof (at_gates_frame E cfg w d) as F. cbv zeta in F.
  destruct F as (_ & _ & _ & Fl & _ & _ & _ & Fa & _).
  destruct (guard_frame E cfg d) as (_ & _ & _ & _ & Ga & _).
  unfold guard_and_route, at_gates in *.
  destruct (_apply_context_exhaustion_protection E cfg d) as [g refused].
  simpl in *. subst refused.
  destruct (_build_ledger_reminder cfg (get_str (metadata g) "repo") (metadata g))
    as [ledger_reminder ledger_alert].
  cbn [snd] in *.
  set (g1 := match ledger_alert with Some _ => _ | None => _ end) in *.
  rewrite bool_decide_eq_false_2.
  - destruct (get_repo_root_from_request E g1 w) as [[g2 w2] root].
    simpl in *. rewrite Hchat. simpl.
    assert (Hc2 : is_classification_call g2 = false).
    { unfold is_classification_call in *.
      rewrite (agree_except_get_str stage_keys _ _ _ Fa) by not_stage_key.
      rewrite Fl. exact Hclass. }
    rewrite Hc2.
    destruct (REQUEST_CAPTURE_ENABLED cfg).
    + destruct (capture_frame request_id g2 w2) as (_ & Cm & _).
      destruct (capture_request_snapshot request_id g2 w2) as [g3 w3]. simpl in *.
      rewrite bool_decide_eq_true_2; [reflexivity|].
      rewrite Cm, (agree_except_get_str stage_keys _ _ _ Fa) by not_stage_key. exact Hviol.
    + rewrite bool_decide_eq_true_2; [reflexivity|].
      rewrite (agree_except_get_str stage_keys _ _ _ Fa) by not_stage_key. exact Hviol.
  - apply bool_decide_eq_false in Hboot. intros Hb. apply Hboot. rewrite <- Hb.
    transitivity (get_str (metadata g) "request_type").
    + symmetry. apply (agree_except_get_str guard_keys); [exact Ga|].
      unfold guard_keys. simpl. intuition discriminate.
    + subst g1. destruct ledger_alert; [|reflexivity]. simpl. unfold get_str.
      rewrite lookup_insert_ne by discriminate. reflexivity.
Qed.

Lemma with_ledger_alert_frame cfg g :
  same_payload g (with_ledger_alert cfg g)
  /\ agree_except ["ledger_alert"] (metadata g) (metadata (with_ledger_alert cfg g))
  /\ (metadata g <> ∅ -> metadata (with_ledger_alert cfg g) <> ∅).
Proof.
  unfold with_ledger_alert. destruct (snd (_build_ledger_reminder cfg _ _)); simpl.
  - split; [repeat split|]. split; [apply agree_except_insert; simpl; tauto|].
    intros _. apply insert_non_empty.
  - split; [repeat split|]. split; [apply agree_except_refl|tauto].
Qed.

Lemma repo_bootstrap_frame E cfg w g :
  metadata g <> ∅ ->
  let out := repo_bootstrap E cfg w g in
  same_routing_state w (fst out)
  /\ system (snd out) = system g
  /\ messages (snd out) = messages g
  /\ response (snd out) = Some repo_bootstrap_response
  /\ agree_except ["repo"; "repo_root"] (metadata g) (metadata (snd out)).
Proof.
  intros Hne. unfold repo_bootstrap.
  destruct (get_repo_root_frame E g w Hne)
    as ((Q1 & Q2 & Q3 & Q4 & Q5 & Q6 & Q7) & A2 & W & C & R).
  destruct (get_repo_root_from_request E g w) as [[g2 w2] root]. simpl in *.
  set (g3 := if truthy_str (model g2) then g2 else set_model (Some "claude-haiku-4-5") g2).
  assert (H3 : system g3 = system g2 /\ messages g3 = messages g2
               /\ metadata g3 = metadata g2).
  { subst g3. destruct (truthy_str (model g2)); repeat split. }
  destruct H3 as (S3 & M3 & D3).
  set (g4 := match root with Some _ => _ | None => _ end).
  assert (H4 : system g4 = system g2 /\ messages g4 = messages g2
               /\ agree_except ["repo"; "repo_root"] (metadata g) (metadata g4)).
  { subst g4. destruct root; simpl; rewrite ?S3, ?M3, ?D3.
    - repeat split. eapply agree_except_trans.
      + eapply agree_except_weaken; [|exact A2]. intros k [<-|[]]. simpl. tauto.
      + apply agree_except_insert. simpl. tauto.
    - repeat split. eapply agree_except_weaken; [|exact A2].
      intros k [<-|[]]. simpl. tauto. }
  destruct H4 as (S4 & M4 & A4).
  destruct (store_session_frame E cfg (_extract_session_id (metadata g4))
              (get_str (metadata g4) "repo") (get_str (metadata g4) "repo_root") w2)
    as (WS & _).
  cbn [fst snd short_circuit system messages response metadata].
  split; [eapply same_routing_state_trans; [exact W|exact WS]|].
  split; [congruence|]. split; [congruence|]. split; [reflexivity|exact A4].
Qed.

(** C5, as the code has it. Contract loading, violation detection and
    the injection of the enforcement message are gated on the
    repository root alone: a request whose [repo_root] resolves to
    nothing leaves the hook with the contract cache as it was, its
    system prompt and its [policy_violation] mark untouched, and no
    policy refusal attached, whether or not [repo] resolves. *)
Theorem policy_enforcement_gated_on_repo_root (E : Env) (cfg : Config) (w : World)
    (data : Data) (call_type : string) :
  let d := rs_data (resolve_request_context E cfg w data) in
  truthy_str (get_str (metadata d) "repo_root") = false ->
  let out := async_pre_call_hook E cfg w data call_type in
  policy_contract_cache (fst out) = policy_contract_cache w
  /\ system (snd out) = system data
  /\ metadata (snd out) !! "policy_violation" = metadata d !! "policy_violation"
  /\ metadata (snd out) !! "violation_reason" = metadata d !! "violation_reason"
  /\ (response (snd out) = response data
      \/ response (snd out) = Some context_exhaustion_response
      \/ response (snd out) = Some repo_bootstrap_response).
Proof.
  cbv zeta. intros Hroot.
  destruct (resolve_frame E cfg w data)
    as ((Rm & Rmsg & Rs & Rl & Rr & Rsk & Rdn) & Rh & Rkeep & Rw & Rc & Rreg).
  unfold async_pre_call_hook.
  set (r := resolve_request_context E cfg w data) in *.
  assert (Rp : policy_contract_cache (rs_world r) = policy_contract_cache w) by apply Rw.
  rewrite guard_and_route_cases. cbv zeta.
  destruct (guard_frame E cfg (rs_data r)) as (Gm & Gs & Gh & Gl & Ga & Gne & Gmsgs & Gresp).
  pose proof (at_gates_frame E cfg (rs_world r) (rs_data r)) as F. cbv zeta in F.
  destruct F as (Fm & Fs & Fmsg & Fl & Fr & Fsk & Fdn & Fa & Fa' & Fw & Fc & Froot).
  pose proof (capture_at_gates E cfg (rs_world r) (rs_data r) (rs_request_id r)) as C.
  cbv zeta in C. destruct C as (Cm & Cs & Cmsg & Cr & Csk & Cdn & Ca & Ca' & Cw).
  destruct (snd (_apply_context_exhaustion_protection E cfg (rs_data r))) eqn:Hrefused.
  { (* refused by the guard *)
    cbn [fst snd]. split; [exact Rp|]. split; [congruence|].
    split; [apply Ga; unfold guard_keys; simpl; intuition discriminate|].
    split; [apply Ga; unfold guard_keys; simpl; intuition discriminate|].
    right. left.
    pose proof (guard_refusal E cfg (rs_data r)) as Hf.
    rewrite <- Z.ltb_lt, <- guard_refused_iff in Hf.
    destruct (Hf Hrefused) as (_ & Hresp & _). exact Hresp. }
  destruct (Gresp eq_refl) as (Gr & _).
  destruct (bool_decide (get_str (metadata (rs_data r)) "request_type" = Some "repo_bootstrap")).
  { (* bootstrap *)
    destruct (with_ledger_alert_frame cfg
                (fst (_apply_context_exhaustion_protection E cfg (rs_data r))))
      as ((L1 & L2 & L3 & _) & La & Lne).
    destruct (repo_bootstrap_frame E cfg (rs_world r) _ (Lne Gne))
      as (Bw & Bs & _ & Br & Ba).
    split; [destruct Bw as (_ & _ & Bp & _); congruence|].
    split; [congruence|].
    split; [rewrite Ba, La, Ga; try reflexivity;
            unfold guard_keys; simpl; intuition discriminate|].
    split; [rewrite Ba, La, Ga; try reflexivity;
            unfold guard_keys; simpl; intuition discriminate|].
    right. right. exact Br. }
  destruct (negb (is_chat_call call_type) || is_classification_call (rs_data r))%bool.
  { cbn [fst snd]. split; [destruct Fw as (_ & _ & Fp & _); rewrite Fp; exact Rp|].
    split; [rewrite Fs; exact Rs|].
    split; [apply Fa; not_stage_key|]. split; [apply Fa; not_stage_key|].
    left. rewrite Fr, Gr. exact Rr. }
  set (cap := if REQUEST_CAPTURE_ENABLED cfg then _ else _) in *.
  assert (Cp : policy_contract_cache (snd cap) = policy_contract_cache w).
  { destruct Cw as (_ & _ & Cp & _). congruence. }
  destruct (bool_decide (get_str (metadata (rs_data r)) "policy_violation" = Some "true")).
  { cbn [fst snd]. split; [exact Cp|]. split; [congruence|].
    split; [apply Ca; not_stage_key|]. split; [apply Ca; not_stage_key|].
    left. congruence. }
  (* routed without a repository root *)
  rewrite Froot, Hroot. unfold enforce_and_route. cbn [policy_check].
  pose proof (route_request_spec E cfg (snd cap) (fst cap) None None
                (extract_user_message
                   (fst (_apply_context_exhaustion_protection E cfg (rs_data r))))
                (rs_request_id r)
                (fst (_build_ledger_reminder cfg
                        (get_str (metadata (fst (_apply_context_exhaustion_protection E cfg
                                                   (rs_data r)))) "repo")
                        (metadata (fst (_apply_context_exhaustion_protection E cfg
                                          (rs_data r))))))
                (snd (_build_ledger_reminder cfg
                        (get_str (metadata (fst (_apply_context_exhaustion_protection E cfg
                                                   (rs_data r)))) "repo")
                        (metadata (fst (_apply_context_exhaustion_protection E cfg
                                          (rs_data r))))))) as S.
  cbv zeta in S.
  destruct S as (_ & Ss & _ & Sr & _ & _ & _ & _ & _ & Sp & Sa & _).
  split; [congruence|].
  split; [rewrite Ss; cbn [inject_enforcement]; congruence|].
  split; [rewrite Sa, Ca; try reflexivity;
          [not_stage_key|unfold routing_keys; simpl; intuition discriminate]|].
  split; [rewrite Sa, Ca; try reflexivity;
          [not_stage_key|unfold routing_keys; simpl; intuition discriminate]|].
  left. congruence.
Qed.

Lemma policy_enforcement_gated_on_repo_root_witness :
  truthy_str (get_str (metadata (rs_data (resolve_request_context sample_env default_config
                                            empty_world unscoped_hello))) "repo_root") = false
  /\ system (snd (async_pre_call_hook sample_env default_config empty_world
                    unscoped_hello "completion")) = None.
Proof.
  assert (H : truthy_str (get_str (metadata (rs_data (resolve_request_context sample_env
                            default_config empty_world unscoped_hello))) "repo_root") = false)
    by (vm_compute; reflexivity).
  split; [exact H|].
  exact (proj1 (proj2 (policy_enforcement_gated_on_repo_root sample_env default_config
                         empty_world unscoped_hello "completion" H))).
Defined.

(** C5, as stated, fails: a request with a repository root and no
    repository name is unscoped, yet its contract is loaded, its
    message is checked and refused, and (for a harmless message) the
    enforcement message is injected. *)
Lemma unscoped_request_is_enforced :
  get_str (metadata (rs_data (resolve_request_context sample_env default_config
                                empty_world root_only_request))) "repo" = None
  /\ is_Some (policy_contract_cache
                (fst (async_pre_call_hook sample_env default_config empty_world
                        root_only_request "completion")) !! "/tmp/acme")
  /\ response (snd (async_pre_call_hook sample_env default_config empty_world
                      root_only_request "completion"))
     = Some (policy_violation_response "# Policy Contrac"
               "Request explicitly asks to create new markdown")
  /\ get_str (metadata (rs_data (resolve_request_context sample_env default_config
                                   empty_world root_only_hello))) "repo" = None
  /\ system (snd (async_pre_call_hook sample_env default_config empty_world
                    root_only_hello "completion"))
     = Some (generate_enforcement_system_message "# Policy Contrac").
Proof.
  split; [vm_compute; reflexivity|]. split; [vm_compute; eexists; reflexivity|].
  split; [vm_compute; reflexivity|]. split; vm_compute; reflexivity.
Qed.

(** ** Routed requests *)

Lemma policy_check_not_refused md_root root contract um :
  not_refused md_root um ->
  policy_check (if truthy_str md_root then root else None) contract um = None.
Proof.
  intros [Hroot|Hdet]; unfold policy_check.
  - rewrite Hroot. reflexivity.
  - destruct (truthy_str md_root); [|reflexivity]. destruct root; [|reflexivity].
    destruct contract; [|reflexivity].
    destruct um as [m|]; [|reflexivity].
    rewrite (Hdet m eq_refl). destruct (Str.nonempty m); reflexivity.
Qed.

Lemma extract_session_id_agree ks md md' :
  agree_except ks md md' -> ~ In "user_id" ks ->
  _extract_session_id md' = _extract_session_id md.
Proof.
  intros Ha Hk. unfold _extract_session_id.
  rewrite (agree_except_get_str ks md md' "user_id" Ha Hk). reflexivity.
Qed.

(** A request that passes the gates and the policy check is handled
    by [route_request], in a world with the routing state of the
    world the hook was called in. *)
Lemma hook_routes E cfg w data call_type :
  let r := resolve_request_context E cfg w data in
  let d := rs_data r in
  let g := fst (_apply_context_exhaustion_protection E cfg d) in
  let um := extract_user_message g in
  let ledger := _build_ledger_reminder cfg (get_str (metadata d) "repo") (metadata g) in
  let md_root := get_str (metadata d) "repo_root" in
  let root := if truthy_str md_root
              then resolved_root E (default "" md_root) else None in
  let contract := match root with
                  | Some _ => Some (fst (get_policy_contract E root w))
                  | None => None
                  end in
  passes_gates E cfg d call_type = true ->
  not_refused md_root um ->
  exists w' d',
    async_pre_call_hook E cfg w data call_type
    = route_request E cfg w' d' root contract um (rs_request_id r) (fst ledger) (snd ledger)
    /\ _complexity_override_cache w' = _complexity_override_cache w
    /\ _cache w' = _cache w
    /\ router_metadata_cache w' = router_metadata_cache w
    /\ trace w' = trace w
    /\ model d' = model data
    /\ system d' = system data
    /\ messages d' = messages g
    /\ response d' = response data
    /\ agree_except ("repo_root" :: stage_keys) (metadata d) (metadata d')
    /\ _extract_session_id (metadata d') = _extract_session_id (metadata d).
Proof.
  cbv zeta. intros Hgates Hnr.
  destruct (resolve_frame E cfg w data)
    as ((Rm & Rmsg & Rs & Rl & Rr & Rsk & Rdn) & Rh & Rkeep & Rw & Rc & Rreg).
  unfold async_pre_call_hook.
  set (r := resolve_request_context E cfg w data) in *.
  rewrite (guard_and_route_passes E cfg (rs_world r) (rs_data r) (rs_request_id r)
             call_type Hgates).
  cbv zeta.
  destruct (guard_frame E cfg (rs_data r)) as (Gm & Gs & Gh & Gl & Ga & Gne & Gmsgs & Gresp).
  assert (Hrefused : snd (_apply_context_exhaustion_protection E cfg (rs_data r)) = false).
  { unfold passes_gates in Hgates. rewrite !andb_true_iff, negb_true_iff in Hgates.
    tauto. }
  destruct (Gresp Hrefused) as (Gr & _).
  pose proof (at_gates_frame E cfg (rs_world r) (rs_data r)) as F. cbv zeta in F.
  destruct F as (_ & _ & _ & _ & _ & _ & _ & _ & _ & _ & _ & Froot).
  pose proof (capture_at_gates E cfg (rs_world r) (rs_data r) (rs_request_id r)) as C.
  cbv zeta in C. destruct C as (Cm & Cs & Cmsg & Cr & Csk & Cdn & Ca & Ca' & Cw).
  set (cap := if REQUEST_CAPTURE_ENABLED cfg then _ else _) in *.
  assert (Hrepo : get_str (metadata (fst (_apply_context_exhaustion_protection E cfg
                                            (rs_data r)))) "repo"
                  = get_str (metadata (rs_data r)) "repo").
  { apply (agree_except_get_str guard_keys); [exact Ga|].
    unfold guard_keys. simpl. intuition discriminate. }
  rewrite Froot, Hrepo.
  assert (Cw' : same_routing_state w (snd cap)).
  { eapply same_routing_state_trans; [exact Rw|exact Cw]. }
  destruct Cw' as (W1 & W2 & W3 & W4 & W5).
  unfold enforce_and_route.
  pose proof (policy_check_not_refused (get_str (metadata (rs_data r)) "repo_root")
                (resolved_root E (default "" (get_str (metadata (rs_data r)) "repo_root")))) as Hpc.
  destruct (if truthy_str (get_str (metadata (rs_data r)) "repo_root")
            then resolved_root E (default "" (get_str (metadata (rs_data r)) "repo_root"))
            else None) as [path|] eqn:Hroot.
  - cbv beta iota. set (root := Some path).
    pose proof (get_policy_contract_cache_only E root w (snd cap) W3) as Hc.
    destruct (get_policy_contract_frame E root (snd cap)) as (P1 & P2 & P3 & P4).
    destruct (get_policy_contract E root (snd cap)) as [c w4]. simpl in Hc, P1, P2, P3, P4.
    subst c.
    pose proof (Hpc (Some (fst (get_policy_contract E root w)))
                  (extract_user_message
                     (fst (_apply_context_exhaustion_protection E cfg (rs_data r)))) Hnr)
      as Hpc'.
    fold root in Hpc'. rewrite Hpc'.
    eexists w4, _. split; [reflexivity|].
    cbn [set_metadata model system messages response metadata].
    assert (Ha : agree_except ("repo_root" :: stage_keys) (metadata (rs_data r))
                   (<["repo_root" := VStr path]> (metadata (fst cap)))).
    { eapply agree_except_trans.
      - eapply agree_except_weaken; [|exact Ca]. apply incl_tl, incl_refl.
      - apply agree_except_insert. simpl. tauto. }
    repeat split; try congruence; try exact Ha.
    apply (extract_session_id_agree _ _ _ Ha).
    unfold stage_keys, guard_keys. simpl. intuition discriminate.
  - cbv beta iota.
    rewrite (Hpc None
               (extract_user_message
                  (fst (_apply_context_exhaustion_protection E cfg (rs_data r)))) Hnr).
    exists (snd cap), (fst cap). split; [reflexivity|].
    assert (Ha : agree_except ("repo_root" :: stage_keys) (metadata (rs_data r))
                   (metadata (fst cap))).
    { eapply agree_except_weaken; [|exact Ca]. apply incl_tl, incl_refl. }
    repeat split; try congruence; try exact Ha.
    apply (extract_session_id_agree _ _ _ Ha).
    unfold stage_keys, guard_keys. simpl. intuition discriminate.
Qed.

(** ** Classification *)

Lemma apply_override_command_no_command E cfg sid um w :
  (forall m, um = Some m -> _parse_override_command cfg m = None) ->
  apply_override_command E cfg sid um w = w.
Proof.
  intros H. unfold apply_override_command. destruct um as [m|]; [|reflexivity].
  rewrite (H m eq_refl). destruct (Str.nonempty m); reflexivity.
Qed.

Lemma apply_override_command_cache_only E cfg sid um w w' :
  _complexity_override_cache w' = _complexity_override_cache w ->
  _complexity_override_cache (apply_override_command E cfg sid um w')
  = _complexity_override_cache (apply_override_command E cfg sid um w).
Proof.
  intros H. unfold apply_override_command, _cancel_complexity_override,
    _set_complexity_override, _cleanup_expired_overrides.
  repeat break_match; simpl; rewrite ?H in *; try congruence.
Qed.

Lemma get_override_cache_only E sid w w' :
  _complexity_override_cache w' = _complexity_override_cache w ->
  fst (_get_complexity_override E sid w') = fst (_get_complexity_override E sid w).
Proof.
  intros H. unfold _get_complexity_override. rewrite H.
  repeat break_match; reflexivity.
Qed.


Lemma classify_override_active E sid um w o :
  Str.nonempty sid = true ->
  _complexity_override_cache w !! sid = Some o ->
  override_live E o = true ->
  Str.nonempty (ov_complexity o) = true ->
  classify E (Some sid) um w
  = (ov_complexity o, true, _get_override_remaining_seconds E (Some sid) w, w).
Proof.
  intros Hsid Hlook Hlive Hne. unfold classify, _get_complexity_override.
  cbn [truthy_str default from_option id]. rewrite Hsid. cbn [negb].
  rewrite Hlook, Hlive. cbn [truthy_str default from_option id]. rewrite Hne.
  reflexivity.
Qed.





Lemma classify_active E sid um w complexity :
  fst (_get_complexity_override E sid w) = Some complexity ->
  Str.nonempty complexity = true ->
  fst (fst (fst (classify E sid um w))) = complexity
  /\ snd (fst (fst (classify E sid um w))) = true
  /\ trace (snd (classify E sid um w)) = trace w
  /\ _cache (snd (classify E sid um w)) = _cache w.
Proof.
  intros Hget Hne. unfold classify.
  destruct (get_override_frame E sid w) as (Hc & _ & _ & Ht).
  destruct (_get_complexity_override E sid w) as [active w1]. cbn [fst snd] in *.
  subst active. cbn [truthy_str default from_option id]. rewrite Hne.
  cbn [fst snd]. repeat split; assumption.
Qed.

(** C6, as the code has it. For a request that reaches
    classification and whose session holds a live override when the
    override store is read, that is once an override command in the
    last user message has been handled, the classification is the
    stored complexity and the model is rewritten to that tier's
    model, with no lookup in the classification cache and no
    classifier call, whatever the message says. *)
Theorem live_override_decides_routing (E : Env) (cfg : Config) (w : World) (data : Data)
    (call_type complexity tier_model : string) :
  let d := rs_data (resolve_request_context E cfg w data) in
  let g := fst (_apply_context_exhaustion_protection E cfg d) in
  let sid := _extract_session_id (metadata d) in
  passes_gates E cfg d call_type = true ->
  not_refused (get_str (metadata d) "repo_root") (extract_user_message g) ->
  fst (_get_complexity_override E sid
         (apply_override_command E cfg sid (extract_user_message g) w)) = Some complexity ->
  MODEL_MAP complexity = Some tier_model ->
  let out := async_pre_call_hook E cfg w data call_type in
  model (snd out) = Some tier_model
  /\ metadata (snd out) !! "complexity_classification"
     = Some (VStr (Str.take 200 complexity))
  /\ metadata (snd out) !! "routed_to_model" = Some (VStr (Str.take 200 tier_model))
  /\ trace (fst out) = trace w
  /\ _cache (fst out) = _cache w.
Proof.
  cbv zeta. intros Hgates Hnr Hget Htier.
  assert (Hne : Str.nonempty complexity = true).
  { destruct complexity; [discriminate Htier|reflexivity]. }
  pose proof (hook_routes E cfg w data call_type) as H. cbv zeta in H.
  destruct (H Hgates Hnr)
    as (w' & d' & Heq & Wo & Wc & Wr & Wt & Dm & Ds & Dmsg & Dr & Da & Dsid).
  rewrite Heq.
  match goal with
  | |- context [route_request E cfg w' d' ?root ?contract ?um ?rid ?lr ?la] =>
      pose proof (route_request_spec E cfg w' d' root contract um rid lr la) as S
  end.
  cbv zeta in S. rewrite Dsid in S.
  set (sid := _extract_session_id
                (metadata (rs_data (resolve_request_context E cfg w data)))) in *.
  set (um := extract_user_message _) in *.
  assert (Hget' : fst (_get_complexity_override E sid (apply_override_command E cfg sid um w'))
                  = Some complexity).
  { rewrite (get_override_cache_only E sid (apply_override_command E cfg sid um w)
               (apply_override_command E cfg sid um w'))
      by (apply apply_override_command_cache_only; exact Wo).
    exact Hget. }
  destruct (classify_active E sid um (apply_override_command E cfg sid um w') complexity
              Hget' Hne) as (Kc & _ & Kt & Kk).
  destruct (apply_override_command_frame E cfg sid um w') as (A1 & _ & _ & A4).
  rewrite Kc, Htier in S. cbn [default from_option id] in S.
  destruct S as (Sm & _ & _ & _ & _ & _ & St & Sc & _ & _ & _ & Scl & Srt & _).
  split; [exact Sm|]. split; [exact Scl|]. split; [exact Srt|].
  split; congruence.
Qed.

Lemma live_override_decides_routing_witness :
  model (snd (async_pre_call_hook sample_env default_config empty_world
                set_override_request "completion")) = Some "claude-opus-4-5"
  /\ trace (fst (async_pre_call_hook sample_env default_config empty_world
                   set_override_request "completion")) = [].
Proof.
  assert (Hg : passes_gates sample_env default_config
                 (rs_data (resolve_request_context sample_env default_config
                             empty_world set_override_request)) "completion" = true)
    by (vm_compute; reflexivity).
  pose proof (live_override_decides_routing sample_env default_config empty_world
                set_override_request "completion" "COMPLEX" "claude-opus-4-5" Hg) as H.
  cbv zeta in H.
  assert (Hnr : not_refused
                  (get_str
                     (metadata
                        (rs_data (resolve_request_context sample_env default_config
                                    empty_world set_override_request)))
                     "repo_root")
                  (extract_user_message
                     (fst (_apply_context_exhaustion_protection sample_env default_config
                             (rs_data (resolve_request_context sample_env default_config
                                         empty_world set_override_request)))))).
  { left. vm_compute. reflexivity. }
  specialize (H Hnr).
  destruct H as (Hm & _ & _ & Ht & _).
  - vm_compute. reflexivity.
  - reflexivity.
  - split; [exact Hm|exact Ht].
Defined.

(** C6, as stated, fails: the message content matters.  Session [s1]
    holds a live override to COMPLEX, before and after the call; the
    request is scoped and its message asks for a new documentation
    file, so the hook refuses it: the model is the caller's, not the
    override's tier, and nothing is classified. *)
Lemma refused_request_is_not_routed_by_override :
  _extract_session_id
    (metadata (rs_data (resolve_request_context sample_env default_config
                          world_with_override override_docs_request))) = Some "s1"
  /\ fst (_get_complexity_override sample_env (Some "s1") world_with_override)
     = Some "COMPLEX"
  /\ fst (_get_complexity_override sample_env (Some "s1")
            (fst (async_pre_call_hook sample_env default_config world_with_override
                    override_docs_request "completion")))
     = Some "COMPLEX"
  /\ response (snd (async_pre_call_hook sample_env default_config world_with_override
                      override_docs_request "completion"))
     = Some (policy_violation_response "# Policy Contrac"
               "Request explicitly asks to create new markdown")
  /\ model (snd (async_pre_call_hook sample_env default_config world_with_override
                   override_docs_request "completion")) = Some "X"
  /\ MODEL_MAP "COMPLEX" = Some "claude-opus-4-5"
  /\ metadata (snd (async_pre_call_hook sample_env default_config world_with_override
                      override_docs_request "completion")) !! "complexity_classification"
     = None.
Proof. vm_compute. repeat split. Qed.




(** ** The ledger reminder *)





Lemma take_context_guard : Str.take 200 "context_guard" = "context_guard".
Proof. reflexivity. Qed.

Lemma take_none : Str.take 200 "none" = "none".
Proof. reflexivity. Qed.




(** * Further properties of the router *)

(** ** The override store *)

Lemma override_cache_after_set E sid complexity ttl w :
  Str.nonempty sid = true ->
  _complexity_override_cache (_set_complexity_override E (Some sid) complexity ttl w)
  = filter (fun kv => negb (ov_expires (snd kv) <? utcnow_again E 1) = true)
      (<[sid := {| ov_complexity := complexity; ov_expires := utcnow E + 60 * ttl;
                   ov_created := utcnow_again E 0; ov_ttl_minutes := ttl |}]>
         (_complexity_override_cache w)).
Proof.
  intros Hsid. unfold _set_complexity_override. cbn [truthy_str]. rewrite Hsid.
  reflexivity.
Qed.

(** X1. Setting an override stores it with the expiry computed from
    the first reading of the clock, and then purges the store at a
    later reading.  If the expiry is not before that later reading,
    the override is in the store; it is the one read back for the
    session at any time up to the expiry, with the seconds up to the
    expiry still to run.  If the expiry is before that later reading,
    as for a duration of zero minutes once the clock has advanced,
    the override is purged by the very call that set it and is never
    read back.  Either way the overrides of other sessions that have
    not expired at the later reading are kept, and no override that
    has expired at it is left in the store. *)
Theorem override_set_then_get (E : Env) (sid complexity : string) (ttl : Z) (w : World) :
  Str.nonempty sid = true ->
  let expires := utcnow E + 60 * ttl in
  let cleanup := utcnow_again E 1 in
  let o := {| ov_complexity := complexity; ov_expires := expires;
              ov_created := utcnow_again E 0; ov_ttl_minutes := ttl |} in
  let w' := _set_complexity_override E (Some sid) complexity ttl w in
  (cleanup <= expires ->
     _complexity_override_cache w' !! sid = Some o
     /\ (forall E', utcnow E' <= expires ->
           _get_complexity_override E' (Some sid) w' = (Some complexity, w'))
     /\ (forall E', utcnow E' < expires ->
           _get_override_remaining_seconds E' (Some sid) w' = Some (expires - utcnow E')))
  /\ (expires < cleanup ->
        _complexity_override_cache w' !! sid = None
        /\ (forall E', _get_complexity_override E' (Some sid) w' = (None, w'))
        /\ (forall E', _get_override_remaining_seconds E' (Some sid) w' = None))
  /\ (forall other o', other <> sid ->
        _complexity_override_cache w !! other = Some o' -> cleanup <= ov_expires o' ->
        _complexity_override_cache w' !! other = Some o')
  /\ (forall s o', _complexity_override_cache w' !! s = Some o' ->
        cleanup <= ov_expires o'
        /\ (s = sid /\ o' = o \/ s <> sid /\ _complexity_override_cache w !! s = Some o')).
Proof.
  intros Hsid. cbv zeta.
  set (o := {| ov_complexity := complexity; ov_expires := utcnow E + 60 * ttl;
               ov_created := utcnow_again E 0; ov_ttl_minutes := ttl |}).
  pose proof (override_cache_after_set E sid complexity ttl w Hsid) as Hc. fold o in Hc.
  split; [|split; [|split]].
  - intros Hlive.
    assert (Hlook : _complexity_override_cache
                      (_set_complexity_override E (Some sid) complexity ttl w) !! sid
                    = Some o).
    { rewrite Hc. apply map_lookup_filter_Some. split; [apply lookup_insert_eq|].
      cbn [snd ov_expires o]. apply negb_true_iff, Z.ltb_ge. exact Hlive. }
    split; [exact Hlook|]. split.
    + intros E' Hnow. unfold _get_complexity_override.
      cbn [truthy_str default from_option id]. rewrite Hsid. cbn [negb]. rewrite Hlook.
      unfold override_live. cbn [ov_expires ov_complexity o].
      assert (H : (utcnow E + 60 * ttl <? utcnow E') = false) by (apply Z.ltb_ge; exact Hnow).
      rewrite H. reflexivity.
    + intros E' Hnow. unfold _get_override_remaining_seconds.
      cbn [truthy_str default from_option id]. rewrite Hsid. cbn [negb]. rewrite Hlook.
      cbn [ov_expires o].
      assert (H : (0 <? utcnow E + 60 * ttl - utcnow E') = true) by (apply Z.ltb_lt; lia).
      rewrite H. f_equal. lia.
  - intros Hdead.
    assert (Hlook : _complexity_override_cache
                      (_set_complexity_override E (Some sid) complexity ttl w) !! sid = None).
    { rewrite Hc. apply map_lookup_filter_None. right. intros o' Ho'.
      rewrite lookup_insert_eq in Ho'. injection Ho' as <-.
      cbn [snd ov_expires o]. intros H. apply negb_true_iff, Z.ltb_ge in H. lia. }
    split; [exact Hlook|]. split.
    + intros E'. unfold _get_complexity_override.
      cbn [truthy_str default from_option id]. rewrite Hsid. cbn [negb]. rewrite Hlook.
      reflexivity.
    + intros E'. unfold _get_override_remaining_seconds.
      cbn [truthy_str default from_option id]. rewrite Hsid. cbn [negb]. rewrite Hlook.
      reflexivity.
  - intros other o' Hne Hlook' Hlive'. rewrite Hc.
    apply map_lookup_filter_Some. split.
    + rewrite lookup_insert_ne by congruence. exact Hlook'.
    + cbn [snd]. apply negb_true_iff, Z.ltb_ge. exact Hlive'.
  - intros s o' Hs. rewrite Hc in Hs.
    apply map_lookup_filter_Some in Hs as [Hl H]. cbn [snd] in H.
    apply negb_true_iff, Z.ltb_ge in H. split; [exact H|].
    destruct (decide (s = sid)) as [->|Hne].
    + rewrite lookup_insert_eq in Hl. injection Hl as <-. left. split; reflexivity.
    + rewrite lookup_insert_ne in Hl by congruence. right. split; assumption.
Qed.

Lemma override_set_then_get_witness :
  fst (_get_complexity_override (sample_env_at 1600) (Some "s1")
         (_set_complexity_override sample_env (Some "s1") "COMPLEX" 10 empty_world))
  = Some "COMPLEX"
  /\ _get_override_remaining_seconds (sample_env_at 1500) (Some "s1")
       (_set_complexity_override sample_env (Some "s1") "COMPLEX" 10 empty_world)
     = Some 100
  /\ fst (_get_complexity_override (ticking_env 1000) (Some "s1")
            (_set_complexity_override (ticking_env 1000) (Some "s1") "COMPLEX" 0
               empty_world))
     = None.
Proof.
  pose proof (override_set_then_get sample_env "s1" "COMPLEX" 10 empty_world eq_refl)
    as (Hlive & _).
  cbv zeta in Hlive.
  destruct Hlive as (_ & Hget & Hrem); [vm_compute; discriminate|].
  pose proof (override_set_then_get (ticking_env 1000) "s1" "COMPLEX" 0 empty_world eq_refl)
    as (_ & Hdead & _).
  cbv zeta in Hdead.
  destruct Hdead as (_ & Hnone & _); [vm_compute; reflexivity|].
  split; [|split].
  - rewrite (Hget (sample_env_at 1600)) by (vm_compute; discriminate). reflexivity.
  - rewrite (Hrem (sample_env_at 1500)) by (vm_compute; reflexivity). reflexivity.
  - rewrite (Hnone (ticking_env 1000)). reflexivity.
Defined.

(** X2. Cancelling removes the session's override and nothing else:
    after a cancel the session has no override, whatever was stored,
    every other session's entry is as it was, and the returned flag
    says whether there was an override to remove. *)
Theorem override_cancel_clears (sid : string) (w : World) :
  Str.nonempty sid = true ->
  let out := _cancel_complexity_override (Some sid) w in
  fst out = bool_decide (is_Some (_complexity_override_cache w !! sid))
  /\ _complexity_override_cache (snd out) = delete sid (_complexity_override_cache w)
  /\ (forall E, _get_complexity_override E (Some sid) (snd out) = (None, snd out))
  /\ (forall E, _get_override_remaining_seconds E (Some sid) (snd out) = None).
Proof.
  intros Hsid. cbv zeta.
  assert (Hc : _complexity_override_cache (snd (_cancel_complexity_override (Some sid) w))
               = delete sid (_complexity_override_cache w)).
  { unfold _cancel_complexity_override. cbn [truthy_str default from_option id].
    rewrite Hsid. cbn [negb].
    destruct (_complexity_override_cache w !! sid) eqn:Hl; simpl; [reflexivity|].
    symmetry. apply delete_id. exact Hl. }
  split; [|split; [exact Hc|split]].
  - unfold _cancel_complexity_override. cbn [truthy_str default from_option id].
    rewrite Hsid. cbn [negb].
    destruct (_complexity_override_cache w !! sid) eqn:Hl; simpl.
    + reflexivity.
    + reflexivity.
  - intros E. unfold _get_complexity_override. cbn [truthy_str default from_option id].
    rewrite Hsid. cbn [negb]. rewrite Hc, lookup_delete_eq. reflexivity.
  - intros E. unfold _get_override_remaining_seconds.
    cbn [truthy_str default from_option id].
    rewrite Hsid. cbn [negb]. rewrite Hc, lookup_delete_eq. reflexivity.
Qed.

Lemma override_cancel_clears_witness :
  fst (_cancel_complexity_override (Some "s1") world_with_override) = true
  /\ _complexity_override_cache (snd (_cancel_complexity_override (Some "s1")
                                        world_with_override)) !! "s1" = None.
Proof.
  pose proof (override_cancel_clears "s1" world_with_override ltac:(reflexivity))
    as (Hf & Hc & _).
  split.
  - rewrite Hf. vm_compute. reflexivity.
  - rewrite Hc. apply lookup_delete_eq.
Defined.

(** X3. An override does not outlive its expiry.  Once the clock has
    passed the expiry of a stored override, reading it returns
    nothing and leaves the store without the entry, so that no later
    read returns it, whatever the clock says then, and no seconds are
    reported as remaining.  The request is classified as it would be
    had the session no override at all, and the classification is not
    marked as decided by an override.  An override set for another
    session after the expiry purges the entry as well. *)
Theorem expired_override_is_purged (E : Env) (sid : string) (o : Override)
    (um : option string) (w : World) :
  Str.nonempty sid = true ->
  _complexity_override_cache w !! sid = Some o ->
  ov_expires o < utcnow E ->
  let w0 := set_override_cache (delete sid (_complexity_override_cache w)) w in
  _get_complexity_override E (Some sid) w = (None, w0)
  /\ (forall E', _get_complexity_override E' (Some sid) w0 = (None, w0))
  /\ _get_override_remaining_seconds E (Some sid) w = None
  /\ classify E (Some sid) um w = classify E (Some sid) um w0
  /\ snd (fst (fst (classify E (Some sid) um w))) = false
  /\ _complexity_override_cache (snd (classify E (Some sid) um w)) !! sid = None
  /\ (forall E0 other complexity ttl,
        other <> sid -> Str.nonempty other = true ->
        ov_expires o < utcnow_again E0 1 ->
        _complexity_override_cache
          (_set_complexity_override E0 (Some other) complexity ttl w) !! sid = None).
Proof.
  intros Hsid Hlook Hexp. cbv zeta.
  set (w0 := set_override_cache (delete sid (_complexity_override_cache w)) w).
  assert (Hget : _get_complexity_override E (Some sid) w = (None, w0)).
  { unfold _get_complexity_override. cbn [truthy_str default from_option id].
    rewrite Hsid. cbn [negb]. rewrite Hlook. unfold override_live.
    apply Z.ltb_lt in Hexp. rewrite Hexp. reflexivity. }
  assert (Hget0 : forall E', _get_complexity_override E' (Some sid) w0 = (None, w0)).
  { intros E'. unfold _get_complexity_override. cbn [truthy_str default from_option id].
    rewrite Hsid. cbn [negb]. subst w0. unfold set_override_cache at 1.
    cbn [_complexity_override_cache]. rewrite lookup_delete_eq. reflexivity. }
  assert (Hcl : classify E (Some sid) um w = classify E (Some sid) um w0).
  { unfold classify. rewrite Hget, (Hget0 E). reflexivity. }
  split; [exact Hget|]. split; [exact Hget0|]. split.
  { unfold _get_override_remaining_seconds. cbn [truthy_str default from_option id].
    rewrite Hsid. cbn [negb]. rewrite Hlook. cbv zeta.
    assert (H : (0 <? ov_expires o - utcnow E) = false) by (apply Z.ltb_ge; lia).
    rewrite H. reflexivity. }
  split; [exact Hcl|]. split; [|split].
  - unfold classify. rewrite Hget. cbn [truthy_str].
    destruct (negb (truthy_str um)); [reflexivity|].
    destruct (Str.len (Str.strip (default "" um)) <? 20); [reflexivity|].
    destruct (classify_with_haiku E (default "" um) w0). reflexivity.
  - unfold classify. rewrite Hget. cbn [truthy_str].
    assert (H0 : _complexity_override_cache w0 !! sid = None).
    { subst w0. unfold set_override_cache. cbn [_complexity_override_cache].
      apply lookup_delete_eq. }
    destruct (negb (truthy_str um)); [exact H0|].
    destruct (Str.len (Str.strip (default "" um)) <? 20); [exact H0|].
    destruct (classify_with_haiku_frame E (default "" um) w0) as (_ & _ & Ho).
    destruct (classify_with_haiku E (default "" um) w0) as [c w1]. cbn [fst snd] in *.
    rewrite Ho. exact H0.
  - intros E0 other complexity ttl Hne Hother Hexp0.
    rewrite override_cache_after_set by exact Hother.
    apply map_lookup_filter_None. right. intros o' Ho'.
    rewrite lookup_insert_ne in Ho' by congruence.
    assert (o' = o) as -> by congruence.
    cbn [snd]. intros H. apply negb_true_iff, Z.ltb_ge in H. lia.
Qed.

Lemma expired_override_is_purged_witness :
  fst (_get_complexity_override sample_env (Some "s1") world_with_override) = Some "COMPLEX"
  /\ _get_complexity_override (sample_env_at 3000) (Some "s1") world_with_override
     = (None, empty_world)
  /\ fst (fst (fst (classify (sample_env_at 3000) (Some "s1") (Some "thanks, go on")
                      world_with_override))) = "SIMPLE".
Proof.
  pose proof (expired_override_is_purged (sample_env_at 3000) "s1"
                {| ov_complexity := "COMPLEX"; ov_expires := 2000;
                   ov_created := 900; ov_ttl_minutes := 10 |}
                (Some "thanks, go on") world_with_override eq_refl eq_refl) as H.
  cbv zeta in H.
  destruct H as (Hget & _ & _ & Hcl & _); [vm_compute; reflexivity|].
  split; [vm_compute; reflexivity|]. split.
  - rewrite Hget. vm_compute. reflexivity.
  - rewrite Hcl. vm_compute. reflexivity.
Defined.

(** ** The override-command parser *)

Lemma model_name_to_complexity_cases model complexity :
  _MODEL_NAME_TO_COMPLEXITY model = Some complexity ->
  (model = "opus" /\ complexity = "COMPLEX")
  \/ (model = "sonnet" /\ complexity = "MODERATE")
  \/ (model = "haiku" /\ complexity = "SIMPLE").
Proof.
  unfold _MODEL_NAME_TO_COMPLEXITY.
  destruct (String.eqb model "opus") eqn:H1;
    [apply String.eqb_eq in H1; intros [= <-]; tauto|].
  destruct (String.eqb model "sonnet") eqn:H2;
    [apply String.eqb_eq in H2; intros [= <-]; tauto|].
  destruct (String.eqb model "haiku") eqn:H3;
    [apply String.eqb_eq in H3; intros [= <-]; tauto|].
  discriminate.
Qed.

(** X4. Whatever the message, a parsed set command names one of the
    three models in lower case with its own tier, and its duration is
    the default or at most the configured maximum; the message is not
    empty and holds no cancel command. *)
Theorem parsed_set_command_is_bounded (cfg : Config) (message model complexity : string)
    (ttl : Z) :
  _parse_override_command cfg message = Some (SetCommand model complexity ttl) ->
  ((model = "opus" /\ complexity = "COMPLEX")
   \/ (model = "sonnet" /\ complexity = "MODERATE")
   \/ (model = "haiku" /\ complexity = "SIMPLE"))
  /\ (ttl = COMPLEXITY_OVERRIDE_DEFAULT_TTL_MINUTES cfg
      \/ ttl <= COMPLEXITY_OVERRIDE_MAX_TTL_MINUTES cfg)
  /\ message <> ""
  /\ Re.search _CANCEL_OVERRIDE_PATTERN message = None.
Proof.
  unfold _parse_override_command.
  destruct (Str.nonempty message) eqn:Hne; cbn [negb]; [|discriminate].
  destruct (bool_decide (is_Some (Re.search _CANCEL_OVERRIDE_PATTERN message))) eqn:Hc;
    [discriminate|].
  apply bool_decide_eq_false in Hc.
  destruct (Re.search _OVERRIDE_PATTERN message) as [groups|]; [|discriminate].
  destruct (_MODEL_NAME_TO_COMPLEXITY (Str.lower (default "" (groups !! 1%nat))))
    as [cx|] eqn:Hm; [|discriminate].
  intros [= <- <- <-].
  split; [apply model_name_to_complexity_cases, Hm|].
  split.
  - destruct (groups !! 2%nat) as [d|]; [|left; reflexivity].
    destruct (Str.nonempty d); [right; apply Z.le_min_r|left; reflexivity].
  - split; [intros ->; discriminate|].
    destruct (Re.search _CANCEL_OVERRIDE_PATTERN message); [|reflexivity].
    exfalso. apply Hc. eexists. reflexivity.
Qed.

Lemma parsed_set_command_is_bounded_witness :
  _parse_override_command default_config "Switch to SONNET for the next 90 min"
  = Some (SetCommand "sonnet" "MODERATE" 60)
  /\ 60 <= COMPLEXITY_OVERRIDE_MAX_TTL_MINUTES default_config.
Proof.
  assert (H : _parse_override_command default_config "Switch to SONNET for the next 90 min"
              = Some (SetCommand "sonnet" "MODERATE" 60)) by (vm_compute; reflexivity).
  split; [exact H|].
  destruct (parsed_set_command_is_bounded default_config _ _ _ _ H) as (_ & [Hd|Hm] & _).
  - vm_compute in Hd. discriminate.
  - exact Hm.
Defined.

(** ** The token estimate *)

(** X5. The token estimate is zero for the empty text only; for any
    other text it is the length divided by four and rounded up, at
    least one. *)
Theorem estimate_tokens_bounds (text : string) :
  (_estimate_tokens_from_text text = 0 <-> text = "")
  /\ (text <> "" ->
      1 <= _estimate_tokens_from_text text
      /\ 4 * (_estimate_tokens_from_text text - 1) < Str.len text
         <= 4 * _estimate_tokens_from_text text).
Proof.
  unfold _estimate_tokens_from_text, Str.len.
  destruct text as [|c r]; cbn [Str.nonempty negb].
  - split; [tauto|]. intros H. contradiction.
  - set (n := Z.of_nat (String.length (String c r))).
    assert (Hn : 1 <= n) by (subst n; simpl; lia).
    assert (Hdiv : 4 * ((n + 3) / 4) <= n + 3 < 4 * ((n + 3) / 4) + 4).
    { pose proof (Z.div_mod (n + 3) 4 ltac:(lia)).
      pose proof (Z.mod_pos_bound (n + 3) 4 ltac:(lia)). lia. }
    split; [split; [lia|discriminate]|].
    intros _. lia.
Qed.

Lemma estimate_tokens_bounds_witness :
  "hello" <> "" /\ _estimate_tokens_from_text "hello" = 2.
Proof.
  assert (H : "hello" <> "") by discriminate.
  split; [exact H|].
  destruct (estimate_tokens_bounds "hello") as (_ & Hb).
  destruct (Hb H) as (_ & Hlo & Hhi). unfold Str.len in *. simpl in Hlo, Hhi. lia.
Defined.

(** ** The classification cache *)

Module CacheFacts.

Import ClassificationCache.

Lemma lookup_assign_eq key v c : lookup key (assign key v c) = Some v.
Proof.
  induction c as [|[k v'] rest IH]; simpl.
  - rewrite String.eqb_refl. reflexivity.
  - destruct (String.eqb k key) eqn:Hk; simpl; rewrite Hk; [reflexivity|exact IH].
Qed.

Lemma lookup_assign_ne key key' v c :
  key' <> key -> lookup key' (assign key v c) = lookup key' c.
Proof.
  intros Hne. induction c as [|[k v'] rest IH]; simpl.
  - apply String.eqb_neq in Hne. rewrite String.eqb_sym, Hne. reflexivity.
  - destruct (String.eqb k key) eqn:Hk; simpl.
    + apply String.eqb_eq in Hk. subst k.
      apply String.eqb_neq in Hne. rewrite String.eqb_sym, Hne. reflexivity.
    + rewrite IH. reflexivity.
Qed.

Lemma keys_assign key v c :
  map fst (assign key v c)
  = if existsb (String.eqb key) (map fst c) then map fst c else (map fst c ++ [key])%list.
Proof.
  induction c as [|[k v'] rest IH]; simpl; [reflexivity|].
  rewrite (String.eqb_sym key k).
  destruct (String.eqb k key) eqn:Hk; simpl; [reflexivity|].
  rewrite IH. destruct (existsb (String.eqb key) (map fst rest)); reflexivity.
Qed.

Lemma lookup_In key c : is_Some (lookup key c) <-> In key (map fst c).
Proof.
  induction c as [|[k v] rest IH]; simpl.
  - split; [intros [? [=]]|tauto].
  - destruct (String.eqb k key) eqn:Hk.
    + apply String.eqb_eq in Hk. split; [tauto|]. intros _. eexists. reflexivity.
    + apply String.eqb_neq in Hk. rewrite IH. split; [tauto|]. intros [H|H]; tauto.
Qed.

Lemma keys_remove key c :
  List.NoDup (map fst c) ->
  List.NoDup (map fst (remove key c))
  /\ (forall k, In k (map fst (remove key c)) <-> In k (map fst c) /\ k <> key)
  /\ (In key (map fst c) -> S (length (remove key c)) = length c)
  /\ (forall k, k <> key -> lookup k (remove key c) = lookup k c).
Proof.
  induction c as [|[k v] rest IH]; simpl; intros Hnd.
  - split; [constructor|]. split; [tauto|]. split; [tauto|reflexivity].
  - inversion Hnd as [|? ? Hnotin Hnd']; subst.
    destruct (String.eqb k key) eqn:Hk.
    + apply String.eqb_eq in Hk. subst k.
      split; [exact Hnd'|]. split; [|split; [reflexivity|]].
      * intros k'. split; [intros H; split; [tauto|intros ->; contradiction]|].
        intros [[H|H] Hne]; [congruence|exact H].
      * intros k' Hne. apply String.eqb_neq in Hne. rewrite String.eqb_sym, Hne. reflexivity.
    + apply String.eqb_neq in Hk.
      destruct (IH Hnd') as (I1 & I2 & I3 & I4). simpl.
      split; [constructor; [rewrite I2; tauto|exact I1]|].
      split; [|split].
      * intros k'. rewrite I2. split.
        -- intros [->|H]; [split; [tauto|congruence]|tauto].
        -- intros [[H|H] Hne]; tauto.
      * intros [H|H]; [congruence|]. rewrite I3 by exact H. reflexivity.
      * intros k' Hne. destruct (String.eqb k k'); [reflexivity|apply I4, Hne].
Qed.

Lemma oldest_key_In c :
  c <> [] -> exists k, oldest_key c = Some k /\ In k (map fst c).
Proof.
  induction c as [|[k [cl ts]] rest IH]; [congruence|]. intros _. simpl.
  destruct rest as [|p rest'].
  - exists k. simpl. tauto.
  - destruct (IH ltac:(discriminate)) as (k' & Hk' & Hin). rewrite Hk'.
    destruct (lookup k' (p :: rest')) as [[cl' ts']|].
    + destruct (ts' <? ts); eexists; split; try reflexivity; tauto.
    + exists k. tauto.
Qed.

End CacheFacts.


Lemma cache_get_after_set E prompt prompt' classification c :
  Str.take 500 prompt' = Str.take 500 prompt ->
  ClassificationCache.get E prompt' (ClassificationCache.set E prompt classification c)
  = (Some classification, ClassificationCache.set E prompt classification c).
Proof.
  intros Hsame. unfold ClassificationCache.get, ClassificationCache.set.
  unfold ClassificationCache._hash_prompt. rewrite Hsame.
  rewrite CacheFacts.lookup_assign_eq.
  replace (utcnow E - utcnow E) with 0 by lia. reflexivity.
Qed.

(** X6. A classification stored for a prompt is what the cache
    returns, at the same clock reading, for every prompt with the same
    first 500 characters; the lookup leaves the cache as it is. *)
Theorem cache_set_then_get (E : Env) (prompt prompt' classification : string)
    (c : list (string * (string * Z))) :
  Str.take 500 prompt' = Str.take 500 prompt ->
  ClassificationCache.get E prompt' (ClassificationCache.set E prompt classification c)
  = (Some classification, ClassificationCache.set E prompt classification c).
Proof. apply cache_get_after_set. Qed.

Lemma cache_set_then_get_witness :
  fst (ClassificationCache.get sample_env "What is 2+2?"
         (ClassificationCache.set sample_env "What is 2+2?" "SIMPLE" [])) = Some "SIMPLE".
Proof.
  rewrite (cache_set_then_get sample_env "What is 2+2?" "What is 2+2?" "SIMPLE" [] eq_refl).
  reflexivity.
Defined.

(** X7. The cache stays a dictionary of at most [MAX_CACHE_SIZE]
    entries: storing a classification and looking one up both keep the
    keys distinct and the size within the bound. *)
Theorem cache_stays_bounded (E : Env) (prompt classification : string)
    (c : list (string * (string * Z))) :
  cache_ok c ->
  cache_ok (ClassificationCache.set E prompt classification c)
  /\ cache_ok (snd (ClassificationCache.get E prompt c)).
Proof.
  intros [Hnd Hlen]. split.
  - unfold ClassificationCache.set.
    set (c1 := if Nat.leb MAX_CACHE_SIZE (length c) then _ else c).
    assert (H1 : List.NoDup (map fst c1) /\ (length c1 < MAX_CACHE_SIZE)%nat
                 \/ List.NoDup (map fst c1) /\ (length c1 <= MAX_CACHE_SIZE)%nat
                    /\ (Nat.leb MAX_CACHE_SIZE (length c) = false)).
    { subst c1. destruct (Nat.leb MAX_CACHE_SIZE (length c)) eqn:Hfull.
      - left. apply Nat.leb_le in Hfull.
        assert (Hne : c <> []).
        { intros ->. simpl in Hfull. unfold MAX_CACHE_SIZE in Hfull. lia. }
        destruct (CacheFacts.oldest_key_In c Hne) as (k & Hk & Hin). rewrite Hk.
        destruct (CacheFacts.keys_remove k c Hnd) as (R1 & _ & R3 & _).
        split; [exact R1|]. specialize (R3 Hin). lia.
      - right. tauto. }
    assert (Hc1 : List.NoDup (map fst c1) /\ (length c1 < MAX_CACHE_SIZE)%nat).
    { destruct H1 as [H1|(N1 & L1 & Hfull)]; [exact H1|].
      split; [exact N1|]. apply Nat.leb_gt in Hfull. subst c1.
      rewrite (proj2 (Nat.leb_gt _ _) Hfull). exact Hfull. }
    clear H1. destruct Hc1 as [N1 L1]. clearbody c1.
    pose proof (CacheFacts.keys_assign (ClassificationCache._hash_prompt E prompt)
                  (classification, utcnow E) c1) as Hk.
    assert (Hlen' : length (ClassificationCache.assign
                              (ClassificationCache._hash_prompt E prompt)
                              (classification, utcnow E) c1)
                    = length (map fst (ClassificationCache.assign
                                         (ClassificationCache._hash_prompt E prompt)
                                         (classification, utcnow E) c1)))
      by (rewrite length_map; reflexivity).
    split.
    + rewrite Hk.
      destruct (existsb _ (map fst c1)) eqn:Hex; [exact N1|].
      apply NoDup_ListNoDup, NoDup_app. split; [apply NoDup_ListNoDup, N1|].
      split; [|apply NoDup_singleton].
      intros x Hx Hx'. apply list_elem_of_singleton in Hx'. subst x.
      apply list_elem_of_In in Hx.
      assert (existsb (String.eqb (ClassificationCache._hash_prompt E prompt)) (map fst c1)
              = true); [|congruence].
      apply existsb_exists. eexists. split; [exact Hx|apply String.eqb_refl].
    + rewrite Hlen', Hk.
      destruct (existsb _ (map fst c1)); rewrite ?length_app, length_map; simpl; lia.
  - unfold ClassificationCache.get.
    destruct (ClassificationCache.lookup _ c) as [[cl ts]|] eqn:Hl; [|split; assumption].
    destruct (utcnow E - ts <? CACHE_TTL_SECONDS); [split; assumption|]. simpl.
    destruct (CacheFacts.keys_remove (ClassificationCache._hash_prompt E prompt) c Hnd)
      as (R1 & _ & R3 & _).
    split; [exact R1|].
    assert (Hin : In (ClassificationCache._hash_prompt E prompt) (map fst c)).
    { apply CacheFacts.lookup_In. rewrite Hl. eexists. reflexivity. }
    specialize (R3 Hin). lia.
Qed.

Lemma cache_stays_bounded_witness :
  cache_ok [] /\ cache_ok (ClassificationCache.set sample_env "hello there" "SIMPLE" []).
Proof.
  assert (H : cache_ok []).
  { split; [constructor|]. simpl. unfold MAX_CACHE_SIZE. lia. }
  split; [exact H|].
  exact (proj1 (cache_stays_bounded sample_env "hello there" "SIMPLE" [] H)).
Defined.

(** X8. An entry is served only while it is younger than the cache
    lifetime: at that age or beyond the lookup returns nothing and
    deletes the entry, keeping every other key; a key that is not in
    the cache returns nothing and changes nothing. *)
Theorem cache_entry_expires (E : Env) (prompt : string)
    (c : list (string * (string * Z))) :
  List.NoDup (map fst c) ->
  let key := ClassificationCache._hash_prompt E prompt in
  let out := ClassificationCache.get E prompt c in
  (forall classification timestamp,
     ClassificationCache.lookup key c = Some (classification, timestamp) ->
     (utcnow E - timestamp < CACHE_TTL_SECONDS -> out = (Some classification, c))
     /\ (CACHE_TTL_SECONDS <= utcnow E - timestamp ->
         fst out = None
         /\ ClassificationCache.lookup key (snd out) = None
         /\ forall k, k <> key ->
              ClassificationCache.lookup k (snd out) = ClassificationCache.lookup k c))
  /\ (ClassificationCache.lookup key c = None -> out = (None, c)).
Proof.
  intros Hnd. cbv zeta. unfold ClassificationCache.get. split.
  - intros classification timestamp Hl. rewrite Hl. split.
    + intros Hy. apply Z.ltb_lt in Hy. rewrite Hy. reflexivity.
    + intros Ho. apply Z.ltb_ge in Ho. rewrite Ho. simpl.
      destruct (CacheFacts.keys_remove (ClassificationCache._hash_prompt E prompt) c Hnd)
        as (_ & R2 & _ & R4).
      split; [reflexivity|]. split; [|exact R4].
      destruct (ClassificationCache.lookup _ (ClassificationCache.remove _ c)) eqn:Hr;
        [|reflexivity].
      exfalso.
      assert (Hin : In (ClassificationCache._hash_prompt E prompt)
                      (map fst (ClassificationCache.remove
                                  (ClassificationCache._hash_prompt E prompt) c))).
      { apply CacheFacts.lookup_In. rewrite Hr. eexists. reflexivity. }
      apply R2 in Hin. tauto.
  - intros Hl. rewrite Hl. reflexivity.
Qed.

Lemma cache_entry_expires_witness :
  List.NoDup (map fst [("old prompt", ("COMPLEX", -3000))])
  /\ fst (ClassificationCache.get sample_env "old prompt"
            [("old prompt", ("COMPLEX", -3000))]) = None.
Proof.
  assert (H : List.NoDup (map fst [("old prompt", ("COMPLEX", -3000))])).
  { constructor; [simpl; tauto|constructor]. }
  split; [exact H|].
  destruct (cache_entry_expires sample_env "old prompt" _ H) as (Hhit & _).
  destruct (Hhit "COMPLEX" (-3000) ltac:(vm_compute; reflexivity)) as (_ & Hexp).
  exact (proj1 (Hexp ltac:(vm_compute; discriminate))).
Defined.

(** ** The classifier call *)

Lemma validate_classification_level result : In (validate_classification result) levels.
Proof.
  unfold validate_classification.
  destruct (existsb (String.eqb result) levels) eqn:Hex.
  - apply existsb_exists in Hex as (l & Hin & Heq). apply String.eqb_eq in Heq.
    subst. exact Hin.
  - unfold levels. cbn [List.filter].
    destruct (Str.contains "SIMPLE" result); [simpl; tauto|].
    destruct (Str.contains "MODERATE" result); [simpl; tauto|].
    destruct (Str.contains "COMPLEX" result); simpl; tauto.
Qed.

Lemma validate_classification_exact result :
  In result levels -> validate_classification result = result.
Proof.
  intros Hin. unfold validate_classification.
  assert (H : existsb (String.eqb result) levels = true).
  { apply existsb_exists. exists result. split; [exact Hin|apply String.eqb_refl]. }
  rewrite H. reflexivity.
Qed.

Lemma level_nonempty l : In l levels -> Str.nonempty l = true.
Proof. unfold levels. simpl. intros [<-|[<-|[<-|[]]]]; reflexivity. Qed.

(** X9. When the cache has no answer, the classification is always
    one of SIMPLE, MODERATE and COMPLEX, whatever the classifier model
    replies: an answer that is one of the three words (in any case,
    with white space around it) is taken as it is, a failed call
    gives SIMPLE and stores nothing in the cache. *)
Theorem classifier_answer_is_validated (E : Env) (prompt : string) (w : World) :
  truthy_str (fst (ClassificationCache.get E prompt (_cache w))) = false ->
  let out := classify_with_haiku E prompt w in
  let request := CLASSIFIER_PROMPT (Str.take 2000 prompt) in
  In (fst out) levels
  /\ (classifier_reply E request = None ->
      fst out = "SIMPLE"
      /\ _cache (snd out) = snd (ClassificationCache.get E prompt (_cache w)))
  /\ (forall answer,
        classifier_reply E request = Some answer ->
        In (Str.upper (Str.strip answer)) levels ->
        fst out = Str.upper (Str.strip answer)).
Proof.
  intros Hmiss. cbv zeta. unfold classify_with_haiku.
  destruct (ClassificationCache.get E prompt (_cache w)) as [cached c]. simpl in Hmiss.
  rewrite Hmiss.
  destruct (classifier_reply E (CLASSIFIER_PROMPT (Str.take 2000 prompt))) as [answer|];
    cbn [fst snd].
  - split; [apply validate_classification_level|]. split; [discriminate|].
    intros a [= <-] Hin. apply validate_classification_exact, Hin.
  - split; [unfold levels; simpl; tauto|]. split; [|discriminate].
    intros _. split; reflexivity.
Qed.

Lemma classifier_answer_is_validated_witness :
  truthy_str (fst (ClassificationCache.get sample_env "Refactor this function to use async"
                     (_cache empty_world))) = false
  /\ fst (classify_with_haiku sample_env "Refactor this function to use async" empty_world)
     = "MODERATE".
Proof.
  assert (H : truthy_str (fst (ClassificationCache.get sample_env
                                 "Refactor this function to use async"
                                 (_cache empty_world))) = false) by reflexivity.
  split; [exact H|].
  destruct (classifier_answer_is_validated sample_env "Refactor this function to use async"
              empty_world H) as (_ & _ & Hans).
  rewrite (Hans "MODERATE" eq_refl); [reflexivity|].
  vm_compute. tauto.
Defined.

(** X10. Once a prompt has been classified by the classifier model,
    a prompt with the same first 500 characters is answered from the
    cache at the same clock reading: the same classification, one
    cache lookup, no second classifier call. *)
Theorem second_classification_is_cached (E : Env) (prompt prompt' answer : string)
    (w : World) :
  Str.take 500 prompt' = Str.take 500 prompt ->
  truthy_str (fst (ClassificationCache.get E prompt (_cache w))) = false ->
  classifier_reply E (CLASSIFIER_PROMPT (Str.take 2000 prompt)) = Some answer ->
  let first := classify_with_haiku E prompt w in
  let second := classify_with_haiku E prompt' (snd first) in
  fst second = fst first
  /\ trace (snd second) = (trace (snd first) ++ [CacheGet prompt'])%list
  /\ _cache (snd second) = _cache (snd first).
Proof.
  intros Hsame Hmiss Hreply. cbv zeta.
  assert (Hfirst : exists c,
             classify_with_haiku E prompt w
             = (validate_classification (Str.upper (Str.strip answer)),
                emit (CacheSet prompt (validate_classification (Str.upper (Str.strip answer))))
                  (set_cache (ClassificationCache.set E prompt
                                (validate_classification (Str.upper (Str.strip answer))) c)
                     (emit (ClassifierCall (CLASSIFIER_PROMPT (Str.take 2000 prompt)))
                        (emit (CacheGet prompt) (set_cache c w)))))).
  { unfold classify_with_haiku.
    destruct (ClassificationCache.get E prompt (_cache w)) as [cached c]. simpl in Hmiss.
    rewrite Hmiss, Hreply. exists c. reflexivity. }
  destruct Hfirst as (c & Hfirst). rewrite Hfirst. cbn [fst snd].
  unfold classify_with_haiku at 1 2 3. cbn [_cache emit set_cache].
  rewrite (cache_get_after_set E prompt prompt' _ c Hsame).
  cbn [truthy_str default from_option id].
  rewrite (level_nonempty _ (validate_classification_level _)).
  cbn [fst snd trace _cache emit set_cache]. repeat split.
Qed.

Lemma second_classification_is_cached_witness :
  trace (snd (classify_with_haiku sample_env "Refactor this function to use async"
                (snd (classify_with_haiku sample_env "Refactor this function to use async"
                        empty_world))))
  = [ CacheGet "Refactor this function to use async";
      ClassifierCall (CLASSIFIER_PROMPT "Refactor this function to use async");
      CacheSet "Refactor this function to use async" "MODERATE";
      CacheGet "Refactor this function to use async" ].
Proof.
  destruct (second_classification_is_cached sample_env
              "Refactor this function to use async" "Refactor this function to use async"
              "MODERATE" empty_world eq_refl eq_refl eq_refl) as (_ & Ht & _).
  rewrite Ht. vm_compute. reflexivity.
Defined.

(** ** Pass 1 of the context guard *)

Lemma messages_tokens_app l1 l2 :
  messages_tokens (l1 ++ l2) = messages_tokens l1 + messages_tokens l2.
Proof.
  unfold messages_tokens. induction l1 as [|m l1 IH]; simpl; [reflexivity|].
  rewrite IH. lia.
Qed.

(** One step of pass 1: the message appended, and what it adds. *)
Lemma pass1_step_spec E cfg st m :
  exists m',
    p1_messages (pass1_step E cfg st m) = (p1_messages st ++ [m'])%list
    /\ p1_total (pass1_step E cfg st m) = p1_total st + message_tokens m'
    /\ pass1_rewrites cfg m m'
    /\ p1_seen st ⊆ p1_seen (pass1_step E cfg st m)
    /\ p1_duplicates st <= p1_duplicates (pass1_step E cfg st m)
    /\ p1_large_blocks st <= p1_large_blocks (pass1_step E cfg st m).
Proof.
  unfold pass1_step, pass1_rewrites, message_tokens.
  destruct (Str.nonempty (_normalize_message_text m)
            && (CONTEXT_DUPLICATE_MIN_TOKENS cfg
                <=? _estimate_tokens_from_text (_normalize_message_text m)))%bool.
  - destruct (bool_decide (sha256_hex E (_normalize_message_text m) ∈ p1_seen st)).
    + destruct (Str.nonempty duplicate_stub
                && (CONTEXT_BLOCK_LIMIT_TOKENS cfg
                    <? _estimate_tokens_from_text duplicate_stub))%bool eqn:Hbig.
      * apply andb_true_iff in Hbig as [_ Hbig]. apply Z.ltb_lt in Hbig.
        eexists. cbn [p1_messages p1_total p1_seen p1_duplicates p1_large_blocks].
        split; [reflexivity|]. split; [reflexivity|].
        split; [split; [reflexivity|right; right; eexists; split; [exact Hbig|reflexivity]]|].
        split; [set_solver|]. split; lia.
      * eexists. cbn [p1_messages p1_total p1_seen p1_duplicates p1_large_blocks].
        split; [reflexivity|]. split; [reflexivity|].
        split; [split; [reflexivity|right; left; reflexivity]|].
        split; [set_solver|]. split; lia.
    + destruct (Str.nonempty (_normalize_message_text m)
                && (CONTEXT_BLOCK_LIMIT_TOKENS cfg
                    <? _estimate_tokens_from_text (_normalize_message_text m)))%bool eqn:Hbig.
      * apply andb_true_iff in Hbig as [_ Hbig]. apply Z.ltb_lt in Hbig.
        eexists. cbn [p1_messages p1_total p1_seen p1_duplicates p1_large_blocks].
        split; [reflexivity|]. split; [reflexivity|].
        split; [split; [reflexivity|right; right; eexists; split; [exact Hbig|reflexivity]]|].
        split; [set_solver|]. split; lia.
      * eexists. cbn [p1_messages p1_total p1_seen p1_duplicates p1_large_blocks].
        split; [reflexivity|]. split; [reflexivity|].
        split; [split; [reflexivity|left; reflexivity]|].
        split; [set_solver|]. split; lia.
  - destruct (Str.nonempty (_normalize_message_text m)
              && (CONTEXT_BLOCK_LIMIT_TOKENS cfg
                  <? _estimate_tokens_from_text (_normalize_message_text m)))%bool eqn:Hbig.
    + apply andb_true_iff in Hbig as [_ Hbig]. apply Z.ltb_lt in Hbig.
      eexists. cbn [p1_messages p1_total p1_seen p1_duplicates p1_large_blocks].
      split; [reflexivity|]. split; [reflexivity|].
      split; [split; [reflexivity|right; right; eexists; split; [exact Hbig|reflexivity]]|].
      split; [set_solver|]. split; lia.
    + eexists. cbn [p1_messages p1_total p1_seen p1_duplicates p1_large_blocks].
      split; [reflexivity|]. split; [reflexivity|].
      split; [split; [reflexivity|left; reflexivity]|].
      split; [set_solver|]. split; lia.
Qed.

(** The loop of pass 1 from any state. *)
Lemma pass1_fold_spec E cfg msgs st :
  exists out,
    p1_messages (fold_left (pass1_step E cfg) msgs st) = (p1_messages st ++ out)%list
    /\ p1_total (fold_left (pass1_step E cfg) msgs st) = p1_total st + messages_tokens out
    /\ Forall2 (pass1_rewrites cfg) msgs out
    /\ p1_seen st ⊆ p1_seen (fold_left (pass1_step E cfg) msgs st)
    /\ p1_duplicates st <= p1_duplicates (fold_left (pass1_step E cfg) msgs st)
    /\ p1_large_blocks st <= p1_large_blocks (fold_left (pass1_step E cfg) msgs st).
Proof.
  revert st. induction msgs as [|m msgs IH]; intros st.
  - exists []. simpl. rewrite app_nil_r. unfold messages_tokens. simpl.
    repeat split; try lia; [constructor|set_solver].
  - simpl.
    destruct (pass1_step_spec E cfg st m) as (m' & S1 & S2 & S3 & S4 & S5 & S6).
    destruct (IH (pass1_step E cfg st m)) as (out & I1 & I2 & I3 & I4 & I5 & I6).
    exists (m' :: out). rewrite I1, S1, <- app_assoc. simpl.
    split; [reflexivity|]. split.
    { rewrite I2, S2. unfold messages_tokens. simpl. lia. }
    split; [constructor; assumption|]. split; [set_solver|]. split; lia.
Qed.

(** A block large enough for duplicate detection leaves its digest in
    the set of digests seen. *)
Lemma pass1_step_records E cfg st m :
  Str.nonempty (_normalize_message_text m) = true ->
  CONTEXT_DUPLICATE_MIN_TOKENS cfg <= message_tokens m ->
  sha256_hex E (_normalize_message_text m) ∈ p1_seen (pass1_step E cfg st m).
Proof.
  intros Hne Hmin. unfold message_tokens in Hmin. unfold pass1_step.
  rewrite Hne. cbn [andb].
  destruct (Z.leb_spec (CONTEXT_DUPLICATE_MIN_TOKENS cfg)
              (_estimate_tokens_from_text (_normalize_message_text m))); [|lia].
  destruct (bool_decide (sha256_hex E (_normalize_message_text m) ∈ p1_seen st)) eqn:Hd.
  - apply bool_decide_eq_true_1 in Hd.
    destruct (Str.nonempty duplicate_stub && _)%bool; cbn [p1_seen]; exact Hd.
  - destruct (Str.nonempty (_normalize_message_text m) && _)%bool; cbn [p1_seen]; set_solver.
Qed.

(** A block whose digest has been seen is replaced by the duplicate
    stub. *)
Lemma pass1_step_duplicate E cfg st m :
  Str.nonempty (_normalize_message_text m) = true ->
  CONTEXT_DUPLICATE_MIN_TOKENS cfg <= message_tokens m ->
  sha256_hex E (_normalize_message_text m) ∈ p1_seen st ->
  _estimate_tokens_from_text duplicate_stub <= CONTEXT_BLOCK_LIMIT_TOKENS cfg ->
  p1_messages (pass1_step E cfg st m) = (p1_messages st ++ [with_content duplicate_stub m])%list
  /\ p1_duplicates (pass1_step E cfg st m) = p1_duplicates st + 1.
Proof.
  intros Hne Hmin Hseen Hstub. unfold message_tokens in Hmin. unfold pass1_step.
  rewrite Hne. cbn [andb].
  destruct (Z.leb_spec (CONTEXT_DUPLICATE_MIN_TOKENS cfg)
              (_estimate_tokens_from_text (_normalize_message_text m))); [|lia].
  rewrite (bool_decide_eq_true_2 _ Hseen).
  destruct (Z.ltb_spec (CONTEXT_BLOCK_LIMIT_TOKENS cfg)
              (_estimate_tokens_from_text duplicate_stub)); [lia|].
  rewrite andb_false_r. cbn [p1_messages p1_duplicates]. split; reflexivity.
Qed.

(** X11. Pass 1 of the context guard keeps one block per message, in
    order and with its role: each block is the message itself or one of
    the two stubs.  Its running total is the enforcement overhead plus
    the token estimates of the blocks it leaves, and its two counters
    are never negative. *)
Theorem pass1_accounts_for_every_message (E : Env) (cfg : Config) (msgs : list Message) :
  let p := pass1 E cfg msgs in
  Forall2 (pass1_rewrites cfg) msgs (p1_messages p)
  /\ length (p1_messages p) = length msgs
  /\ p1_total p = ENFORCEMENT_OVERHEAD_TOKENS cfg + messages_tokens (p1_messages p)
  /\ 0 <= p1_duplicates p
  /\ 0 <= p1_large_blocks p.
Proof.
  cbv zeta. unfold pass1.
  destruct (pass1_fold_spec E cfg msgs
              {| p1_messages := []; p1_total := ENFORCEMENT_OVERHEAD_TOKENS cfg;
                 p1_duplicates := 0; p1_large_blocks := 0; p1_seen := ∅ |})
    as (out & H1 & H2 & H3 & _ & H5 & H6).
  cbn [p1_messages p1_total p1_duplicates p1_large_blocks app] in *.
  rewrite H1, H2. split; [exact H3|].
  split; [symmetry; eapply Forall2_length; exact H3|].
  split; [reflexivity|]. split; assumption.
Qed.

(** X12. When a message repeats the text of an earlier one, and the
    text is non-empty and reaches the duplicate threshold, pass 1
    replaces the later message by the duplicate stub, keeps its role
    and counts one duplicate at least; the stub is assumed to be within
    the block limit. *)
Theorem repeated_block_is_stubbed (E : Env) (cfg : Config)
    (pre mid post : list Message) (m1 m2 : Message) :
  _normalize_message_text m1 = _normalize_message_text m2 ->
  Str.nonempty (_normalize_message_text m2) = true ->
  CONTEXT_DUPLICATE_MIN_TOKENS cfg <= message_tokens m2 ->
  _estimate_tokens_from_text duplicate_stub <= CONTEXT_BLOCK_LIMIT_TOKENS cfg ->
  let p := pass1 E cfg (pre ++ m1 :: mid ++ m2 :: post) in
  p1_messages p !! (length pre + S (length mid))%nat
    = Some {| role := role m2; content := ContentStr duplicate_stub |}
  /\ 1 <= p1_duplicates p.
Proof.
  intros Htext Hne Hmin Hstub. cbv zeta. unfold pass1.
  set (st0 := {| p1_messages := []; p1_total := ENFORCEMENT_OVERHEAD_TOKENS cfg;
                 p1_duplicates := 0; p1_large_blocks := 0; p1_seen := ∅ |}).
  rewrite fold_left_app. cbn [fold_left]. rewrite fold_left_app. cbn [fold_left].
  set (s1 := fold_left (pass1_step E cfg) pre st0).
  set (s2 := pass1_step E cfg s1 m1).
  set (s3 := fold_left (pass1_step E cfg) mid s2).
  destruct (pass1_fold_spec E cfg pre st0) as (o1 & A1 & _ & A3 & _ & A5 & _).
  fold s1 in A1, A5. cbn [p1_messages p1_duplicates st0 app] in A1, A5.
  destruct (pass1_step_spec E cfg s1 m1) as (m1' & B1 & _ & _ & _ & B5 & _).
  fold s2 in B1, B5.
  assert (Hin2 : sha256_hex E (_normalize_message_text m2) ∈ p1_seen s2).
  { rewrite <- Htext. apply pass1_step_records.
    - rewrite Htext. exact Hne.
    - unfold message_tokens in *. rewrite Htext. exact Hmin. }
  destruct (pass1_fold_spec E cfg mid s2) as (o3 & C1 & _ & C3 & C4 & C5 & _).
  fold s3 in C1, C4, C5.
  assert (Hin3 : sha256_hex E (_normalize_message_text m2) ∈ p1_seen s3) by set_solver.
  destruct (pass1_step_duplicate E cfg s3 m2 Hne Hmin Hin3 Hstub) as [D1 D2].
  destruct (pass1_fold_spec E cfg post (pass1_step E cfg s3 m2)) as (o5 & F1 & _ & _ & _ & F5 & _).
  split.
  - rewrite F1, D1, C1, B1, A1.
    apply Forall2_length in A3. apply Forall2_length in C3.
    rewrite <- !app_assoc. rewrite lookup_app_r by (rewrite <- A3; lia).
    rewrite <- A3.
    replace (length pre + S (length mid) - length pre)%nat with (S (length mid)) by lia.
    rewrite (lookup_app_r [m1']) by (cbn [length]; lia).
    replace (S (length mid) - length [m1'])%nat with (length mid) by (cbn [length]; lia).
    rewrite lookup_app_r by (rewrite <- C3; lia).
    rewrite <- C3, Nat.sub_diag. reflexivity.
  - lia.
Qed.

Lemma repeated_block_is_stubbed_witness :
  let m := text_message "user" "abcdefghijkl" in
  p1_messages (pass1 sample_env small_config ([] ++ m :: [] ++ m :: [])) !! 1%nat
    = Some {| role := "user"; content := ContentStr duplicate_stub |}
  /\ 1 <= p1_duplicates (pass1 sample_env small_config ([] ++ m :: [] ++ m :: [])).
Proof.
  cbv zeta.
  apply (repeated_block_is_stubbed sample_env small_config [] [] []
           (text_message "user" "abcdefghijkl") (text_message "user" "abcdefghijkl")).
  - reflexivity.
  - reflexivity.
  - vm_compute. discriminate.
  - vm_compute. discriminate.
Defined.

(** ** The guard as a whole *)

Lemma filter_imap_sublist {A} (P : nat -> bool) (g : nat -> nat) (l : list A) :
  sublist (map snd (List.filter (fun im => P (fst im)) (imap (fun i x => (g i, x)) l))) l.
Proof.
  revert g. induction l as [|x l IH]; intros g.
  - constructor.
  - cbn [imap List.filter fst]. destruct (P (g 0%nat)).
    + cbn [map snd]. apply sublist_skip. apply (IH (g ∘ S)).
    + apply sublist_cons. apply (IH (g ∘ S)).
Qed.

Lemma remove_indices_sublist removal msgs :
  sublist (remove_indices removal msgs) msgs.
Proof.
  unfold remove_indices, enumerate.
  apply (filter_imap_sublist (fun i => negb (existsb (Nat.eqb i) removal)) (fun i => i)).
Qed.

Lemma pass2_sublist cfg msgs total :
  sublist (fst (fst (pass2 cfg msgs total))) msgs.
Proof.
  unfold pass2. destruct (CONTEXT_SOFT_LIMIT_TOKENS cfg <? total).
  - destruct (trim_loop _ _ _ _) as [removal total']. cbn [fst].
    apply remove_indices_sublist.
  - cbn [fst]. reflexivity.
Qed.

(** X13. The messages that leave the context guard are a subsequence,
    in the original order, of the blocks of pass 1: the guard adds no
    message and reorders none, and every message it passes on is a
    message of the request or a stub with the role of the message it
    replaces.  The model, the system prompt and the headers are not
    touched. *)
Theorem guard_passes_on_a_subsequence (E : Env) (cfg : Config) (data : Data) :
  let out := fst (_apply_context_exhaustion_protection E cfg data) in
  sublist (messages out) (p1_messages (pass1 E cfg (messages data)))
  /\ Forall2 (pass1_rewrites cfg) (messages data) (p1_messages (pass1 E cfg (messages data)))
  /\ (length (messages out) <= length (messages data))%nat
  /\ model out = model data
  /\ system out = system data
  /\ headers out = headers data.
Proof.
  cbv zeta.
  destruct (pass1_fold_spec E cfg (messages data)
              {| p1_messages := []; p1_total := ENFORCEMENT_OVERHEAD_TOKENS cfg;
                 p1_duplicates := 0; p1_large_blocks := 0; p1_seen := ∅ |})
    as (o & H1 & _ & H3 & _).
  fold (pass1 E cfg (messages data)) in H1. cbn [p1_messages app] in H1.
  pose proof (pass2_sublist cfg (p1_messages (pass1 E cfg (messages data)))
                (p1_total (pass1 E cfg (messages data)))) as Hsub.
  unfold _apply_context_exhaustion_protection.
  destruct (pass2 cfg _ _) as [[kept total'] removal]. cbn [fst] in Hsub.
  destruct (CONTEXT_HARD_LIMIT_TOKENS cfg <? total'); cbn [fst];
    (split; [exact Hsub|]; split; [rewrite H1; exact H3|];
     split; [cbn; apply sublist_length in Hsub; rewrite Hsub, H1;
             apply Forall2_length in H3; lia|];
     repeat split; reflexivity).
Qed.

(** ** The user message *)

Lemma extract_user_message_rev_skip (l r : list Message) :
  Forall (fun m => role m <> "user") l ->
  extract_user_message_rev (l ++ r) = extract_user_message_rev r.
Proof.
  induction 1 as [|m l Hm _ IH]; [reflexivity|].
  cbn [app extract_user_message_rev].
  destruct (String.eqb_spec (role m) "user"); [contradiction|exact IH].
Qed.

Lemma user_message_for_key_rev_skip (l r : list Message) :
  Forall (fun m => role m <> "user") l ->
  user_message_for_key_rev (l ++ r) = user_message_for_key_rev r.
Proof.
  induction 1 as [|m l Hm _ IH]; [reflexivity|].
  cbn [app user_message_for_key_rev].
  destruct (String.eqb_spec (role m) "user"); [contradiction|exact IH].
Qed.

(** The last user message splits the list: no user message after it. *)
Lemma last_user_message_split (msgs : list Message) j m :
  last_user_message msgs j m ->
  exists pre post, msgs = (pre ++ m :: post)%list
                   /\ Forall (fun x => role x <> "user") post.
Proof.
  intros (Hj & _ & Hafter).
  exists (take j msgs), (drop (S j) msgs). split.
  - symmetry. apply take_drop_middle. exact Hj.
  - apply Forall_lookup. intros i x Hx. rewrite lookup_drop in Hx.
    apply (Hafter (S j + i)%nat x); [lia|exact Hx].
Qed.

(** X14. The text the hook classifies is the content of the last
    message whose role is [user], the message the trimming pass never
    removes: a string content is returned as it is, a list of blocks
    gives its text parts joined by one space, or nothing when it has no
    text part.  A request without a user message has no user message
    text.  For a string content the text behind the key of the metadata
    cache is the same text. *)
Theorem extract_user_message_reads_last_user_message (data : Data) :
  (forall j m, last_user_message (messages data) j m ->
     (forall s, content m = ContentStr s ->
        extract_user_message data = Some s
        /\ user_message_for_key_rev (rev (messages data)) = Some s)
     /\ (forall blocks, content m = ContentList blocks ->
           extract_user_message data
             = if bool_decide (text_parts blocks = []) then None
               else Some (Str.join " " (text_parts blocks))))
  /\ (Forall (fun m => role m <> "user") (messages data) ->
      extract_user_message data = None).
Proof.
  unfold extract_user_message. split.
  - intros j m Hlast.
    destruct (last_user_message_split _ _ _ Hlast) as (pre & post & Hsplit & Hpost).
    destruct Hlast as (_ & Hrole & _).
    assert (Hrev : Forall (fun x => role x <> "user") (rev post)).
    { apply Forall_forall. intros x Hx. rewrite list_elem_of_In in Hx.
      apply in_rev in Hx. rewrite Forall_forall in Hpost. apply Hpost.
      apply list_elem_of_In. exact Hx. }
    rewrite Hsplit, rev_app_distr. cbn [rev]. rewrite <- app_assoc. cbn [app].
    rewrite extract_user_message_rev_skip by exact Hrev.
    rewrite user_message_for_key_rev_skip by exact Hrev.
    cbn [extract_user_message_rev user_message_for_key_rev].
    rewrite Hrole. cbn [String.eqb Ascii.eqb Bool.eqb].
    split.
    + intros s Hs. rewrite Hs. split; reflexivity.
    + intros blocks Hb. rewrite Hb. destruct (text_parts blocks); reflexivity.
  - intros Hnone.
    assert (Hrev : Forall (fun x => role x <> "user") (rev (messages data))).
    { apply Forall_forall. intros x Hx. rewrite list_elem_of_In in Hx.
      apply in_rev in Hx. rewrite Forall_forall in Hnone. apply Hnone.
      apply list_elem_of_In. exact Hx. }
    rewrite <- (app_nil_r (rev (messages data))).
    rewrite extract_user_message_rev_skip by exact Hrev. reflexivity.
Qed.

Lemma extract_user_message_reads_last_user_message_witness :
  extract_user_message (request ∅ ∅ sample_conversation) = Some "hello!".
Proof.
  refine (proj1 (proj1 (proj1 (extract_user_message_reads_last_user_message
                                 (request ∅ ∅ sample_conversation))
                          4%nat (text_message "user" "hello!") _) "hello!" _)).
  - unfold last_user_message. split; [reflexivity|]. split; [reflexivity|].
    intros k m' Hk Hm'.
    do 5 (destruct k as [|k]; [lia|]). discriminate Hm'.
  - reflexivity.
Defined.

(** ** Sessions *)

Module SplitFacts.

Lemma append_nil (s : string) : "" ++ s = s.
Proof. reflexivity. Qed.

Lemma append_cons (c : ascii) (a b : string) : String c a ++ b = String c (a ++ b).
Proof. reflexivity. Qed.

Lemma prefix_decompose (sep s : string) :
  String.prefix sep s = true ->
  s = sep ++ String.substring (String.length sep) (String.length s - String.length sep) s.
Proof.
  revert s. induction sep as [|c sep IH]; intros s H.
  - rewrite append_nil. cbn [String.length]. rewrite Nat.sub_0_r.
    clear H. induction s as [|d s IHs]; [reflexivity|].
    cbn [String.length substring]. f_equal. exact IHs.
  - destruct s as [|d s]; [discriminate|].
    cbn [String.prefix] in H.
    destruct (Ascii.ascii_dec c d) as [->|]; [|discriminate].
    rewrite append_cons. cbn [String.length substring Nat.sub]. f_equal. apply IH. exact H.
Qed.

Lemma split_once_sound (sep s a b : string) :
  Str.split_once sep s = Some (a, b) -> s = a ++ sep ++ b.
Proof.
  revert a b. induction s as [|c s IH]; intros a b H.
  - cbn [Str.split_once] in H.
    destruct (String.prefix sep "") eqn:Hp; [|discriminate].
    injection H as <- <-. rewrite append_nil. apply (prefix_decompose sep ""). exact Hp.
  - cbn [Str.split_once] in H.
    destruct (String.prefix sep (String c s)) eqn:Hp.
    + injection H as <- <-. rewrite append_nil. apply prefix_decompose. exact Hp.
    + destruct (Str.split_once sep s) as [[a' b']|] eqn:Hs; [|discriminate].
      injection H as <- <-. rewrite append_cons. f_equal. apply IH. reflexivity.
Qed.

Lemma split_once_first (sep s a b : string) :
  Str.split_once sep s = Some (a, b) ->
  forall a' b', s = a' ++ sep ++ b' -> (String.length a <= String.length a')%nat.
Proof.
  revert a b. induction s as [|c s IH]; intros a b H a' b' Heq.
  - cbn [Str.split_once] in H.
    destruct (String.prefix sep ""); [|discriminate].
    injection H as <- <-. cbn [String.length]. lia.
  - cbn [Str.split_once] in H.
    destruct (String.prefix sep (String c s)) eqn:Hp.
    + injection H as <- <-. cbn [String.length]. lia.
    + destruct (Str.split_once sep s) as [[a0 b0]|] eqn:Hs; [|discriminate].
      injection H as <- <-.
      destruct a' as [|d a'].
      * rewrite append_nil in Heq. rewrite Heq, prefix_app in Hp. discriminate.
      * rewrite append_cons in Heq. injection Heq as -> Heq.
        cbn [String.length]. apply le_n_S. eapply IH; [reflexivity|exact Heq].
Qed.

Lemma split_once_none (sep s : string) :
  Str.split_once sep s = None ->
  forall a' b', s <> a' ++ sep ++ b'.
Proof.
  induction s as [|c s IH]; intros H a' b' Heq.
  - cbn [Str.split_once] in H.
    destruct (String.prefix sep "") eqn:Hp; [discriminate|].
    destruct a' as [|d a']; [|discriminate].
    rewrite append_nil in Heq. rewrite Heq, prefix_app in Hp. discriminate.
  - cbn [Str.split_once] in H.
    destruct (String.prefix sep (String c s)) eqn:Hp; [discriminate|].
    destruct (Str.split_once sep s) as [[a0 b0]|] eqn:Hs; [discriminate|].
    destruct a' as [|d a'].
    + rewrite append_nil in Heq. rewrite Heq, prefix_app in Hp. discriminate.
    + rewrite append_cons in Heq. injection Heq as -> Heq.
      exact (IH eq_refl a' b' Heq).
Qed.

End SplitFacts.

(** X15. The session id of a request is what follows the first
    occurrence of [account__session_] in the metadata's [user_id]; a
    request without a [user_id], or whose [user_id] is a text that
    does not hold the marker, has no session id. *)
Theorem session_id_follows_first_marker (md : gmap string mval) :
  (forall sid, _extract_session_id md = Some sid ->
     exists user_id before,
       md !! "user_id" = Some (VStr user_id)
       /\ user_id = before ++ "account__session_" ++ sid
       /\ forall before' sid', user_id = before' ++ "account__session_" ++ sid' ->
            (String.length before <= String.length before')%nat)
  /\ (md !! "user_id" = None -> _extract_session_id md = None)
  /\ (forall user_id, md !! "user_id" = Some (VStr user_id) ->
        (_extract_session_id md = None
         <-> forall before sid, user_id <> before ++ "account__session_" ++ sid)).
Proof.
  unfold _extract_session_id, get_str. split; [|split].
  - intros sid H. destruct (md !! "user_id") as [[uid|n|b]|]; try discriminate.
    destruct (Str.split_once "account__session_" uid) as [[a b]|] eqn:Hs; [|discriminate].
    injection H as ->. exists uid, a. split; [reflexivity|]. split.
    + apply SplitFacts.split_once_sound. exact Hs.
    + apply (SplitFacts.split_once_first _ _ _ _ Hs).
  - intros ->. reflexivity.
  - intros uid ->.
    destruct (Str.split_once "account__session_" uid) as [[a b]|] eqn:Hs.
    + split; [discriminate|]. intros Hno. exfalso. apply (Hno a b).
      apply SplitFacts.split_once_sound. exact Hs.
    + split; [|reflexivity]. intros _. apply SplitFacts.split_once_none. exact Hs.
Qed.

Lemma session_id_follows_first_marker_witness :
  exists user_id before,
    session_metadata !! "user_id" = Some (VStr user_id)
    /\ user_id = before ++ "account__session_" ++ "s1"
    /\ forall before' sid', user_id = before' ++ "account__session_" ++ sid' ->
         (String.length before <= String.length before')%nat.
Proof.
  apply (proj1 (session_id_follows_first_marker session_metadata) "s1").
  reflexivity.
Defined.




(** ** Repository context *)

(** A source applied without [override] leaves a repository name or
    root that is already there. *)
Lemma apply_repo_context_keeps repo repo_root md k v :
  k = "repo" \/ k = "repo_root" ->
  get_str md k = Some v -> Str.nonempty v = true ->
  get_str (fst (apply_repo_context repo repo_root false md)) k = Some v.
Proof.
  intros Hk Hv Hne. unfold apply_repo_context.
  destruct (negb (truthy_str repo) && negb (truthy_str repo_root))%bool; [exact Hv|].
  destruct Hk as [-> | ->].
  - rewrite Hv. cbn [truthy_str]. rewrite Hne. cbn [orb negb]. rewrite andb_false_r.
    destruct (truthy_str repo_root && _)%bool; cbn [fst]; [|exact Hv].
    unfold get_str. rewrite lookup_insert_ne by discriminate. exact Hv.
  - destruct (truthy_str repo && _)%bool.
    + assert (Hv' : get_str (<["repo" := VStr (default "" repo)]> md) "repo_root" = Some v).
      { unfold get_str. rewrite lookup_insert_ne by discriminate. exact Hv. }
      rewrite Hv'. cbn [truthy_str]. rewrite Hne. cbn [orb negb]. rewrite andb_false_r.
      cbn [fst]. exact Hv'.
    + rewrite Hv. cbn [truthy_str]. rewrite Hne. cbn [orb negb]. rewrite andb_false_r.
      cbn [fst]. exact Hv.
Qed.

(** The header source, applied with [override]. *)
Lemma apply_repo_context_override_repo h repo_root md :
  Str.nonempty h = true ->
  get_str (fst (apply_repo_context (Some h) repo_root true md)) "repo" = Some h.
Proof.
  intros Hne. unfold apply_repo_context. cbn [truthy_str]. rewrite Hne.
  cbn [negb andb orb default from_option id].
  destruct (truthy_str repo_root); cbn [andb fst]; unfold get_str.
  - rewrite lookup_insert_ne by discriminate. rewrite lookup_insert_eq. reflexivity.
  - rewrite lookup_insert_eq. reflexivity.
Qed.

Lemma apply_repo_context_override_root repo h md :
  Str.nonempty h = true ->
  get_str (fst (apply_repo_context repo (Some h) true md)) "repo_root" = Some h.
Proof.
  intros Hne. unfold apply_repo_context. cbn [truthy_str]. rewrite Hne.
  cbn [negb andb orb default from_option id]. rewrite andb_false_r.
  destruct (truthy_str repo && true)%bool; cbn [fst]; unfold get_str;
    rewrite lookup_insert_eq; reflexivity.
Qed.

(** A header that is missing or empty leaves its key as it is. *)
Lemma apply_repo_context_absent_repo repo repo_root override md :
  truthy_str repo = false ->
  get_str (fst (apply_repo_context repo repo_root override md)) "repo" = get_str md "repo".
Proof.
  intros Hf. unfold apply_repo_context. rewrite Hf. cbn [negb andb].
  destruct (truthy_str repo_root); cbn [negb andb]; [|reflexivity].
  destruct (override || _)%bool; cbn [fst]; [|reflexivity].
  unfold get_str. rewrite lookup_insert_ne by discriminate. reflexivity.
Qed.

Lemma apply_repo_context_absent_root repo repo_root override md :
  truthy_str repo_root = false ->
  get_str (fst (apply_repo_context repo repo_root override md)) "repo_root"
  = get_str md "repo_root".
Proof.
  intros Hf. unfold apply_repo_context. rewrite Hf. rewrite andb_true_r.
  destruct (negb (truthy_str repo)); [reflexivity|].
  destruct (truthy_str repo && _)%bool.
  - cbn [andb fst]. unfold get_str. rewrite lookup_insert_ne by discriminate. reflexivity.
  - cbn [andb fst]. reflexivity.
Qed.

Lemma get_str_union_l (m1 m2 : gmap string mval) k v :
  get_str m1 k = Some v -> get_str (m1 ∪ m2) k = Some v.
Proof.
  unfold get_str. destruct (m1 !! k) as [x|] eqn:Hx; [|discriminate].
  intros H. rewrite (lookup_union_Some_l m1 m2 k x Hx). exact H.
Qed.

(** The request metadata, as the sources of lower priority find it. *)
Lemma merged_metadata_get_str cfg (d : Data) rid k v :
  k = "repo" \/ k = "repo_root" ->
  get_str (metadata d) k = Some v ->
  get_str (setdefault "router_build_id" (VStr (ROUTER_BUILD_ID cfg))
             (<["request_id" := rid]> (metadata d)) ∪ litellm_metadata d) k = Some v.
Proof.
  intros Hk Hv. apply get_str_union_l. unfold setdefault.
  destruct (_ !! "router_build_id").
  - unfold get_str. rewrite lookup_insert_ne by (destruct Hk as [-> | ->]; discriminate).
    exact Hv.
  - unfold get_str.
    rewrite lookup_insert_ne by (destruct Hk as [-> | ->]; discriminate).
    rewrite lookup_insert_ne by (destruct Hk as [-> | ->]; discriminate).
    exact Hv.
Qed.

Lemma resolve_request_id (E : Env) (cfg : Config) (w : World) (d : Data) :
  rs_request_id (resolve_request_context E cfg w d)
  = match metadata d !! "request_id" with
    | Some v => if truthy v then v else VStr (Str.take 12 (uuid4_hex E))
    | None => VStr (Str.take 12 (uuid4_hex E))
    end.
Proof.
  unfold resolve_request_context.
  destruct (_get_session_repo_context E _ w) as [[info|] w1]; [reflexivity|].
  destruct (truthy_str _); [|reflexivity].
  destruct (_load_repo_context_from_session_file E cfg _ w1) as [[[r rr]|] w2];
    [|reflexivity].
  destruct (apply_repo_context (Some r) (Some rr) false _); reflexivity.
Qed.

(** Once the headers and the metadata have been applied, no later
    source replaces a repository name or root. *)
Lemma lower_sources_keep (E : Env) (cfg : Config) (w : World) (d : Data) k v :
  k = "repo" \/ k = "repo_root" ->
  Str.nonempty v = true ->
  get_str
    (fst (apply_repo_context (headers d !! "x-litellm-repo")
            (headers d !! "x-litellm-repo-root") true
            (setdefault "router_build_id" (VStr (ROUTER_BUILD_ID cfg))
               (<["request_id" := rs_request_id (resolve_request_context E cfg w d)]>
                  (metadata d)) ∪ litellm_metadata d))) k = Some v ->
  get_str (metadata (rs_data (resolve_request_context E cfg w d))) k = Some v.
Proof.
  intros Hk Hne H2.
  rewrite resolve_request_id in H2.
  unfold resolve_request_context.
  set (rid := match metadata d !! "request_id" with Some _ => _ | None => _ end) in *.
  set (md1 := (setdefault "router_build_id" _ _) ∪ litellm_metadata d) in *.
  set (md2 := fst (apply_repo_context _ _ true md1)) in *.
  set (md3 := fst (apply_repo_context _ _ false md2)).
  assert (H3 : get_str md3 k = Some v) by (apply apply_repo_context_keeps; assumption).
  set (md4 := match CLAUDE_METADATA E with Some _ => _ | None => md3 end).
  assert (H4 : get_str md4 k = Some v).
  { subst md4. destruct (CLAUDE_METADATA E) as [cm|]; [|exact H3].
    apply apply_repo_context_keeps; [assumption| |assumption].
    apply get_str_union_l. exact H3. }
  set (md5 := match extract_repo_context_from_system d with Some _ => _ | None => md4 end).
  assert (H5 : get_str md5 k = Some v).
  { subst md5. destruct (extract_repo_context_from_system d) as [[r rr]|]; [|exact H4].
    apply apply_repo_context_keeps; assumption. }
  destruct (_get_session_repo_context E (_extract_session_id md5) w) as [ctx w1].
  destruct ctx as [info|].
  - cbn [rs_data metadata set_metadata]. apply apply_repo_context_keeps; assumption.
  - destruct (truthy_str (_extract_session_id md5)); [|exact H5].
    destruct (_load_repo_context_from_session_file E cfg (_extract_session_id md5) w1)
      as [[[r rr]|] w2]; [|exact H5].
    pose proof (apply_repo_context_keeps (Some r) (Some rr) md5 k v Hk H5 Hne) as H6.
    destruct (apply_repo_context (Some r) (Some rr) false md5) as [md6 applied].
    cbn [rs_data metadata set_metadata]. exact H6.
Qed.

(** X17. The repository context of a request is taken from the source
    of highest priority that gives one: a non-empty [x-litellm-repo]
    (or [x-litellm-repo-root]) header decides the repository name (or
    root); without such a header, a non-empty name (or root) in the
    request metadata is kept, whatever CLAUDE_METADATA, the system
    prompt marker, the session cache and the session file say. *)
Theorem repo_context_precedence (E : Env) (cfg : Config) (w : World) (d : Data) :
  let md' := metadata (rs_data (resolve_request_context E cfg w d)) in
  (forall h, headers d !! "x-litellm-repo" = Some h -> Str.nonempty h = true ->
     get_str md' "repo" = Some h)
  /\ (forall h, headers d !! "x-litellm-repo-root" = Some h -> Str.nonempty h = true ->
        get_str md' "repo_root" = Some h)
  /\ (forall v, truthy_str (headers d !! "x-litellm-repo") = false ->
        get_str (metadata d) "repo" = Some v -> Str.nonempty v = true ->
        get_str md' "repo" = Some v)
  /\ (forall v, truthy_str (headers d !! "x-litellm-repo-root") = false ->
        get_str (metadata d) "repo_root" = Some v -> Str.nonempty v = true ->
        get_str md' "repo_root" = Some v).
Proof.
  cbv zeta. split; [|split; [|split]].
  - intros h Hh Hne. apply lower_sources_keep; [left; reflexivity|exact Hne|].
    rewrite Hh. apply apply_repo_context_override_repo. exact Hne.
  - intros h Hh Hne. apply lower_sources_keep; [right; reflexivity|exact Hne|].
    rewrite Hh. apply apply_repo_context_override_root. exact Hne.
  - intros v Hh Hv Hne. apply lower_sources_keep; [left; reflexivity|exact Hne|].
    rewrite apply_repo_context_absent_repo by exact Hh.
    apply merged_metadata_get_str; [left; reflexivity|exact Hv].
  - intros v Hh Hv Hne. apply lower_sources_keep; [right; reflexivity|exact Hne|].
    rewrite apply_repo_context_absent_root by exact Hh.
    apply merged_metadata_get_str; [right; reflexivity|exact Hv].
Qed.

Lemma repo_context_precedence_witness :
  get_str (metadata (rs_data (resolve_request_context sample_env small_config empty_world
                                (request (<["repo" := VStr "other"]> ∅) scoped_headers [])))) "repo"
  = Some "acme".
Proof.
  apply (proj1 (repo_context_precedence sample_env small_config empty_world
                  (request (<["repo" := VStr "other"]> ∅) scoped_headers []))).
  - reflexivity.
  - reflexivity.
Defined.

(** The registry after [get_repo_root_from_request], whatever the
    bearer token does to the request. *)
Lemma get_repo_root_registry E d w :
  let out := get_repo_root_from_request E d w in
  let md := if bool_decide (metadata d = ∅) then litellm_metadata d else metadata d in
  snd out = (if truthy_str (get_str md "repo_root")
             then resolved_root E (default "" (get_str md "repo_root")) else None)
  /\ (_repo_registry (snd (fst out)) = _repo_registry w
      \/ exists name,
           truthy_str (get_str md "repo_root") = true
           /\ resolve_raises E (default "" (get_str md "repo_root")) = false
           /\ path_exists E (resolve_path E (default "" (get_str md "repo_root"))) = true
           /\ _repo_registry (snd (fst out))
              = <[name := resolve_path E (default "" (get_str md "repo_root"))]>
                  (_repo_registry w)).
Proof.
  cbv zeta. unfold get_repo_root_from_request.
  set (md := if bool_decide (metadata d = ∅) then litellm_metadata d else metadata d).
  set (auth := match headers d !! "authorization" with
               | Some h => if Str.nonempty h then Some h else headers d !! "Authorization"
               | None => headers d !! "Authorization"
               end).
  set (step := match auth with Some h => _ | None => _ end).
  destruct step as [d1 repo_name].
  destruct (truthy_str repo_name) eqn:Hn; destruct (truthy_str (get_str md "repo_root")) eqn:Hr;
    cbn [andb fst snd]; (split; [reflexivity|]); try (left; reflexivity).
  unfold register. destruct (resolve_raises E _) eqn:Hraise; [left; reflexivity|].
  destruct (path_exists E _) eqn:Hp.
  - right. eexists. split; [reflexivity|]. split; [reflexivity|]. split; reflexivity.
  - left. reflexivity.
Qed.

(** X18. The repository root of a request is the resolved [repo_root]
    of its metadata whenever that is non-empty and can be resolved,
    whether the path exists or not; when resolving it raises, the
    request has no root and the registry is as it was.  The registry
    changes by one entry at most, and only to record that resolved
    root under a repository name when the path exists: if every
    registered path exists before the call, every registered path
    exists after it.  Without an authorization header, a request with
    a repository name and an existing root is registered under that
    name. *)
Theorem registry_holds_existing_paths (E : Env) (d : Data) (w : World) :
  let out := get_repo_root_from_request E d w in
  let md := if bool_decide (metadata d = ∅) then litellm_metadata d else metadata d in
  (forall root, get_str md "repo_root" = Some root -> Str.nonempty root = true ->
     resolve_raises E root = false -> snd out = Some (resolve_path E root))
  /\ (forall root, get_str md "repo_root" = Some root -> resolve_raises E root = true ->
        snd out = None /\ _repo_registry (snd (fst out)) = _repo_registry w)
  /\ (truthy_str (get_str md "repo_root") = false -> snd out = None)
  /\ ((forall name p, _repo_registry w !! name = Some p -> path_exists E p = true) ->
      forall name p, _repo_registry (snd (fst out)) !! name = Some p ->
        path_exists E p = true)
  /\ (forall name p, _repo_registry (snd (fst out)) !! name = Some p ->
        _repo_registry w !! name = Some p \/ snd out = Some p)
  /\ (forall repo root,
        headers d !! "authorization" = None -> headers d !! "Authorization" = None ->
        get_str md "repo" = Some repo -> Str.nonempty repo = true ->
        get_str md "repo_root" = Some root -> Str.nonempty root = true ->
        resolve_raises E root = false ->
        path_exists E (resolve_path E root) = true ->
        _repo_registry (snd (fst out)) !! repo = Some (resolve_path E root)).
Proof.
  cbv zeta.
  destruct (get_repo_root_registry E d w) as [Hout Hreg]. cbv zeta in Hout, Hreg.
  split; [|split; [|split; [|split; [|split]]]].
  - intros root Hroot Hne Hres. rewrite Hout, Hroot. cbn [truthy_str]. rewrite Hne.
    unfold resolved_root. cbn [default from_option id]. rewrite Hres. reflexivity.
  - intros root Hroot Hres. split.
    + rewrite Hout, Hroot. cbn [truthy_str]. destruct (Str.nonempty root); [|reflexivity].
      unfold resolved_root. cbn [default from_option id]. rewrite Hres. reflexivity.
    + destruct Hreg as [Heq|(n & _ & Hr & _)]; [exact Heq|].
      rewrite Hroot in Hr. cbn [default from_option id] in Hr. congruence.
  - intros Hf. rewrite Hout, Hf. reflexivity.
  - intros Hinv name p Hl. destruct Hreg as [Heq|(n & Ht & Hr & Hp & Heq)].
    + rewrite Heq in Hl. eapply Hinv. exact Hl.
    + rewrite Heq in Hl. destruct (decide (n = name)) as [->|Hne].
      * rewrite lookup_insert_eq in Hl. injection Hl as <-. exact Hp.
      * rewrite lookup_insert_ne in Hl by exact Hne. eapply Hinv. exact Hl.
  - intros name p Hl. destruct Hreg as [Heq|(n & Ht & Hr & Hp & Heq)].
    + left. rewrite <- Heq. exact Hl.
    + rewrite Heq in Hl. destruct (decide (n = name)) as [->|Hne].
      * rewrite lookup_insert_eq in Hl. injection Hl as <-. right.
        rewrite Hout, Ht. unfold resolved_root. rewrite Hr. reflexivity.
      * rewrite lookup_insert_ne in Hl by exact Hne. left. exact Hl.
  - intros repo root Ha1 Ha2 Hrepo Hne Hroot Hne' Hres Hp.
    unfold get_repo_root_from_request. rewrite Ha1, Ha2, Hrepo, Hroot.
    cbn [truthy_str]. rewrite Hne, Hne'. cbn [andb fst snd default from_option id].
    unfold register. rewrite Hres, Hp. cbn [_repo_registry set_registry].
    apply lookup_insert_eq.
Qed.

Lemma registry_holds_existing_paths_witness :
  snd (get_repo_root_from_request sample_env
         (request (<["repo_root" := VStr "/repo"]> ∅) ∅ []) empty_world)
  = Some (resolve_path sample_env "/repo")
  /\ snd (get_repo_root_from_request unresolved_env
            (request (<["repo_root" := VStr "~nosuchuser/x"]> ∅) ∅ []) empty_world)
     = None.
Proof.
  split.
  - apply (proj1 (registry_holds_existing_paths sample_env
                    (request (<["repo_root" := VStr "/repo"]> ∅) ∅ []) empty_world)
             "/repo"); reflexivity.
  - apply (proj1 (proj2 (registry_holds_existing_paths unresolved_env
                           (request (<["repo_root" := VStr "~nosuchuser/x"]> ∅) ∅ [])
                           empty_world)) "~nosuchuser/x"); reflexivity.
Defined.

(** ** Policy contract *)

Lemma substring_length_le (n m : nat) (s : string) :
  (String.length (String.substring n m s) <= m)%nat.
Proof.
  revert n m. induction s as [|c s IH]; intros n m.
  - destruct n, m; cbn [substring String.length]; lia.
  - destruct n as [|n].
    + destruct m as [|m]; cbn [substring String.length]; [lia|].
      specialize (IH 0%nat m). lia.
    + cbn [substring]. apply IH.
Qed.

(** X19. A policy contract is loaded once per repository root: the
    first request reads README.md and AGENTS.md and stores the
    contract, and every later request for that root is answered from
    the store, whatever the files hold by then.  Contracts of other
    roots are not touched, and a contract hash has sixteen characters
    at most. *)
Theorem policy_contract_is_loaded_once (E : Env) (repo_root : option string) (w : World) :
  let out := get_policy_contract E repo_root w in
  let key := default "__default__" repo_root in
  (forall E', get_policy_contract E' repo_root (snd out) = (fst out, snd out))
  /\ (policy_contract_cache w !! key = None -> fst out = load_policy_contract E repo_root)
  /\ (forall c, policy_contract_cache w !! key = Some c -> out = (c, w))
  /\ (forall k, k <> key ->
        policy_contract_cache (snd out) !! k = policy_contract_cache w !! k)
  /\ (String.length (hash (load_policy_contract E repo_root)) <= 16)%nat.
Proof.
  cbv zeta. unfold get_policy_contract.
  destruct (policy_contract_cache w !! default "__default__" repo_root) as [c|] eqn:Hc.
  - cbn [fst snd]. split; [intros E'; rewrite Hc; reflexivity|].
    split; [discriminate|]. split; [intros c' [= <-]; reflexivity|].
    split; [reflexivity|].
    unfold load_policy_contract. destruct repo_root; cbn [hash String.length]; [|lia].
    apply substring_length_le.
  - cbn [fst snd]. split.
    { intros E'. cbn [policy_contract_cache set_policy_cache].
      rewrite lookup_insert_eq. reflexivity. }
    split; [reflexivity|]. split; [discriminate|].
    split.
    { intros k Hk. cbn [policy_contract_cache set_policy_cache].
      apply lookup_insert_ne. congruence. }
    unfold load_policy_contract. destruct repo_root; cbn [hash String.length]; [|lia].
    apply substring_length_le.
Qed.

Lemma policy_contract_is_loaded_once_witness :
  fst (get_policy_contract sample_env (Some "/repo") empty_world)
  = load_policy_contract sample_env (Some "/repo").
Proof.
  apply (proj1 (proj2 (policy_contract_is_loaded_once sample_env (Some "/repo") empty_world))).
  reflexivity.
Defined.

(** ** Enforcement and routing *)

Lemma filter_length_eq {A} (f : A -> bool) (l : list A) :
  length (List.filter f l) = length l -> List.filter f l = l.
Proof.
  induction l as [|x l IH]; [reflexivity|].
  cbn [List.filter]. destruct (f x); cbn [length]; intros H.
  - f_equal. apply IH. lia.
  - pose proof (filter_length_le f l). lia.
Qed.

Lemma inject_enforcement_messages p c reminder d :
  Str.nonempty (hash c) = true ->
  messages (inject_enforcement (Some p) (Some c) reminder d)
  = List.filter (fun msg => negb (String.eqb (role msg) "system")) (messages d).
Proof.
  intros Hh. unfold inject_enforcement. rewrite Hh.
  destruct (Nat.eqb_spec
              (length (List.filter (fun msg => negb (String.eqb (role msg) "system"))
                         (messages d)))
              (length (messages d))) as [Heq|Hne]; cbn [negb].
  - apply filter_length_eq in Heq. rewrite Heq.
    destruct (truthy_str (system d)); reflexivity.
  - destruct (truthy_str (system (set_messages _ d))); reflexivity.
Qed.

Lemma inject_enforcement_no_root contract reminder d :
  inject_enforcement None contract reminder d = d.
Proof. reflexivity. Qed.

(** X20. A request that reaches the injection of the enforcement
    message under a contract with a hash leaves the hook without any
    [role=system] message: its messages are the messages that left the
    context guard, less the system messages, in the same order.  A
    request without a repository root keeps the messages that left the
    guard, and so does one whose repository root cannot be
    resolved. *)
Theorem enforced_request_has_no_system_messages (E : Env) (cfg : Config) (w : World)
    (data : Data) (call_type : string) :
  let d := rs_data (resolve_request_context E cfg w data) in
  let g := fst (_apply_context_exhaustion_protection E cfg d) in
  let md_root := get_str (metadata d) "repo_root" in
  let contract := fst (get_policy_contract E (Some (resolve_path E (default "" md_root))) w) in
  passes_gates E cfg d call_type = true ->
  not_refused md_root (extract_user_message g) ->
  let out := async_pre_call_hook E cfg w data call_type in
  (truthy_str md_root = true -> resolve_raises E (default "" md_root) = false ->
   Str.nonempty (hash contract) = true ->
     messages (snd out)
     = List.filter (fun msg => negb (String.eqb (role msg) "system")) (messages g)
     /\ Forall (fun msg => role msg <> "system") (messages (snd out)))
  /\ (truthy_str md_root = false -> messages (snd out) = messages g)
  /\ (resolve_raises E (default "" md_root) = true -> messages (snd out) = messages g).
Proof.
  cbv zeta. intros Hgates Hnr.
  pose proof (hook_routes E cfg w data call_type) as H. cbv zeta in H.
  destruct (H Hgates Hnr)
    as (w' & d' & Heq & Wo & Wc & Wr & Wt & Dm & Ds & Dmsg & Dr & Da & Dsid).
  rewrite Heq. clear H Heq.
  match goal with
  | |- context [route_request E cfg w' d' ?root ?contract ?um ?rid ?lr ?la] =>
      pose proof (route_request_spec E cfg w' d' root contract um rid lr la) as S
  end.
  cbv zeta in S. destruct S as (_ & _ & Smsg & _).
  rewrite Smsg. clear Smsg.
  split; [|split].
  - intros Hroot Hres Hhash. rewrite Hroot. unfold resolved_root. rewrite Hres.
    rewrite inject_enforcement_messages by exact Hhash.
    rewrite Dmsg. split; [reflexivity|].
    apply Forall_forall. intros m Hm. apply list_elem_of_In, filter_In in Hm as [_ Hm].
    apply negb_true_iff in Hm. intros Hr. rewrite Hr in Hm. discriminate.
  - intros Hroot. rewrite Hroot. rewrite inject_enforcement_no_root. exact Dmsg.
  - intros Hres. unfold resolved_root. rewrite Hres.
    destruct (truthy_str _); rewrite inject_enforcement_no_root; exact Dmsg.
Qed.

Lemma enforced_request_has_no_system_messages_witness :
  messages (snd (async_pre_call_hook sample_env default_config empty_world
                   (request ∅ scoped_headers
                      [text_message "system" "be brief"; text_message "user" "Hello!"])
                   "completion"))
  = [text_message "user" "Hello!"].
Proof.
  assert (Hg : passes_gates sample_env default_config
                 (rs_data (resolve_request_context sample_env default_config empty_world
                             (request ∅ scoped_headers
                                [text_message "system" "be brief";
                                 text_message "user" "Hello!"])))
                 "completion" = true)
    by (vm_compute; reflexivity).
  pose proof (enforced_request_has_no_system_messages sample_env default_config empty_world
                (request ∅ scoped_headers
                   [text_message "system" "be brief"; text_message "user" "Hello!"])
                "completion" Hg) as H.
  cbv zeta in H.
  assert (Hnr : not_refused
                  (get_str
                     (metadata
                        (rs_data (resolve_request_context sample_env default_config
                                    empty_world
                                    (request ∅ scoped_headers
                                       [text_message "system" "be brief";
                                        text_message "user" "Hello!"]))))
                     "repo_root")
                  (extract_user_message
                     (fst (_apply_context_exhaustion_protection sample_env default_config
                             (rs_data (resolve_request_context sample_env default_config
                                         empty_world
                                         (request ∅ scoped_headers
                                            [text_message "system" "be brief";
                                             text_message "user" "Hello!"]))))))).
  { right. intros m Hm. vm_compute in Hm. injection Hm as <-. vm_compute. reflexivity. }
  destruct (H Hnr) as [H1 _].
  assert (Hr : truthy_str
                 (get_str
                    (metadata
                       (rs_data (resolve_request_context sample_env default_config
                                   empty_world
                                   (request ∅ scoped_headers
                                      [text_message "system" "be brief";
                                       text_message "user" "Hello!"]))))
                    "repo_root") = true)
    by (vm_compute; reflexivity).
  specialize (H1 Hr eq_refl).
  destruct H1 as [Hm _]; [vm_compute; reflexivity|].
  rewrite Hm. vm_compute. reflexivity.
Defined.

(** X21. Every request the hook routes leaves it with one of the three
    tier models, recorded in the metadata as [routed_to_model]; the
    hook attaches no response to it. *)
Theorem routed_model_is_a_tier_model (E : Env) (cfg : Config) (w : World)
    (data : Data) (call_type : string) :
  let d := rs_data (resolve_request_context E cfg w data) in
  let g := fst (_apply_context_exhaustion_protection E cfg d) in
  passes_gates E cfg d call_type = true ->
  not_refused (get_str (metadata d) "repo_root") (extract_user_message g) ->
  let out := async_pre_call_hook E cfg w data call_type in
  exists tier,
    In tier ["claude-haiku-4-5"; "claude-sonnet-4-5"; "claude-opus-4-5"]
    /\ model (snd out) = Some tier
    /\ metadata (snd out) !! "routed_to_model" = Some (VStr tier)
    /\ response (snd out) = response data.
Proof.
  cbv zeta. intros Hgates Hnr.
  pose proof (hook_routes E cfg w data call_type) as H. cbv zeta in H.
  destruct (H Hgates Hnr)
    as (w' & d' & Heq & Wo & Wc & Wr & Wt & Dm & Ds & Dmsg & Dr & Da & Dsid).
  rewrite Heq. clear H Heq.
  match goal with
  | |- context [route_request E cfg w' d' ?root ?contract ?um ?rid ?lr ?la] =>
      pose proof (route_request_spec E cfg w' d' root contract um rid lr la) as S
  end.
  cbv zeta in S.
  destruct S as (Smodel & _ & _ & Sresp & _ & _ & _ & _ & _ & _ & _ & _ & Srouted & _).
  rewrite Smodel, Srouted, Sresp, Dr.
  match goal with
  | |- context [MODEL_MAP ?c] => generalize c
  end.
  intros c. unfold MODEL_MAP.
  destruct (String.eqb c "SIMPLE");
    [exists "claude-haiku-4-5"; cbn; repeat split; tauto|].
  destruct (String.eqb c "MODERATE");
    [exists "claude-sonnet-4-5"; cbn; repeat split; tauto|].
  destruct (String.eqb c "COMPLEX");
    [exists "claude-opus-4-5"; cbn; repeat split; tauto|].
  exists "claude-haiku-4-5"; cbn; repeat split; tauto.
Qed.

Lemma routed_model_is_a_tier_model_witness :
  exists tier,
    In tier ["claude-haiku-4-5"; "claude-sonnet-4-5"; "claude-opus-4-5"]
    /\ model (snd (async_pre_call_hook sample_env default_config empty_world
                     unscoped_hello "completion")) = Some tier
    /\ metadata (snd (async_pre_call_hook sample_env default_config empty_world
                        unscoped_hello "completion")) !! "routed_to_model"
       = Some (VStr tier)
    /\ response (snd (async_pre_call_hook sample_env default_config empty_world
                        unscoped_hello "completion")) = response unscoped_hello.
Proof.
  apply (routed_model_is_a_tier_model sample_env default_config empty_world
           unscoped_hello "completion").
  - vm_compute. reflexivity.
  - left. vm_compute. reflexivity.
Defined.

(** ** Request capture *)

Lemma py_eq_refl (x : mval) : py_eq x x = true.
Proof.
  destruct x; cbn [py_eq]; [apply String.eqb_refl| |]; apply bool_decide_eq_true; reflexivity.
Qed.

Lemma py_eq_sym (x y : mval) : py_eq x y = py_eq y x.
Proof.
  destruct x, y; cbn [py_eq]; try reflexivity; [apply String.eqb_sym| | | |];
    apply bool_decide_ext; split; congruence.
Qed.

Lemma py_eq_str (s : string) (y : mval) : py_eq (VStr s) y = true <-> y = VStr s.
Proof.
  destruct y; cbn [py_eq]; [|split; discriminate|split; discriminate].
  rewrite String.eqb_eq. split; congruence.
Qed.

Lemma existsb_py_eq_In (x : mval) (l : list mval) :
  existsb (py_eq x) l = true <-> py_in x l.
Proof. apply existsb_exists. Qed.

Lemma py_in_In (x : mval) (l : list mval) : In x l -> py_in x l.
Proof. intros H. exists x. split; [exact H|apply py_eq_refl]. Qed.

Lemma py_in_app (x : mval) (l r : list mval) : py_in x (l ++ r) <-> py_in x l \/ py_in x r.
Proof.
  unfold py_in. split.
  - intros (y & Hy & He). apply in_app_or in Hy as [Hy|Hy]; [left|right]; exists y; auto.
  - intros [(y & Hy & He)|(y & Hy & He)]; exists y; split; auto; apply in_or_app; auto.
Qed.

Lemma py_distinct_snoc (x : mval) (l : list mval) :
  py_distinct l -> ~ py_in x l -> py_distinct (l ++ [x]).
Proof.
  induction l as [|a r IH]; cbn [app py_distinct].
  - intros _ _. split; [|exact I]. intros (y & [] & _).
  - intros [Ha Hr] Hx. split.
    + intros Hin. apply py_in_app in Hin as [Hin|(y & [<-|[]] & He)]; [exact (Ha Hin)|].
      apply Hx. exists a. split; [left; reflexivity|]. rewrite py_eq_sym. exact He.
    + apply IH; [exact Hr|]. intros (y & Hy & He). apply Hx. exists y.
      split; [right; exact Hy|exact He].
Qed.

Lemma capture_history_positive : (1 <= _CAPTURE_HISTORY_SIZE)%nat.
Proof. apply Nat.leb_le. vm_compute. reflexivity. Qed.

(** X22. A request id is captured once: marking an id succeeds exactly
    when it is not in the capture history, the history keeps distinct
    ids and never more than [_CAPTURE_HISTORY_SIZE] of them, and an id
    just marked is refused when marked again, so that a second capture
    of the same request leaves the request and the history as they
    are.  Ids are compared as Python compares them; for an id that is
    a string, being in the history is being one of its elements. *)
Theorem request_is_captured_once (request_id : mval) (data : Data) (w : World) :
  (length (_capture_order w) <= _CAPTURE_HISTORY_SIZE)%nat ->
  let marked := _mark_request_captured request_id w in
  (fst marked = true <-> ~ py_in request_id (_capture_order w))
  /\ (forall s, request_id = VStr s ->
        (fst marked = true <-> ~ In request_id (_capture_order w)))
  /\ (List.NoDup (_capture_order w) -> List.NoDup (_capture_order (snd marked)))
  /\ (py_distinct (_capture_order w) -> py_distinct (_capture_order (snd marked)))
  /\ (length (_capture_order (snd marked)) <= _CAPTURE_HISTORY_SIZE)%nat
  /\ py_in request_id (_capture_order (snd marked))
  /\ (forall s, request_id = VStr s -> In request_id (_capture_order (snd marked)))
  /\ _mark_request_captured request_id (snd marked) = (false, snd marked)
  /\ capture_request_snapshot request_id data (snd marked) = (data, snd marked).
Proof.
  intros Hlen. cbv zeta.
  assert (Hagain : forall w1, py_in request_id (_capture_order w1) ->
            _mark_request_captured request_id w1 = (false, w1)
            /\ capture_request_snapshot request_id data w1 = (data, w1)).
  { intros w1 Hin. apply existsb_py_eq_In in Hin.
    unfold capture_request_snapshot, _mark_request_captured. rewrite Hin.
    split; reflexivity. }
  assert (Hstr : forall s l, request_id = VStr s -> py_in request_id l -> In request_id l).
  { intros s l -> (y & Hy & He). apply py_eq_str in He. subst y. exact Hy. }
  destruct (_mark_request_captured request_id w) as [fresh w'] eqn:Hm.
  unfold _mark_request_captured in Hm. cbn [fst snd].
  destruct (existsb (py_eq request_id) (_capture_order w)) eqn:Hex.
  - apply existsb_py_eq_In in Hex. injection Hm as <- <-.
    split; [split; [discriminate|contradiction]|].
    split.
    { intros s Hs. split; [discriminate|]. intros Hn. contradict Hn. eapply Hstr; eauto. }
    split; [tauto|]. split; [tauto|]. split; [exact Hlen|]. split; [exact Hex|].
    split; [intros s Hs; eapply Hstr; eauto|].
    apply Hagain. exact Hex.
  - assert (Hnotin : ~ py_in request_id (_capture_order w)).
    { intros Hin. apply existsb_py_eq_In in Hin. congruence. }
    assert (Hnotin' : ~ In request_id (_capture_order w)).
    { intros Hin. apply Hnotin, py_in_In. exact Hin. }
    assert (Hnd' : List.NoDup (_capture_order w) ->
                   List.NoDup (_capture_order w ++ [request_id])).
    { intros Hnd. apply NoDup_ListNoDup, NoDup_app.
      split; [apply NoDup_ListNoDup; exact Hnd|].
      split; [|apply NoDup_singleton].
      intros x Hx Hx'. apply list_elem_of_singleton in Hx'. subst x.
      apply list_elem_of_In in Hx. contradiction. }
    assert (Hpd' : py_distinct (_capture_order w) ->
                   py_distinct (_capture_order w ++ [request_id])).
    { intros Hpd. apply py_distinct_snoc; assumption. }
    assert (Hin' : In request_id (_capture_order w ++ [request_id])).
    { apply in_or_app. right. left. reflexivity. }
    assert (Hlen' : length (_capture_order w ++ [request_id]) = S (length (_capture_order w))).
    { rewrite length_app. cbn [length]. lia. }
    pose proof capture_history_positive as Hpos.
    destruct (Nat.ltb_spec _CAPTURE_HISTORY_SIZE (length (_capture_order w ++ [request_id])))
      as [Hbig|Hsmall]; injection Hm as <- <-; cbn [_capture_order set_capture_order].
    + destruct (_capture_order w) as [|x rest] eqn:Horder.
      { cbn [app length] in Hbig. lia. }
      cbn [app tl] in *.
      assert (Hin'' : In request_id (rest ++ [request_id])).
      { apply in_or_app. right. left. reflexivity. }
      split; [split; [intros _; exact Hnotin|reflexivity]|].
      split; [intros s _; split; [intros _; exact Hnotin'|reflexivity]|].
      split; [intros Hnd; specialize (Hnd' Hnd); inversion Hnd'; assumption|].
      split; [intros Hpd; apply (Hpd' Hpd)|].
      split; [cbn [length] in Hlen'; injection Hlen' as Hlen'; rewrite Hlen'; exact Hlen|].
      split; [apply py_in_In; exact Hin''|].
      split; [intros s _; exact Hin''|].
      apply Hagain. cbn [_capture_order set_capture_order]. apply py_in_In. exact Hin''.
    + split; [split; [intros _; exact Hnotin|reflexivity]|].
      split; [intros s _; split; [intros _; exact Hnotin'|reflexivity]|].
      split; [exact Hnd'|]. split; [exact Hpd'|]. split; [exact Hsmall|].
      split; [apply py_in_In; exact Hin'|]. split; [intros s _; exact Hin'|].
      apply Hagain. cbn [_capture_order set_capture_order]. apply py_in_In. exact Hin'.
Qed.

Lemma request_is_captured_once_witness :
  capture_request_snapshot (VStr "r1") unscoped_hello
    (snd (_mark_request_captured (VStr "r1") empty_world))
  = (unscoped_hello, snd (_mark_request_captured (VStr "r1") empty_world))
  /\ fst (_mark_request_captured (VBool true)
            (snd (_mark_request_captured (VInt 1) empty_world))) = false.
Proof.
  split.
  - refine (proj2 (proj2 (proj2 (proj2 (proj2 (proj2 (proj2 (proj2
              (request_is_captured_once (VStr "r1") unscoped_hello empty_world _))))))))).
    cbn [_capture_order empty_world length]. apply Nat.le_0_l.
  - destruct (_mark_request_captured (VBool true)
                (snd (_mark_request_captured (VInt 1) empty_world))) as [fresh w1] eqn:Hm.
    destruct fresh; [|reflexivity].
    pose proof (request_is_captured_once (VBool true) unscoped_hello
                  (snd (_mark_request_captured (VInt 1) empty_world))
                  ltac:(apply Nat.leb_le; vm_compute; reflexivity)) as (H & _).
    cbv zeta in H. rewrite Hm in H. exfalso. apply (proj1 H eq_refl).
    exists (VInt 1). split; [left; reflexivity|reflexivity].
Defined.

(** ** Bootstrap requests *)




(** ** Requests the hook does not route *)

(** X24. A request of a call type other than [completion],
    [acompletion] and [anthropic_messages], and a request that already
    carries [policy_violation = true], pass the hook without policy
    enforcement, classification or routing once the context guard has
    let them through: model, system prompt, response and flags are the
    caller's, the messages are the ones the guard kept, the routing
    state is untouched, and the only metadata written after the context
    resolution are the stage keys. *)
Theorem unrouted_requests_pass_through (E : Env) (cfg : Config) (w : World)
    (data : Data) (call_type : string) :
  let d := rs_data (resolve_request_context E cfg w data) in
  let g := fst (_apply_context_exhaustion_protection E cfg d) in
  snd (_apply_context_exhaustion_protection E cfg d) = false ->
  get_str (metadata d) "request_type" <> Some "repo_bootstrap" ->
  is_chat_call call_type = false
  \/ get_str (metadata d) "policy_violation" = Some "true" ->
  let out := async_pre_call_hook E cfg w data call_type in
  model (snd out) = model data
  /\ system (snd out) = system data
  /\ messages (snd out) = messages g
  /\ response (snd out) = response data
  /\ skip_llm_call (snd out) = skip_llm_call data
  /\ do_not_route (snd out) = do_not_route data
  /\ same_routing_state w (fst out)
  /\ agree_except stage_keys (metadata d) (metadata (snd out)).
Proof.
  cbv zeta. intros Hrefused Hboot Hcase.
  destruct (resolve_frame E cfg w data)
    as ((Rm & Rmsg & Rs & Rl & Rr & Rsk & Rdn) & Rh & Rkeep & Rw & Rc & Rreg).
  unfold async_pre_call_hook.
  set (r := resolve_request_context E cfg w data) in *.
  rewrite guard_and_route_cases. cbv zeta.
  rewrite Hrefused. rewrite (bool_decide_eq_false_2 _ Hboot).
  destruct (guard_frame E cfg (rs_data r)) as (Gm & Gs & Gh & Gl & Ga & Gne & Gmsgs & Gresp).
  destruct (Gresp Hrefused) as (Gr & Gsk & Gdn).
  pose proof (at_gates_frame E cfg (rs_world r) (rs_data r)) as F. cbv zeta in F.
  destruct F as (Fm & Fs & Fmsg & Fl & Fr & Fsk & Fdn & Fa & Fa' & Fw & Fc & Froot).
  pose proof (capture_at_gates E cfg (rs_world r) (rs_data r) (rs_request_id r)) as C.
  cbv zeta in C. destruct C as (Cm & Cs & Cmsg & Cr & Csk & Cdn & Ca & Ca' & Cw).
  destruct (negb (is_chat_call call_type) || is_classification_call (rs_data r))%bool
    eqn:Hgate.
  - cbn [fst snd].
    split; [congruence|]. split; [congruence|]. split; [exact Fmsg|].
    split; [congruence|]. split; [congruence|]. split; [congruence|].
    split; [eapply same_routing_state_trans; [exact Rw|exact Fw]|exact Fa].
  - destruct Hcase as [Hchat|Hviol].
    { rewrite Hchat in Hgate. discriminate. }
    rewrite (bool_decide_eq_true_2 _ Hviol). cbn [fst snd].
    split; [congruence|]. split; [congruence|]. split; [exact Cmsg|].
    split; [congruence|]. split; [congruence|]. split; [congruence|].
    split; [eapply same_routing_state_trans; [exact Rw|exact Cw]|exact Ca].
Qed.

Lemma unrouted_requests_pass_through_witness :
  model (snd (async_pre_call_hook sample_env default_config empty_world
                scoped_hello "embedding")) = model scoped_hello.
Proof.
  apply (unrouted_requests_pass_through sample_env default_config empty_world
           scoped_hello "embedding").
  - vm_compute. reflexivity.
  - vm_compute. discriminate.
  - left. reflexivity.
Defined.

(** ** The routing bundle *)

(** The bundle [route_request] writes: its keys, its values, and where
    it goes. *)
Lemma route_request_bundle E cfg w d repo_root contract um request_id
    ledger_reminder ledger_alert :
  let out := route_request E cfg w d repo_root contract um request_id
               ledger_reminder ledger_alert in
  exists sanitized : list (string * string),
    map fst sanitized = routing_keys
    /\ Forall (fun kv => (String.length (snd kv) <= 200)%nat) sanitized
    /\ metadata (snd out) = update_metadata sanitized (metadata d)
    /\ messages (snd out)
       = messages (inject_enforcement repo_root contract ledger_reminder d)
    /\ router_metadata_cache (fst out)
       = match success_event_cache_key E (messages (snd out)) with
         | Some key => <[key := list_to_map sanitized]> (router_metadata_cache w)
         | None => router_metadata_cache w
         end.
Proof.
  cbv zeta. unfold route_request.
  destruct (inject_enforcement_frame repo_root contract ledger_reminder d)
    as (Im & Imd & Ir & Isk & Idn & Ih).
  set (d1 := inject_enforcement repo_root contract ledger_reminder d) in *.
  rewrite Imd.
  set (sid := _extract_session_id (metadata d)).
  set (w1 := apply_override_command E cfg sid um w).
  destruct (apply_override_command_frame E cfg sid um w) as (_ & _ & Hr1 & _).
  destruct (classify_frame E sid um w1) as (_ & Hr2).
  fold w1 in Hr1.
  destruct (classify E sid um w1) as [[[classification applied] remaining] w2].
  cbn [snd] in Hr2.
  set (sanitized := sanitized_metadata E _ _ _ _ _ _ _ _ _ _ _).
  exists sanitized.
  assert (Hkeys : map fst sanitized = routing_keys) by reflexivity.
  assert (Hlen : Forall (fun kv => (String.length (snd kv) <= 200)%nat) sanitized).
  { subst sanitized. unfold sanitized_metadata. apply Forall_forall. intros kv Hkv.
    apply list_elem_of_In, in_map_iff in Hkv as (x & <- & _). cbn [snd].
    unfold Str.take. apply substring_length_le. }
  set (d3 := set_metadata _ _).
  assert (Hd3 : messages d3 = messages d1
                /\ metadata d3 = update_metadata sanitized (metadata d)).
  { subst d3. cbn [messages metadata set_metadata set_model]. rewrite Imd.
    split; reflexivity. }
  destruct Hd3 as (D3 & D7).
  clearbody d3 sanitized.
  unfold success_event_cache_key.
  destruct (user_message_for_key_rev (rev (messages d3))) as [m|] eqn:Hm;
    [destruct (Str.nonempty m) eqn:Hne|]; cbn [fst snd];
    rewrite ?Hm, ?Hne; cbn [router_metadata_cache set_router_metadata_cache];
    (split; [exact Hkeys|]); (split; [exact Hlen|]); (split; [exact D7|]);
    (split; [exact D3|]); congruence.
Qed.

(** X25. Every value of the routing bundle is cut at 200 characters,
    and the bundle the hook writes into the request metadata is the one
    it stores for the post-call hook: it is stored under the key the
    post-call hook computes from the messages the request leaves with,
    and nothing is stored when these give no key. *)
Theorem routing_bundle_is_stored_for_the_success_event (E : Env) (cfg : Config)
    (w : World) (data : Data) (call_type : string) :
  let d := rs_data (resolve_request_context E cfg w data) in
  let g := fst (_apply_context_exhaustion_protection E cfg d) in
  passes_gates E cfg d call_type = true ->
  not_refused (get_str (metadata d) "repo_root") (extract_user_message g) ->
  let out := async_pre_call_hook E cfg w data call_type in
  (forall k, In k routing_keys ->
     exists v, metadata (snd out) !! k = Some (VStr v) /\ (String.length v <= 200)%nat)
  /\ match success_event_cache_key E (messages (snd out)) with
     | Some key =>
         exists bundle : gmap string string,
           router_metadata_cache (fst out) = <[key := bundle]> (router_metadata_cache w)
           /\ forall k v, bundle !! k = Some v
                          <-> In k routing_keys /\ metadata (snd out) !! k = Some (VStr v)
     | None => router_metadata_cache (fst out) = router_metadata_cache w
     end.
Proof.
  cbv zeta. intros Hgates Hnr.
  pose proof (hook_routes E cfg w data call_type) as H. cbv zeta in H.
  destruct (H Hgates Hnr)
    as (w' & d' & Heq & Wo & Wc & Wr & Wt & Dm & Ds & Dmsg & Dr & Da & Dsid).
  rewrite Heq. clear H Heq.
  match goal with
  | |- context [route_request E cfg w' d' ?root ?contract ?um ?rid ?lr ?la] =>
      pose proof (route_request_bundle E cfg w' d' root contract um rid lr la) as B;
      set (out := route_request E cfg w' d' root contract um rid lr la) in *
  end.
  cbv zeta in B. destruct B as (sanitized & Hkeys & Hlen & Hmd & _ & Hcache).
  assert (Hnd : List.NoDup (map fst sanitized)) by (rewrite Hkeys; apply routing_keys_NoDup).
  assert (Hkey : forall k v, In (k, v) sanitized ->
            metadata (snd out) !! k = Some (VStr v)).
  { intros k v Hin. rewrite Hmd. apply update_metadata_key; assumption. }
  assert (Hin : forall k, In k routing_keys -> exists v, In (k, v) sanitized).
  { intros k Hk. rewrite <- Hkeys in Hk. apply in_map_iff in Hk as ([k' v] & <- & Hin).
    exists v. exact Hin. }
  split.
  - intros k Hk. destruct (Hin k Hk) as (v & Hv). exists v. split; [apply Hkey, Hv|].
    rewrite Forall_forall in Hlen. apply (Hlen (k, v)). apply list_elem_of_In. exact Hv.
  - rewrite Hcache. destruct (success_event_cache_key E (messages (snd out))) as [key|].
    + exists (list_to_map sanitized). split; [rewrite Wr; reflexivity|].
      intros k v. split.
      * intros Hl. apply elem_of_list_to_map in Hl; [|apply NoDup_ListNoDup; exact Hnd].
        apply list_elem_of_In in Hl. split; [|apply Hkey, Hl].
        rewrite <- Hkeys. apply in_map_iff. exists (k, v). split; [reflexivity|exact Hl].
      * intros (Hk & Hv). destruct (Hin k Hk) as (v' & Hv').
        pose proof (Hkey k v' Hv') as Hl. rewrite Hv in Hl. injection Hl as ->.
        apply elem_of_list_to_map; [apply NoDup_ListNoDup; exact Hnd|].
        apply list_elem_of_In. exact Hv'.
    + exact Wr.
Qed.

Lemma routing_bundle_is_stored_for_the_success_event_witness :
  exists v, metadata (snd (async_pre_call_hook sample_env default_config empty_world
                             unscoped_hello "completion")) !! "routed_to_model"
            = Some (VStr v)
            /\ (String.length v <= 200)%nat.
Proof.
  assert (Hg : passes_gates sample_env default_config
                 (rs_data (resolve_request_context sample_env default_config empty_world
                             unscoped_hello)) "completion" = true)
    by (vm_compute; reflexivity).
  pose proof (routing_bundle_is_stored_for_the_success_event sample_env default_config
                empty_world unscoped_hello "completion" Hg) as H.
  cbv zeta in H.
  assert (Hnr : not_refused
                  (get_str
                     (metadata
                        (rs_data (resolve_request_context sample_env default_config
                                    empty_world unscoped_hello)))
                     "repo_root")
                  (extract_user_message
                     (fst (_apply_context_exhaustion_protection sample_env default_config
                             (rs_data (resolve_request_context sample_env default_config
                                         empty_world unscoped_hello)))))).
  { left. vm_compute. reflexivity. }
  destruct (H Hnr) as [H1 _].
  apply H1. unfold routing_keys. cbn [In]. tauto.
Defined.

(** ** The block limit *)

(** A block is within the block limit, or it is the stub of a
    suppressed block. *)
Lemma pass1_step_within_limit E cfg st m :
  exists m',
    p1_messages (pass1_step E cfg st m) = (p1_messages st ++ [m'])%list
    /\ (message_tokens m' <= Z.max 0 (CONTEXT_BLOCK_LIMIT_TOKENS cfg)
        \/ exists n, CONTEXT_BLOCK_LIMIT_TOKENS cfg < n
                     /\ content m' = ContentStr (suppressed_stub cfg n)).
Proof.
  assert (Hsmall : forall text,
            (Str.nonempty text
             && (CONTEXT_BLOCK_LIMIT_TOKENS cfg <? _estimate_tokens_from_text text))%bool = false ->
            _estimate_tokens_from_text text <= Z.max 0 (CONTEXT_BLOCK_LIMIT_TOKENS cfg)).
  { intros text H. apply andb_false_iff in H as [H|H].
    - unfold _estimate_tokens_from_text. rewrite H. cbn [negb]. lia.
    - apply Z.ltb_ge in H. lia. }
  unfold pass1_step, message_tokens.
  destruct (Str.nonempty (_normalize_message_text m)
            && (CONTEXT_DUPLICATE_MIN_TOKENS cfg
                <=? _estimate_tokens_from_text (_normalize_message_text m)))%bool.
  - destruct (bool_decide (sha256_hex E (_normalize_message_text m) ∈ p1_seen st)).
    + destruct (Str.nonempty duplicate_stub
                && (CONTEXT_BLOCK_LIMIT_TOKENS cfg
                    <? _estimate_tokens_from_text duplicate_stub))%bool eqn:Hbig.
      * apply andb_true_iff in Hbig as [_ Hbig]. apply Z.ltb_lt in Hbig.
        eexists. cbn [p1_messages]. split; [reflexivity|].
        right. eexists. split; [exact Hbig|reflexivity].
      * eexists. cbn [p1_messages]. split; [reflexivity|].
        left. apply (Hsmall duplicate_stub Hbig).
    + destruct (Str.nonempty (_normalize_message_text m)
                && (CONTEXT_BLOCK_LIMIT_TOKENS cfg
                    <? _estimate_tokens_from_text (_normalize_message_text m)))%bool eqn:Hbig.
      * apply andb_true_iff in Hbig as [_ Hbig]. apply Z.ltb_lt in Hbig.
        eexists. cbn [p1_messages]. split; [reflexivity|].
        right. eexists. split; [exact Hbig|reflexivity].
      * eexists. cbn [p1_messages]. split; [reflexivity|].
        left. apply (Hsmall _ Hbig).
  - destruct (Str.nonempty (_normalize_message_text m)
              && (CONTEXT_BLOCK_LIMIT_TOKENS cfg
                  <? _estimate_tokens_from_text (_normalize_message_text m)))%bool eqn:Hbig.
    + apply andb_true_iff in Hbig as [_ Hbig]. apply Z.ltb_lt in Hbig.
      eexists. cbn [p1_messages]. split; [reflexivity|].
      right. eexists. split; [exact Hbig|reflexivity].
    + eexists. cbn [p1_messages]. split; [reflexivity|].
      left. apply (Hsmall _ Hbig).
Qed.

Lemma pass1_fold_within_limit E cfg msgs st :
  exists out,
    p1_messages (fold_left (pass1_step E cfg) msgs st) = (p1_messages st ++ out)%list
    /\ Forall (fun m' =>
                 message_tokens m' <= Z.max 0 (CONTEXT_BLOCK_LIMIT_TOKENS cfg)
                 \/ exists n, CONTEXT_BLOCK_LIMIT_TOKENS cfg < n
                              /\ content m' = ContentStr (suppressed_stub cfg n)) out.
Proof.
  revert st. induction msgs as [|m msgs IH]; intros st.
  - exists []. cbn [fold_left]. rewrite app_nil_r.
    split; [reflexivity|constructor].
  - cbn [fold_left].
    destruct (pass1_step_within_limit E cfg st m) as (m' & S1 & S2).
    destruct (IH (pass1_step E cfg st m)) as (out & I1 & I2).
    exists (m' :: out). rewrite I1, S1, <- app_assoc.
    split; [reflexivity|constructor; assumption].
Qed.

(** X26. After pass 1 of the context guard no block is above the block
    limit, the stubs of suppressed blocks apart: every block left has
    an estimate of at most the limit, or is the stub that names the
    size of the block it replaces, a size above the limit. *)
Theorem blocks_are_within_the_block_limit (E : Env) (cfg : Config) (msgs : list Message) :
  0 <= CONTEXT_BLOCK_LIMIT_TOKENS cfg ->
  Forall (fun m' =>
            message_tokens m' <= CONTEXT_BLOCK_LIMIT_TOKENS cfg
            \/ exists n, CONTEXT_BLOCK_LIMIT_TOKENS cfg < n
                         /\ content m' = ContentStr (suppressed_stub cfg n))
         (p1_messages (pass1 E cfg msgs)).
Proof.
  intros Hlimit. unfold pass1.
  destruct (pass1_fold_within_limit E cfg msgs
              {| p1_messages := []; p1_total := ENFORCEMENT_OVERHEAD_TOKENS cfg;
                 p1_duplicates := 0; p1_large_blocks := 0; p1_seen := ∅ |})
    as (out & H1 & H2).
  rewrite H1. cbn [p1_messages app].
  eapply Forall_impl; [exact H2|]. cbn beta.
  intros x [Hx|Hx]; [left; lia|right; exact Hx].
Qed.

Lemma blocks_are_within_the_block_limit_witness :
  Forall (fun m' =>
            message_tokens m' <= CONTEXT_BLOCK_LIMIT_TOKENS small_config
            \/ exists n, CONTEXT_BLOCK_LIMIT_TOKENS small_config < n
                         /\ content m' = ContentStr (suppressed_stub small_config n))
         (p1_messages (pass1 sample_env small_config sample_conversation)).
Proof.
  apply (blocks_are_within_the_block_limit sample_env small_config sample_conversation).
  vm_compute. discriminate.
Defined.

(** ** The context marker of the system prompt *)

(** The fields found by the loop over the parts of a marker text come
    from parts that start with [repo=] and [repo_root=]. *)
Lemma marker_fields_sound (parts : list string) :
  (forall r, fst (marker_fields parts) = Some r ->
     exists part v, In part parts /\ Str.strip_prefix "repo=" part = Some v
                    /\ r = Str.strip v)
  /\ (forall rr, snd (marker_fields parts) = Some rr ->
        exists part v, In part parts /\ Str.strip_prefix "repo_root=" part = Some v
                       /\ rr = Str.strip v).
Proof.
  unfold marker_fields.
  assert (H : forall acc,
            (forall r, fst acc = Some r ->
               exists part v, In part parts /\ Str.strip_prefix "repo=" part = Some v
                              /\ r = Str.strip v) ->
            (forall rr, snd acc = Some rr ->
               exists part v, In part parts /\ Str.strip_prefix "repo_root=" part = Some v
                              /\ rr = Str.strip v) ->
            forall done todo, parts = (done ++ todo)%list ->
            let res := fold_left
                         (fun acc part =>
                            match Str.strip_prefix "repo=" part with
                            | Some v => (Some (Str.strip v), snd acc)
                            | None =>
                                match Str.strip_prefix "repo_root=" part with
                                | Some v => (fst acc, Some (Str.strip v))
                                | None => acc
                                end
                            end) todo acc in
            (forall r, fst res = Some r ->
               exists part v, In part parts /\ Str.strip_prefix "repo=" part = Some v
                              /\ r = Str.strip v)
            /\ (forall rr, snd res = Some rr ->
                  exists part v, In part parts
                                 /\ Str.strip_prefix "repo_root=" part = Some v
                                 /\ rr = Str.strip v)).
  { intros acc Ha Hb done todo. revert acc Ha Hb done.
    induction todo as [|p todo IH]; intros acc Ha Hb done Hparts.
    - cbn [fold_left]. split; assumption.
    - cbn [fold_left].
      assert (Hp : In p parts) by (rewrite Hparts; apply in_or_app; right; left; reflexivity).
      apply (IH _) with (done := (done ++ [p])%list);
        [| |rewrite <- app_assoc; exact Hparts].
      + destruct (Str.strip_prefix "repo=" p) as [v|] eqn:H1.
        * cbn [fst]. intros r [= <-]. exists p, v. auto.
        * destruct (Str.strip_prefix "repo_root=" p); [cbn [fst]|]; exact Ha.
      + destruct (Str.strip_prefix "repo=" p) as [v|] eqn:H1.
        * cbn [snd]. exact Hb.
        * destruct (Str.strip_prefix "repo_root=" p) as [v|] eqn:H2; [|exact Hb].
          cbn [snd]. intros rr [= <-]. exists p, v. auto. }
  apply (H (None, None)) with (done := []); [discriminate|discriminate|reflexivity].
Qed.

Lemma first_marker_sound (candidates : list string) repo repo_root :
  first_marker candidates = Some (repo, repo_root) ->
  Str.nonempty repo = true /\ Str.nonempty repo_root = true
  /\ exists text,
       In text candidates /\ Str.contains "LITELLM_CONTEXT" text = true
       /\ marker_fields (Str.words (Str.remove "-->" (Str.remove "<!--" text)))
          = (Some repo, Some repo_root).
Proof.
  induction candidates as [|text rest IH]; cbn [first_marker]; [discriminate|].
  assert (Hrest : first_marker rest = Some (repo, repo_root) ->
            Str.nonempty repo = true /\ Str.nonempty repo_root = true
            /\ exists text0,
                 In text0 (text :: rest) /\ Str.contains "LITELLM_CONTEXT" text0 = true
                 /\ marker_fields (Str.words (Str.remove "-->" (Str.remove "<!--" text0)))
                    = (Some repo, Some repo_root)).
  { intros H. destruct (IH H) as (H1 & H2 & t & Ht & Hc & Hf).
    split; [exact H1|]. split; [exact H2|]. exists t. split; [right; exact Ht|]. auto. }
  destruct (Str.contains "LITELLM_CONTEXT" text) eqn:Hc; cbn [negb]; [|exact Hrest].
  destruct (marker_fields _) as [[r|] [rr|]] eqn:Hf; try exact Hrest.
  destruct (Str.nonempty r) eqn:Hr; cbn [andb]; [|exact Hrest].
  destruct (Str.nonempty rr) eqn:Hrr; [|exact Hrest].
  intros [= <- <-]. split; [exact Hr|]. split; [exact Hrr|].
  exists text. split; [left; reflexivity|]. split; [exact Hc|exact Hf].
Qed.

Lemma marker_candidates_sound (data : Data) text :
  In text (marker_candidates data) ->
  system data = Some text
  \/ exists msg, In msg (messages data)
                 /\ (role msg = "system" \/ role msg = "user")
                 /\ content msg = ContentStr text.
Proof.
  unfold marker_candidates. intros H. apply in_app_or in H as [H|H].
  - left. destruct (system data) as [s|]; [|contradiction].
    destruct H as [<-|[]]. reflexivity.
  - right. apply list_elem_of_In, list_elem_of_omap in H as (msg & Hmsg & Hsome).
    exists msg. split; [apply list_elem_of_In; exact Hmsg|].
    destruct (String.eqb (role msg) "system" || String.eqb (role msg) "user")%bool eqn:Hrole;
      [|discriminate].
    destruct (content msg) as [c| | | |]; try discriminate.
    destruct (Str.contains "LITELLM_CONTEXT" c); [|discriminate].
    injection Hsome as <-. split; [|reflexivity].
    apply orb_true_iff in Hrole as [Hr|Hr]; apply String.eqb_eq in Hr; auto.
Qed.

(** X27. A repository context read from a [LITELLM_CONTEXT] marker has
    a non-empty name and a non-empty root, both taken from one text
    that holds the marker: the system prompt, or the string content of
    a system or user message.  The name is what follows [repo=] in one
    of the white-space separated parts of that text, the root what
    follows [repo_root=], each stripped. *)
Theorem marker_context_is_complete (data : Data) (repo repo_root : string) :
  extract_repo_context_from_system data = Some (repo, repo_root) ->
  Str.nonempty repo = true
  /\ Str.nonempty repo_root = true
  /\ exists text,
       (system data = Some text
        \/ exists msg, In msg (messages data)
                       /\ (role msg = "system" \/ role msg = "user")
                       /\ content msg = ContentStr text)
       /\ Str.contains "LITELLM_CONTEXT" text = true
       /\ (exists part v,
             In part (Str.words (Str.remove "-->" (Str.remove "<!--" text)))
             /\ Str.strip_prefix "repo=" part = Some v /\ repo = Str.strip v)
       /\ (exists part v,
             In part (Str.words (Str.remove "-->" (Str.remove "<!--" text)))
             /\ Str.strip_prefix "repo_root=" part = Some v /\ repo_root = Str.strip v).
Proof.
  unfold extract_repo_context_from_system. intros H.
  destruct (first_marker_sound _ _ _ H) as (H1 & H2 & text & Hin & Hc & Hf).
  split; [exact H1|]. split; [exact H2|]. exists text.
  split; [apply marker_candidates_sound; exact Hin|]. split; [exact Hc|].
  destruct (marker_fields_sound
              (Str.words (Str.remove "-->" (Str.remove "<!--" text)))) as [Ha Hb].
  rewrite Hf in Ha, Hb. split; [apply Ha|apply Hb]; reflexivity.
Qed.

Lemma marker_context_is_complete_witness :
  Str.nonempty "foo" = true /\ Str.nonempty "/path" = true.
Proof.
  assert (H : extract_repo_context_from_system
                {| model := None; messages := [];
                   system := Some "<!-- LITELLM_CONTEXT repo=foo repo_root=/path -->";
                   metadata := ∅; headers := ∅; litellm_metadata := ∅; response := None;
                   skip_llm_call := false; do_not_route := false |}
              = Some ("foo", "/path")) by (vm_compute; reflexivity).
  destruct (marker_context_is_complete _ _ _ H) as (H1 & H2 & _).
  split; [exact H1|exact H2].
Defined.

(** ** Session files *)

Lemma sanitize_id_safe (s : string) (c : ascii) :
  In c (list_ascii_of_string (sanitize_id s)) -> safe_char c = true.
Proof.
  induction s as [|a s IH]; cbn [sanitize_id]; [intros []|].
  destruct (safe_char a) eqn:Ha; [|exact IH].
  cbn [list_ascii_of_string]. intros [<-|H]; [exact Ha|apply IH, H].
Qed.

Lemma sanitize_id_idempotent (s : string) : sanitize_id (sanitize_id s) = sanitize_id s.
Proof.
  induction s as [|a s IH]; [reflexivity|].
  cbn [sanitize_id]. destruct (safe_char a) eqn:Ha; [|exact IH].
  cbn [sanitize_id]. rewrite Ha, IH. reflexivity.
Qed.

(** X28. The name of a session file holds only letters, digits, [_],
    [.] and [-], so no path separator: sanitizing an id leaves nothing
    else, and does nothing to an id already sanitized.  Writing the
    session file of a session changes the file of that name and no
    other, and writes nothing when the id, the repository name or the
    root is missing or the sanitized id is empty. *)
Theorem session_file_name_is_sanitized (E : Env) (session_id repo repo_root : option string)
    (w : World) :
  let w' := _write_session_file E session_id repo repo_root w in
  let name := sanitize_id (default "" session_id) in
  (forall c, In c (list_ascii_of_string name) -> safe_char c = true /\ c <> "/"%char)
  /\ sanitize_id name = name
  /\ (forall k, k <> name -> session_files w' !! k = session_files w !! k)
  /\ (truthy_str session_id && truthy_str repo && truthy_str repo_root
       && Str.nonempty name = false -> w' = w)%bool
  /\ (truthy_str session_id && truthy_str repo && truthy_str repo_root
       && Str.nonempty name = true ->
       session_files w' !! name
       = Some {| sf_repo := repo; sf_repo_root := repo_root; sf_mtime := utcnow E |})%bool.
Proof.
  cbv zeta. split; [|split; [|split; [|split]]].
  - intros c Hc. pose proof (sanitize_id_safe _ _ Hc) as Hs. split; [exact Hs|].
    intros ->. vm_compute in Hs. discriminate.
  - apply sanitize_id_idempotent.
  - intros k Hk. unfold _write_session_file.
    destruct (negb _); [reflexivity|]. destruct (negb _); [reflexivity|].
    cbn [session_files set_session_files]. apply lookup_insert_ne. congruence.
  - intros H. unfold _write_session_file.
    destruct (truthy_str session_id && truthy_str repo && truthy_str repo_root)%bool;
      cbn [negb andb] in *; [|reflexivity].
    rewrite H. reflexivity.
  - intros H. apply andb_true_iff in H as [H1 H2]. unfold _write_session_file.
    rewrite H1, H2. cbn [negb]. cbn [session_files set_session_files].
    apply lookup_insert_eq.
Qed.

Lemma session_file_name_is_sanitized_witness :
  session_files (_write_session_file sample_env (Some "a/b") (Some "80HD") (Some "/repo")
                   empty_world) !! "ab"
  = Some {| sf_repo := Some "80HD"; sf_repo_root := Some "/repo";
            sf_mtime := utcnow sample_env |}.
Proof.
  apply (proj2 (proj2 (proj2 (proj2
           (session_file_name_is_sanitized sample_env (Some "a/b") (Some "80HD")
              (Some "/repo") empty_world))))).
  reflexivity.
Defined.

(** ** The request id *)

(** A key other than [repo] and [repo_root] that the merged metadata
    holds is kept by the resolution of the repository context. *)
Lemma resolve_keeps_merged (E : Env) (cfg : Config) (w : World) (d : Data) rid k v :
  k <> "repo" -> k <> "repo_root" ->
  rid = match metadata d !! "request_id" with
        | Some v => if truthy v then v else VStr (Str.take 12 (uuid4_hex E))
        | None => VStr (Str.take 12 (uuid4_hex E))
        end ->
  (setdefault "router_build_id" (VStr (ROUTER_BUILD_ID cfg))
     (<["request_id" := rid]> (metadata d)) ∪ litellm_metadata d) !! k = Some v ->
  metadata (rs_data (resolve_request_context E cfg w d)) !! k = Some v.
Proof.
  intros Hk1 Hk2 -> H1. unfold resolve_request_context.
  set (rid := match metadata d !! "request_id" with Some _ => _ | None => _ end) in *.
  set (md1 := (setdefault "router_build_id" _ _) ∪ litellm_metadata d) in *.
  set (md2 := fst (apply_repo_context _ _ true md1)).
  set (md3 := fst (apply_repo_context _ _ false md2)).
  assert (H3 : md3 !! k = Some v).
  { subst md3 md2. rewrite !apply_repo_context_other by assumption. exact H1. }
  set (md4 := match CLAUDE_METADATA E with Some _ => _ | None => md3 end).
  assert (H4 : md4 !! k = Some v).
  { subst md4. destruct (CLAUDE_METADATA E) as [cm|]; [|exact H3].
    rewrite apply_repo_context_other by assumption.
    apply lookup_union_Some_l. exact H3. }
  set (md5 := match extract_repo_context_from_system d with Some _ => _ | None => md4 end).
  assert (H5 : md5 !! k = Some v).
  { subst md5. destruct (extract_repo_context_from_system d) as [[r rr]|]; [|exact H4].
    rewrite apply_repo_context_other by assumption. exact H4. }
  destruct (_get_session_repo_context E (_extract_session_id md5) w) as [ctx w1].
  destruct ctx as [info|].
  - cbn [rs_data metadata set_metadata].
    rewrite apply_repo_context_other by assumption. exact H5.
  - destruct (truthy_str (_extract_session_id md5)); [|exact H5].
    destruct (_load_repo_context_from_session_file E cfg (_extract_session_id md5) w1)
      as [[[r rr]|] w2]; [|exact H5].
    pose proof (apply_repo_context_other (Some r) (Some rr) false md5 k Hk1 Hk2) as H6.
    destruct (apply_repo_context (Some r) (Some rr) false md5) as [md6 applied].
    cbn [rs_data metadata set_metadata]. cbn [fst] in H6. rewrite H6. exact H5.
Qed.

(** X29. Every request gets a request id before anything else runs:
    the id of the caller when the metadata holds one that Python
    takes for true, whatever its type, and the first twelve
    characters of a fresh UUID when it holds none or one that Python
    takes for false, such as the empty string or zero.  The id is
    written to the metadata, a build id is there too, and a build id
    supplied by the caller is not replaced. *)
Theorem request_id_is_kept_or_minted (E : Env) (cfg : Config) (w : World) (d : Data) :
  let r := resolve_request_context E cfg w d in
  let minted := VStr (Str.take 12 (uuid4_hex E)) in
  (forall v, metadata d !! "request_id" = Some v -> truthy v = true ->
     rs_request_id r = v)
  /\ (forall v, metadata d !! "request_id" = Some v -> truthy v = false ->
        rs_request_id r = minted)
  /\ (metadata d !! "request_id" = None -> rs_request_id r = minted)
  /\ (String.length (Str.take 12 (uuid4_hex E)) <= 12)%nat
  /\ metadata (rs_data r) !! "request_id" = Some (rs_request_id r)
  /\ (forall b, metadata d !! "router_build_id" = Some b ->
        metadata (rs_data r) !! "router_build_id" = Some b)
  /\ (metadata d !! "router_build_id" = None ->
      metadata (rs_data r) !! "router_build_id" = Some (VStr (ROUTER_BUILD_ID cfg))).
Proof.
  cbv zeta. rewrite resolve_request_id.
  split; [|split; [|split; [|split; [|split; [|split]]]]].
  - intros v Hv Ht. rewrite Hv, Ht. reflexivity.
  - intros v Hv Ht. rewrite Hv, Ht. reflexivity.
  - intros Hv. rewrite Hv. reflexivity.
  - unfold Str.take. apply substring_length_le.
  - eapply resolve_keeps_merged; [discriminate|discriminate|reflexivity|].
    apply lookup_union_Some_l. unfold setdefault.
    destruct (_ !! "router_build_id").
    + apply lookup_insert_eq.
    + rewrite lookup_insert_ne by discriminate. apply lookup_insert_eq.
  - intros b Hb. eapply resolve_keeps_merged; [discriminate|discriminate|reflexivity|].
    apply lookup_union_Some_l. unfold setdefault.
    rewrite lookup_insert_ne by discriminate. rewrite Hb.
    rewrite lookup_insert_ne by discriminate. exact Hb.
  - intros Hb. eapply resolve_keeps_merged; [discriminate|discriminate|reflexivity|].
    apply lookup_union_Some_l. unfold setdefault.
    rewrite lookup_insert_ne by discriminate. rewrite Hb.
    apply lookup_insert_eq.
Qed.

Lemma request_id_is_kept_or_minted_witness :
  rs_request_id (resolve_request_context sample_env small_config empty_world
                   (request (<["request_id" := VStr "req-7"]> ∅) ∅ []))
  = VStr "req-7"
  /\ rs_request_id (resolve_request_context sample_env small_config empty_world
                      (request (<["request_id" := VInt 7]> ∅) ∅ []))
     = VInt 7
  /\ rs_request_id (resolve_request_context sample_env small_config empty_world
                      (request (<["request_id" := VInt 0]> ∅) ∅ []))
     = VStr (Str.take 12 (uuid4_hex sample_env)).
Proof.
  split; [|split].
  - apply (proj1 (request_id_is_kept_or_minted sample_env small_config empty_world
                    (request (<["request_id" := VStr "req-7"]> ∅) ∅ []))); reflexivity.
  - apply (proj1 (request_id_is_kept_or_minted sample_env small_config empty_world
                    (request (<["request_id" := VInt 7]> ∅) ∅ []))); reflexivity.
  - apply (proj1 (proj2 (request_id_is_kept_or_minted sample_env small_config empty_world
                           (request (<["request_id" := VInt 0]> ∅) ∅ []))) (VInt 0));
      reflexivity.
Defined.
